(** * Session lifecycle of the chat wagering games (darts, football, coin)

    A shallow embedding of the session engine of [src/darts.py],
    [src/football.py], [src/coin.py] and of the callback wrapper of
    [src/main.py].

    Conventions of the embedding.
    - [context.bot_data] and the per-user [context.user_data] dictionaries are
      finite maps; a handler is a function from the state before the update
      to a reply and the state after it: the outcome of the update when no
      other update is handled during its awaits.  The application runs
      every update as a task of its own; the section "Updates that overlap"
      cuts the darts throw and the coin flip at their awaits and interleaves
      the tasks of several presses.
    - Amounts are Python floats in the source; they are exact rationals here,
      so rounding is not represented.
    - What the chat transport returns (the id of a message just sent, the
      value of a thrown die, a row of the users table) is an argument of the
      handler.
    - A Python exception ends the handler with the reply [Raised]; the state
      keeps every mutation made before the exception. *)

From Stdlib Require Import ZArith QArith Lqa String.
From stdpp Require Import gmap strings list fin_maps.

Close Scope Q_scope.
Open Scope Z_scope.

(** ** Data model *)

Inductive variant := Darts | Football.

(** The dictionary keys ['player1'] and ['player2']. *)
Inductive slot := Player1 | Player2.

Definition slot_eqb (a b : slot) : bool :=
  match a, b with
  | Player1, Player1 | Player2, Player2 => true
  | _, _ => false
  end.

Definition other_slot (s : slot) : slot :=
  match s with Player1 => Player2 | Player2 => Player1 end.

(** A dictionary [{'player1': x, 'player2': y}]. *)
Record per_slot (A : Type) := PerSlot { at1 : A; at2 : A }.
Arguments PerSlot {A} _ _.
Arguments at1 {A} _.
Arguments at2 {A} _.

Definition get_slot {A} (d : per_slot A) (s : slot) : A :=
  match s with Player1 => at1 d | Player2 => at2 d end.

Definition set_slot {A} (d : per_slot A) (s : slot) (x : A) : per_slot A :=
  match s with
  | Player1 => PerSlot x (at2 d)
  | Player2 => PerSlot (at1 d) x
  end.

(** A session key [(chat_id, player1, player2)]; the third component is
    [None] for the literal ['bot']. *)
Abbreviation game_key := (Z * Z * option Z)%type.

(** The game dictionary built by [start_game_against_bot] and by the accept
    branch.  [player2 = None] is the synthetic opponent ['bot']. *)
Record game := Game {
  player1 : Z;
  player2 : option Z;
  mode : string;
  points_to_win : Z;
  bet : Q;
  scores : per_slot Z;
  current_player : slot;
  rolls : per_slot (list Z);
  rolls_needed : Z;
  roll_count : per_slot Z;
  round_number : Z;
  message_id : option Z
}.

(** An entry of [pending_challenges]. *)
Record challenge := Challenge {
  c_initiator : Z;
  c_challenged : Z;
  c_mode : string;
  c_points_to_win : Z;
  c_bet : Q
}.

(** An entry of [last_games[chat_id]]; [lg_opponent = None] is ['bot']. *)
Record last_game := LastGame {
  lg_opponent : option Z;
  lg_mode : string;
  lg_points_to_win : Z;
  lg_bet : Q
}.

(** The setup dictionary of a negotiation (the ['state'] entry is written
    but never read, and is left out). *)
Record setup := Setup {
  su_initiator : Z;
  su_bet : Q;
  su_message_id : option Z
}.

Inductive side := heads | tails.

Definition side_eqb (a b : side) : bool :=
  match a, b with
  | heads, heads | tails, tails => true
  | _, _ => false
  end.

(** [coin_setup]: after a flip only ['bet'] is present, so the other
    entries are optional. *)
Record coin_setup_t := CoinSetup {
  cs_initiator : option Z;
  cs_bet : Q;
  cs_message_id : option (option Z);
  cs_choice : option side
}.

Record coin_game := CoinGame {
  cg_bet : Q;
  cg_choice : side;
  cg_match_message_id : Z
}.

(** [context.user_data] of one user. *)
Record udata := UData {
  dart_setup : option setup;
  dart_mode : option string;
  dart_points : option Z;
  football_setup : option setup;
  football_mode : option string;
  football_points : option Z;
  expecting_username : bool;
  dice_setup : option setup;
  coin_setup : option coin_setup_t
}.

Definition empty_udata : udata :=
  UData None None None None None None false None None.

(** The process-wide state: [context.bot_data], every user's
    [context.user_data] and the balance column of the users table.  The
    darts and football code reads its [bot_data] entries with [get] and a
    default, so an absent entry is the empty map; [coin_flip] subscripts
    [bot_data['coin_games']], so for that entry absence, [None], is kept
    apart from the empty dictionary. *)
Record state := State {
  games : gmap game_key game;
  user_games : gmap (Z * Z) game_key;
  pending_challenges : gmap Z challenge;
  last_games : gmap Z (gmap Z last_game);
  coin_games : option (gmap (Z * Z) coin_game);
  user_data : gmap Z udata;
  balances : gmap Z Q
}.

Definition empty_state : state := State ∅ ∅ ∅ ∅ None ∅ ∅.

Definition set_games (m : gmap game_key game) (st : state) : state :=
  State m (user_games st) (pending_challenges st) (last_games st)
        (coin_games st) (user_data st) (balances st).

Definition set_user_games (m : gmap (Z * Z) game_key) (st : state) : state :=
  State (games st) m (pending_challenges st) (last_games st)
        (coin_games st) (user_data st) (balances st).

Definition set_pending_challenges (m : gmap Z challenge) (st : state) : state :=
  State (games st) (user_games st) m (last_games st)
        (coin_games st) (user_data st) (balances st).

Definition set_last_games (m : gmap Z (gmap Z last_game)) (st : state) : state :=
  State (games st) (user_games st) (pending_challenges st) m
        (coin_games st) (user_data st) (balances st).

Definition set_coin_games (m : option (gmap (Z * Z) coin_game)) (st : state) : state :=
  State (games st) (user_games st) (pending_challenges st) (last_games st)
        m (user_data st) (balances st).

Definition set_user_data (m : gmap Z udata) (st : state) : state :=
  State (games st) (user_games st) (pending_challenges st) (last_games st)
        (coin_games st) m (balances st).

Definition set_balances (m : gmap Z Q) (st : state) : state :=
  State (games st) (user_games st) (pending_challenges st) (last_games st)
        (coin_games st) (user_data st) m.

(** [context.user_data] of [user_id]; a user never seen has the empty
    dictionary. *)
Definition udata_of (st : state) (user_id : Z) : udata :=
  default empty_udata (user_data st !! user_id).

Definition put_udata (user_id : Z) (ud : udata) (st : state) : state :=
  set_user_data (<[user_id := ud]> (user_data st)) st.

(** [context.bot_data.get('coin_games', {}).get(key)] *)
Definition coin_game_of (st : state) (key : Z * Z) : option coin_game :=
  default ∅ (coin_games st) !! key.

(** [game] is an alias of the dictionary stored under [game_key]: a
    mutation of [game] is a store under that key. *)
Definition write_game (k : game_key) (g : game) (st : state) : state :=
  set_games (<[k := g]> (games st)) st.

(** ** The balance ledger *)

(** Modelled from the spec: the [database] module the games import
    ([user_exists], [get_user_balance], [update_user_balance]) is not among
    the sources.  It is the BalanceLedger of the spec (read and adjust one
    participant's balance), with the row semantics of the functions of the
    same names in [src/main.py]: a user without a row reads as 0 and an
    UPDATE of a missing row changes nothing. *)
Definition user_exists (st : state) (user_id : Z) : bool :=
  bool_decide (is_Some (balances st !! user_id)).

Definition get_user_balance (st : state) (user_id : Z) : Q :=
  default 0%Q (balances st !! user_id).

Definition update_user_balance (user_id : Z) (new_balance : Q) (st : state) : state :=
  match balances st !! user_id with
  | Some _ => set_balances (<[user_id := new_balance]> (balances st)) st
  | None => st
  end.

(** ** Replies *)

Inductive reply :=
| AlreadyInGame          (* "You are already in a game!" *)
| OneOfYouInGame         (* "One of you is already in a game!" *)
| OpponentInGame         (* "@... is already in a game!" *)
| NotYourSetup           (* "This is not your game setup!" *)
| NoActiveGame           (* "No active game found!" *)
| GameDataMissing        (* "Game data missing!" *)
| NotCurrentMessage      (* "This is not your current game message!" *)
| GameEnded              (* "The game has already ended!" *)
| PreviousRound          (* "This button is from a previous round!" *)
| NotYourTurn            (* "It's not your turn!" *)
| ThrowFailed            (* "Failed to throw the dart. ..." *)
| BotThrowFailed         (* "Failed to throw the dart for the bot. ..." *)
| RollsIncomplete        (* "Error: Rolls incomplete. ..." *)
| ChallengeInvalid       (* "Challenge no longer valid." *)
| NoPreviousGame         (* "No previous game found." *)
| InsufficientBalance    (* "Insufficient balance! ..." *)
| NotEnoughForDouble     (* "One of you doesn't have enough balance ..." *)
| OpponentUnderfunded    (* "@... doesn't have enough balance!" *)
| InvalidUsername        (* "Invalid username. Use @username." *)
| UserNotFound           (* "User @... not found." *)
| SelfChallenge          (* "You can't challenge yourself!" *)
| InvalidBet             (* "Invalid bet amount: ..." / "Bet must be positive." *)
| PleaseRegister         (* "Please register with /start." *)
| OldGameButton          (* "This button is from an old game!" *)
| NoGameOrSetup          (* "No active game or setup found!" *)
| Silent                 (* the handler returns without any message *)
| SetupPrompt            (* a setup or confirmation prompt was shown *)
| SetupCancelled         (* "Game setup cancelled." *)
| MatchStarted           (* "Match started!" *)
| ThrowAgain             (* "Round n: Throw again!" *)
| NextTurn               (* "Round n: @..., your turn!" *)
| RoundResult            (* round results and the next round's prompt *)
| GameOver (winner : slot)  (* final results *)
| ChallengeSent (game_id : Z)
| ChallengeDeclined
| CoinLanded (coin_result : side)
| Raised.                (* an uncaught Python exception *)

(** The comparison [x > y] of two amounts. *)
Definition Qgt_bool (x y : Q) : bool := negb (Qle_bool x y).

(** ** Round scoring *)

Definition sum_rolls (l : list Z) : Z := foldr Z.add 0 l.

(** darts [evaluate_round], the three mode branches.  [rolls[0]] on an
    empty list raises IndexError: the result is [None]. *)
Definition darts_scores (mode : string) (rolls1 rolls2 : list Z) : option (Z * Z) :=
  if (mode =? "normal")%string then
    match rolls1, rolls2 with
    | r1 :: _, r2 :: _ => Some (r1, r2)
    | _, _ => None
    end
  else if (mode =? "double")%string then
    Some (sum_rolls rolls1, sum_rolls rolls2)
  else
    match rolls1, rolls2 with
    | r1 :: _, r2 :: _ => Some (7 - r1, 7 - r2)
    | _, _ => None
    end.

(** football [calculate_effective_score].  An unknown mode returns Python's
    [None], and the comparison that follows raises: the result is [None]
    in that case, as it is for [rolls[0]] on an empty list. *)
Definition calculate_effective_score (rolls : list Z) (mode : string) : option Z :=
  if (mode =? "normal")%string then
    match rolls with
    | r :: _ => Some (if 3 <=? r then r else 0)
    | [] => None
    end
  else if (mode =? "double")%string then
    Some (sum_rolls (List.filter (fun roll => 3 <=? roll) rolls))
  else if (mode =? "crazy")%string then
    match rolls with
    | r :: _ => Some (if r =? 1 then 1 else 0)
    | [] => None
    end
  else None.

(** The pair of computed scores of a round under the active rule. *)
Definition computed_scores (v : variant) (mode : string) (rolls1 rolls2 : list Z)
  : option (Z * Z) :=
  match v with
  | Darts => darts_scores mode rolls1 rolls2
  | Football =>
      match calculate_effective_score rolls1 mode,
            calculate_effective_score rolls2 mode with
      | Some e1, Some e2 => Some (e1, e2)
      | _, _ => None
      end
  end.

(** Which slot, if any, gets the point of the round. *)
Definition award (v : variant) (score1 score2 : Z) : option slot :=
  match v with
  | Darts =>
      if score1 >? score2 then Some Player1
      else if score2 >? score1 then Some Player2
      else None
  | Football =>
      if (score1 >? 0) && (score2 =? 0) then Some Player1
      else if (score2 >? 0) && (score1 =? 0) then Some Player2
      else None
  end.

(** ** Mutations of a game dictionary *)

Definition player_of (g : game) (s : slot) : option Z :=
  match s with Player1 => Some (player1 g) | Player2 => player2 g end.

Definition with_scores (x : per_slot Z) (g : game) : game :=
  Game (player1 g) (player2 g) (mode g) (points_to_win g) (bet g) x
       (current_player g) (rolls g) (rolls_needed g) (roll_count g)
       (round_number g) (message_id g).

Definition with_current_player (s : slot) (g : game) : game :=
  Game (player1 g) (player2 g) (mode g) (points_to_win g) (bet g) (scores g)
       s (rolls g) (rolls_needed g) (roll_count g)
       (round_number g) (message_id g).

Definition with_rolls (r : per_slot (list Z)) (c : per_slot Z) (g : game) : game :=
  Game (player1 g) (player2 g) (mode g) (points_to_win g) (bet g) (scores g)
       (current_player g) r (rolls_needed g) c
       (round_number g) (message_id g).

Definition with_round_number (n : Z) (g : game) : game :=
  Game (player1 g) (player2 g) (mode g) (points_to_win g) (bet g) (scores g)
       (current_player g) (rolls g) (rolls_needed g) (roll_count g)
       n (message_id g).

Definition with_message_id (m : option Z) (g : game) : game :=
  Game (player1 g) (player2 g) (mode g) (points_to_win g) (bet g) (scores g)
       (current_player g) (rolls g) (rolls_needed g) (roll_count g)
       (round_number g) m.

(** [game['scores'][s] += 1] *)
Definition add_point (s : slot) (g : game) : game :=
  with_scores (set_slot (scores g) s (get_slot (scores g) s + 1)) g.

(** [game['rolls'] = {...: []}; game['roll_count'] = {...: 0};
    game['current_player'] = 'player1'] *)
Definition clear_rolls (g : game) : game :=
  with_current_player Player1 (with_rolls (PerSlot [] []) (PerSlot 0 0) g).

(** [game['rolls'][s].append(x); game['roll_count'][s] += 1] *)
Definition append_roll (s : slot) (x : Z) (g : game) : game :=
  with_rolls (set_slot (rolls g) s (get_slot (rolls g) s ++ [x]))
             (set_slot (roll_count g) s (get_slot (roll_count g) s + 1)) g.

(** [max(game['scores'].values()) >= game['points_to_win']] *)
Definition target_reached (g : game) : bool :=
  points_to_win g <=? Z.max (at1 (scores g)) (at2 (scores g)).

(** ** Settlement and round evaluation *)

(** [context.bot_data.setdefault('last_games', {}).setdefault(chat_id, {})[user] = lg] *)
Definition record_last_game (chat_id user : Z) (lg : last_game) (st : state) : state :=
  set_last_games
    (<[chat_id := <[user := lg]> (default ∅ (last_games st !! chat_id))]> (last_games st))
    st.

Definition last_game_of (st : state) (chat_id user : Z) : option last_game :=
  default ∅ (last_games st !! chat_id) !! user.

(** [del context.bot_data['user_games'][key]]; KeyError is [None]. *)
Definition del_user_game (key : Z * Z) (st : state) : option state :=
  match user_games st !! key with
  | Some _ => Some (set_user_games (delete key (user_games st)) st)
  | None => None
  end.

(** [del context.bot_data['games'][k]]; KeyError is [None]. *)
Definition del_game (k : game_key) (st : state) : option state :=
  match games st !! k with
  | Some _ => Some (set_games (delete k (games st)) st)
  | None => None
  end.

(** The fixed multiplier of [prize = game['bet'] * 1.92]. *)
Definition multiplier : Q := 1.92%Q.

(** The branch of [evaluate_round] taken when a score has reached
    [points_to_win]: credit, summaries, removal of the registry entries. *)
Definition settle (g : game) (chat_id : Z) (k : game_key) (st : state) : reply * state :=
  let winner :=
    if at1 (scores g) >? at2 (scores g) then Player1 else Player2 in
  let winner_id := player_of g winner in
  let prize := (bet g * multiplier)%Q in
  let st1 :=
    match winner_id with
    | Some w => update_user_balance w (get_user_balance st w + prize + bet g)%Q st
    | None => st
    end in
  let st2 :=
    match player2 g with
    | Some p2 =>
        record_last_game chat_id p2
          (LastGame (Some (player1 g)) (mode g) (points_to_win g) (bet g))
          (record_last_game chat_id (player1 g)
             (LastGame (Some p2) (mode g) (points_to_win g) (bet g)) st1)
    | None =>
        record_last_game chat_id (player1 g)
          (LastGame None (mode g) (points_to_win g) (bet g)) st1
    end in
  let after_p2 :=
    match player2 g with
    | Some p2 => del_user_game (chat_id, p2) st2
    | None => Some st2
    end in
  match after_p2 with
  | None => (Raised, st2)
  | Some st3 =>
      match del_user_game (chat_id, player1 g) st3 with
      | None => (Raised, st3)
      | Some st4 =>
          match del_game k st4 with
          | None => (Raised, st4)
          | Some st5 => (GameOver winner, st5)
          end
      end
  end.

(** [evaluate_round(game, chat_id, game_key, context)] of darts.py and of
    football.py, which differ in the scoring rule only.  [g] is the game
    dictionary as the caller has mutated it; [new_mid] is the id of the
    prompt sent for the next round. *)
Definition evaluate_round (v : variant) (g : game) (chat_id : Z) (k : game_key)
    (new_mid : Z) (st : state) : reply * state :=
  let rolls1 := at1 (rolls g) in
  let rolls2 := at2 (rolls g) in
  let required_rolls := rolls_needed g in
  if (Z.of_nat (length rolls1) <? required_rolls)
     || (Z.of_nat (length rolls2) <? required_rolls)
  then (RollsIncomplete, write_game k (clear_rolls g) st)
  else
    match computed_scores v (mode g) rolls1 rolls2 with
    | None => (Raised, write_game k g st)
    | Some (score1, score2) =>
        let g1 :=
          match award v score1 score2 with
          | Some s => add_point s g
          | None => g
          end in
        if target_reached g1 then settle g1 chat_id k (write_game k g1 st)
        else
          (RoundResult,
           write_game k
             (with_message_id (Some new_mid)
                (with_round_number (round_number g1 + 1) (clear_rolls g1)))
             st)
    end.

(** ** Starting a match against the bot *)

Definition get_setup (v : variant) (ud : udata) : option setup :=
  match v with Darts => dart_setup ud | Football => football_setup ud end.

Definition get_mode (v : variant) (ud : udata) : option string :=
  match v with Darts => dart_mode ud | Football => football_mode ud end.

Definition get_points (v : variant) (ud : udata) : option Z :=
  match v with Darts => dart_points ud | Football => football_points ud end.

Definition put_setup (v : variant) (s : option setup) (ud : udata) : udata :=
  match v with
  | Darts =>
      UData s (dart_mode ud) (dart_points ud)
            (football_setup ud) (football_mode ud) (football_points ud)
            (expecting_username ud) (dice_setup ud) (coin_setup ud)
  | Football =>
      UData (dart_setup ud) (dart_mode ud) (dart_points ud)
            s (football_mode ud) (football_points ud)
            (expecting_username ud) (dice_setup ud) (coin_setup ud)
  end.

Definition put_mode (v : variant) (m : string) (ud : udata) : udata :=
  match v with
  | Darts =>
      UData (dart_setup ud) (Some m) (dart_points ud)
            (football_setup ud) (football_mode ud) (football_points ud)
            (expecting_username ud) (dice_setup ud) (coin_setup ud)
  | Football =>
      UData (dart_setup ud) (dart_mode ud) (dart_points ud)
            (football_setup ud) (Some m) (football_points ud)
            (expecting_username ud) (dice_setup ud) (coin_setup ud)
  end.

Definition put_points (v : variant) (p : Z) (ud : udata) : udata :=
  match v with
  | Darts =>
      UData (dart_setup ud) (dart_mode ud) (Some p)
            (football_setup ud) (football_mode ud) (football_points ud)
            (expecting_username ud) (dice_setup ud) (coin_setup ud)
  | Football =>
      UData (dart_setup ud) (dart_mode ud) (dart_points ud)
            (football_setup ud) (football_mode ud) (Some p)
            (expecting_username ud) (dice_setup ud) (coin_setup ud)
  end.

Definition put_expecting_username (b : bool) (ud : udata) : udata :=
  UData (dart_setup ud) (dart_mode ud) (dart_points ud)
        (football_setup ud) (football_mode ud) (football_points ud)
        b (dice_setup ud) (coin_setup ud).

Definition put_coin_setup (c : option coin_setup_t) (ud : udata) : udata :=
  UData (dart_setup ud) (dart_mode ud) (dart_points ud)
        (football_setup ud) (football_mode ud) (football_points ud)
        (expecting_username ud) (dice_setup ud) c.

(** The game dictionary both session constructors build. *)
Definition new_game (p1 : Z) (p2 : option Z) (mode : string) (points : Z) (bet : Q) : game :=
  Game p1 p2 mode points bet (PerSlot 0 0) Player1 (PerSlot [] [])
       (if (mode =? "double")%string then 2 else 1) (PerSlot 0 0) 1 None.

(** [start_game_against_bot(context, chat_id, user_id)]; [context.user_data]
    is the caller's, who is [user_id] at every call site.  [new_mid] is the
    id of the "Match started!" message. *)
Definition start_game_against_bot (v : variant) (chat_id user_id new_mid : Z)
    (st : state) : reply * state :=
  match user_games st !! (chat_id, user_id) with
  | Some _ => (AlreadyInGame, st)
  | None =>
      let ud := udata_of st user_id in
      match get_setup v ud, get_mode v ud, get_points v ud with
      | Some su, Some mode, Some points =>
          let bet := su_bet su in
          let k : game_key := (chat_id, user_id, None) in
          let g := new_game user_id None mode points bet in
          let st1 := write_game k g st in
          let st2 := set_user_games (<[(chat_id, user_id) := k]> (user_games st1)) st1 in
          let st3 := update_user_balance user_id (get_user_balance st2 user_id - bet)%Q st2 in
          let st4 := write_game k (with_message_id (Some new_mid) g) st3 in
          (MatchStarted, put_udata user_id (put_setup v None ud) st4)
      | _, _, _ => (Raised, st)
      end
  end.

(** [dart_command] / [football_command] with one argument that parses to
    [amount]; [new_mid] is the id of the mode prompt. *)
Definition game_command (v : variant) (chat_id user_id : Z) (amount : Q) (new_mid : Z)
    (st : state) : reply * state :=
  if negb (user_exists st user_id) then (PleaseRegister, st)
  else if Qle_bool amount 0 then (InvalidBet, st)
  else if Qgt_bool amount (get_user_balance st user_id) then (InsufficientBalance, st)
  else
    match user_games st !! (chat_id, user_id) with
    | Some _ => (AlreadyInGame, st)
    | None =>
        (SetupPrompt,
         put_udata user_id
           (put_setup v (Some (Setup user_id amount (Some new_mid))) (udata_of st user_id))
           st)
    end.

(** ** Turns *)

Definition opt_eqb (a b : option Z) : bool :=
  match a, b with
  | Some x, Some y => x =? y
  | None, None => true
  | _, _ => false
  end.

(** ['player1' if game['player1'] == user_id else
     'player2' if game['player2'] == user_id else None] *)
Definition player_key (g : game) (user_id : Z) : option slot :=
  if player1 g =? user_id then Some Player1
  else if opt_eqb (player2 g) (Some user_id) then Some Player2
  else None.

(** The bot's loop [for _ in range(n)]: each iteration sends one die; a
    failed send ([None], or no further item) ends the handler. *)
Fixpoint bot_throws (n : nat) (bot_darts : list (option Z)) : option (list Z) :=
  match n with
  | O => Some []
  | S n' =>
      match bot_darts with
      | Some x :: rest =>
          match bot_throws n' rest with
          | Some l => Some (x :: l)
          | None => None
          end
      | _ => None
      end
  end.

(** [game['rolls'][s].extend(l); game['roll_count'][s] += len(l)] *)
Definition extend_rolls (s : slot) (l : list Z) (g : game) : game :=
  with_rolls (set_slot (rolls g) s (get_slot (rolls g) s ++ l))
             (set_slot (roll_count g) s (get_slot (roll_count g) s + Z.of_nat (length l))) g.

Definition both_complete (g : game) : bool :=
  (at1 (roll_count g) =? rolls_needed g) && (at2 (roll_count g) =? rolls_needed g).

(** The ["dart_throw_<n>"] branch of [dart_button_handler].  [qmid] is
    [query.message.message_id], [dart] the value of the die sent for the
    player ([None]: the send failed), [bot_darts] the dice sent for the bot,
    [new_mid] the id of the next prompt.  The branch awaits the send of the
    die and sleeps between its checks and the first mutation, and awaits
    again in the bot's loop and in [evaluate_round]: this function is the
    branch run with no other update in between ([handler_alone] relates it
    to the steps of [throw_step]). *)
Definition dart_throw (chat_id user_id qmid turn_round : Z) (dart : option Z)
    (bot_darts : list (option Z)) (new_mid : Z) (st : state) : reply * state :=
  match user_games st !! (chat_id, user_id) with
  | None => (NoActiveGame, st)
  | Some k =>
  match games st !! k with
  | None => (GameDataMissing, st)
  | Some g =>
  if negb (opt_eqb (Some qmid) (message_id g)) then (NotCurrentMessage, st)
  else if target_reached g then (GameEnded, st)
  else
  match player_key g user_id with
  | None => (Silent, st)
  | Some pk =>
  if negb (turn_round =? round_number g) then (PreviousRound, st)
  else if negb (slot_eqb pk (current_player g)) then (NotYourTurn, st)
  else
  match dart with
  | None => (ThrowFailed, st)
  | Some dart_value =>
      let g1 := append_roll pk dart_value g in
      if both_complete g1 then evaluate_round Darts g1 chat_id k new_mid st
      else if get_slot (roll_count g1) pk <? rolls_needed g1 then
        (ThrowAgain, write_game k (with_message_id (Some new_mid) g1) st)
      else
        let other_player := other_slot pk in
        let g2 := with_current_player other_player g1 in
        match player_of g2 other_player with
        | None =>
            match bot_throws
                    (Z.to_nat (rolls_needed g2 - get_slot (roll_count g2) other_player))
                    bot_darts with
            | None => (BotThrowFailed, write_game k g2 st)
            | Some bot_rolls =>
                evaluate_round Darts (extend_rolls other_player bot_rolls g2)
                               chat_id k new_mid st
            end
        | Some _ =>
            (NextTurn, write_game k (with_message_id (Some new_mid) g2) st)
        end
  end end end end.

(** The ["football_take_shot_<n>"] branch of [football_button_handler],
    run with no other update in between: the branch awaits the send of the
    die between its checks and the first mutation, and sleeps after it. *)
Definition football_take_shot (chat_id user_id qmid turn_round : Z) (shot : option Z)
    (bot_shots : list (option Z)) (new_mid : Z) (st : state) : reply * state :=
  match user_games st !! (chat_id, user_id) with
  | None => (NoActiveGame, st)
  | Some k =>
  match games st !! k with
  | None => (NotCurrentMessage, st)
  | Some g =>
  if negb (opt_eqb (Some qmid) (message_id g)) then (NotCurrentMessage, st)
  else if target_reached g then (GameEnded, st)
  else
  match player_key g user_id with
  | None => (Silent, st)
  | Some pk =>
  if negb (turn_round =? round_number g) then (PreviousRound, st)
  else if negb (slot_eqb pk (current_player g)) then (NotYourTurn, st)
  else
  match shot with
  | None => (ThrowFailed, st)
  | Some shot_value =>
      let g1 := append_roll pk shot_value g in
      if get_slot (roll_count g1) pk <? rolls_needed g1 then
        (ThrowAgain, write_game k (with_message_id (Some new_mid) g1) st)
      else
        let other_player := other_slot pk in
        let g2 := with_current_player other_player g1 in
        let after_bot :=
          match player_of g2 other_player with
          | None =>
              match bot_throws
                      (Z.to_nat (rolls_needed g2 - get_slot (roll_count g2) other_player))
                      bot_shots with
              | None => None
              | Some bot_rolls => Some (extend_rolls other_player bot_rolls g2)
              end
          | Some _ => Some g2
          end in
        match after_bot with
        | None => (BotThrowFailed, write_game k g2 st)
        | Some g3 =>
            if both_complete g3 then evaluate_round Football g3 chat_id k new_mid st
            else (NextTurn, write_game k (with_message_id (Some new_mid) g3) st)
        end
  end end end end.

(** ** Challenges *)

(** [game_id = len(context.bot_data.get('pending_challenges', {})) + 1] *)
Definition next_game_id (st : state) : Z :=
  Z.of_nat (size (pending_challenges st)) + 1.

(** [context.bot_data.setdefault('pending_challenges', {})[game_id] = c] *)
Definition store_challenge (game_id : Z) (c : challenge) (st : state) : state :=
  set_pending_challenges (<[game_id := c]> (pending_challenges st)) st.

(** The ["dart_accept_<id>"] / ["football_accept_<id>"] branch; [user_id]
    is the user who pressed the button. *)
Definition accept (v : variant) (chat_id user_id game_id new_mid : Z) (st : state)
  : reply * state :=
  match pending_challenges st !! game_id with
  | None => (ChallengeInvalid, st)
  | Some c =>
      if negb (user_id =? c_challenged c) then (Silent, st)
      else
        match user_games st !! (chat_id, c_initiator c),
              user_games st !! (chat_id, user_id) with
        | None, None =>
            let k : game_key := (chat_id, c_initiator c, Some user_id) in
            let g := new_game (c_initiator c) (Some user_id) (c_mode c)
                              (c_points_to_win c) (c_bet c) in
            let st1 := write_game k g st in
            let st2 :=
              set_user_games
                (<[(chat_id, user_id) := k]>
                   (<[(chat_id, c_initiator c) := k]> (user_games st1))) st1 in
            let st3 :=
              update_user_balance (c_initiator c)
                (get_user_balance st2 (c_initiator c) - c_bet c)%Q st2 in
            let st4 :=
              update_user_balance user_id
                (get_user_balance st3 user_id - c_bet c)%Q st3 in
            let st5 := write_game k (with_message_id (Some new_mid) g) st4 in
            let st6 :=
              set_pending_challenges (delete game_id (pending_challenges st5)) st5 in
            (MatchStarted,
             match get_setup v (udata_of st6 user_id) with
             | Some _ => put_udata user_id (put_setup v None (udata_of st6 user_id)) st6
             | None => st6
             end)
        | _, _ => (OneOfYouInGame, st)
        end
  end.

(** The ["dart_cancel_<id>"] / ["football_cancel_<id>"] branch. *)
Definition decline (game_id : Z) (st : state) : reply * state :=
  match pending_challenges st !! game_id with
  | None => (ChallengeInvalid, st)
  | Some _ =>
      (ChallengeDeclined,
       set_pending_challenges (delete game_id (pending_challenges st)) st)
  end.

(** The ["dart_play_again"] / ["football_play_again"] branch. *)
Definition play_again (v : variant) (chat_id user_id new_mid : Z) (st : state)
  : reply * state :=
  match last_game_of st chat_id user_id with
  | None => (NoPreviousGame, st)
  | Some last =>
      match lg_opponent last with
      | None =>
          let ud :=
            put_setup v (Some (Setup user_id (lg_bet last) None))
              (put_points v (lg_points_to_win last)
                 (put_mode v (lg_mode last) (udata_of st user_id))) in
          start_game_against_bot v chat_id user_id new_mid (put_udata user_id ud st)
      | Some opponent_id =>
          match user_games st !! (chat_id, opponent_id) with
          | Some _ => (OpponentInGame, st)
          | None =>
              let game_id := next_game_id st in
              (ChallengeSent game_id,
               store_challenge game_id
                 (Challenge user_id opponent_id (lg_mode last)
                            (lg_points_to_win last) (lg_bet last)) st)
          end
      end
  end.

(** The ["dart_double"] / ["football_double"] branch. *)
Definition double (v : variant) (chat_id user_id new_mid : Z) (st : state)
  : reply * state :=
  match last_game_of st chat_id user_id with
  | None => (NoPreviousGame, st)
  | Some last =>
      let new_bet := (lg_bet last * 2)%Q in
      match lg_opponent last with
      | None =>
          if Qgt_bool new_bet (get_user_balance st user_id)
          then (InsufficientBalance, st)
          else
            let ud :=
              put_setup v (Some (Setup user_id new_bet None))
                (put_points v (lg_points_to_win last)
                   (put_mode v (lg_mode last) (udata_of st user_id))) in
            start_game_against_bot v chat_id user_id new_mid (put_udata user_id ud st)
      | Some opponent_id =>
          if Qgt_bool new_bet (get_user_balance st user_id)
             || Qgt_bool new_bet (get_user_balance st opponent_id)
          then (NotEnoughForDouble, st)
          else
            match user_games st !! (chat_id, opponent_id) with
            | Some _ => (OpponentInGame, st)
            | None =>
                let game_id := next_game_id st in
                (ChallengeSent game_id,
                 store_challenge game_id
                   (Challenge user_id opponent_id (lg_mode last)
                              (lg_points_to_win last) new_bet) st)
            end
      end
  end.

(** [dart_text_handler] / [football_text_handler].  [at_sign] tells whether
    the text starts with ['@']; [result] is the row the users table returns
    for the name. *)
Definition text_handler (v : variant) (chat_id user_id : Z) (at_sign : bool)
    (result : option Z) (st : state) : reply * state :=
  let ud := udata_of st user_id in
  match get_setup v ud with
  | Some su =>
      if expecting_username ud && (su_initiator su =? user_id) then
        if negb at_sign then (InvalidUsername, st)
        else
          match result with
          | None => (UserNotFound, st)
          | Some challenged_user_id =>
              if challenged_user_id =? user_id then (SelfChallenge, st)
              else if Qgt_bool (su_bet su) (get_user_balance st challenged_user_id)
              then (OpponentUnderfunded, st)
              else
                match user_games st !! (chat_id, challenged_user_id) with
                | Some _ => (OpponentInGame, st)
                | None =>
                    match get_mode v ud, get_points v ud with
                    | Some mode, Some points =>
                        let game_id := next_game_id st in
                        (ChallengeSent game_id,
                         put_udata user_id (put_expecting_username false ud)
                           (store_challenge game_id
                              (Challenge user_id challenged_user_id mode points (su_bet su))
                              st))
                    | _, _ => (Raised, st)
                    end
                end
          end
      else (Silent, st)
  | None => (Silent, st)
  end.

(** ** The button handlers *)

(** The parsed [query.data] of a darts or football button. *)
Inductive callback :=
| cb_mode_guide
| cb_back
| cb_cancel
| cb_mode (m : string)
| cb_points (p : Z)
| cb_confirm_setup
| cb_challenge
| cb_bot
| cb_throw (turn_round : Z)
| cb_accept (game_id : Z)
| cb_cancel_challenge (game_id : Z)
| cb_play_again
| cb_double.

(** What the chat transport hands back during one update. *)
Record transport := Transport {
  t_new_mid : Z;
  t_die : option Z;
  t_bot_dice : list (option Z)
}.

Definition known_mode (m : string) : bool :=
  (m =? "normal")%string || (m =? "double")%string || (m =? "crazy")%string.

(** [dart_button_handler] / [football_button_handler]: while the caller has
    a setup dictionary only the setup buttons are looked at; the in-game,
    challenge and rematch buttons are reached without one. *)
Definition button_handler (v : variant) (chat_id user_id qmid : Z) (data : callback)
    (t : transport) (st : state) : reply * state :=
  let ud := udata_of st user_id in
  match get_setup v ud with
  | Some su =>
      if negb (su_initiator su =? user_id) then (NotYourSetup, st)
      else if negb (opt_eqb (su_message_id su) (Some qmid)) then (NotYourSetup, st)
      else
        match data with
        | cb_mode_guide | cb_back => (SetupPrompt, st)
        | cb_cancel => (SetupCancelled, put_udata user_id (put_setup v None ud) st)
        | cb_mode m => (SetupPrompt, put_udata user_id (put_mode v m ud) st)
        | cb_points p =>
            let st1 := put_udata user_id (put_points v p ud) st in
            match get_mode v ud with
            | Some _ => (SetupPrompt, st1)
            | None => (Raised, st1)
            end
        | cb_confirm_setup =>
            match get_mode v ud, get_points v ud with
            | Some m, Some _ => if known_mode m then (SetupPrompt, st) else (Raised, st)
            | _, _ => (Raised, st)
            end
        | cb_challenge =>
            (SetupPrompt, put_udata user_id (put_expecting_username true ud) st)
        | cb_bot => start_game_against_bot v chat_id user_id (t_new_mid t) st
        | _ => (Silent, st)
        end
  | None =>
      match data with
      | cb_throw turn_round =>
          match v with
          | Darts =>
              dart_throw chat_id user_id qmid turn_round (t_die t) (t_bot_dice t)
                         (t_new_mid t) st
          | Football =>
              football_take_shot chat_id user_id qmid turn_round (t_die t) (t_bot_dice t)
                                 (t_new_mid t) st
          end
      | cb_accept game_id => accept v chat_id user_id game_id (t_new_mid t) st
      | cb_cancel_challenge game_id => decline game_id st
      | cb_play_again => play_again v chat_id user_id (t_new_mid t) st
      | cb_double => double v chat_id user_id (t_new_mid t) st
      | _ => (Silent, st)
      end
  end.

(** [with_game_ownership_check(handler, use_bot_data=True)] of main.py, the
    wrapper under which the darts, football and coin button handlers are
    registered. *)
Definition with_game_ownership_check (handler : state -> reply * state)
    (chat_id user_id qmid : Z) (st : state) : reply * state :=
  let setup_phase :=
    match dice_setup (udata_of st user_id) with
    | Some su =>
        if opt_eqb (su_message_id su) (Some qmid) then handler st
        else (NoGameOrSetup, st)
    | None => (NoGameOrSetup, st)
    end in
  match user_games st !! (chat_id, user_id) with
  | Some game_key_user =>
      match games st !! game_key_user with
      | Some g =>
          handler (write_game game_key_user (with_message_id (Some qmid) g) st)
      | None => setup_phase
      end
  | None => setup_phase
  end.

(** A darts or football button press as the application dispatches it. *)
Definition registered_button_handler (v : variant) (chat_id user_id qmid : Z)
    (data : callback) (t : transport) (st : state) : reply * state :=
  with_game_ownership_check (button_handler v chat_id user_id qmid data t)
                            chat_id user_id qmid st.

(** ** The coin game *)

(** [PLAYER_WIN_PROB = 0.4] *)
Definition PLAYER_WIN_PROB : Q := 0.4%Q.

Definition opposite (s : side) : side :=
  match s with heads => tails | tails => heads end.

(** The draw of [coin_flip]: [r] is the value of [random.random()]. *)
Definition coin_result (player_choice : side) (r : Q) : side :=
  if Qgt_bool PLAYER_WIN_PROB r then player_choice else opposite player_choice.

(** [coin_command] with one argument that parses to [amount]. *)
Definition coin_command (chat_id user_id : Z) (amount : Q) (new_mid : Z) (st : state)
  : reply * state :=
  match coin_game_of st (chat_id, user_id) with
  | Some _ => (AlreadyInGame, st)
  | None =>
      if Qle_bool amount 0 then (InvalidBet, st)
      else if negb (user_exists st user_id) then (PleaseRegister, st)
      else if Qgt_bool amount (get_user_balance st user_id)
      then (InsufficientBalance, st)
      else
        (SetupPrompt,
         put_udata user_id
           (put_coin_setup
              (Some (CoinSetup (Some user_id) amount (Some (Some new_mid)) None))
              (udata_of st user_id)) st)
  end.

Inductive coin_callback :=
| coin_cancel | coin_pick (s : side) | coin_confirm | coin_bot | coin_flip
| coin_restart | coin_double.

(** [not setup or setup['initiator'] != user_id or
     setup['message_id'] != query.message.message_id]; [None] when a
    subscript raises KeyError. *)
Definition coin_setup_rejected (setup : option coin_setup_t) (user_id qmid : Z)
  : option bool :=
  match setup with
  | None => Some true
  | Some su =>
      match cs_initiator su with
      | None => None
      | Some i =>
          if negb (i =? user_id) then Some true
          else
            match cs_message_id su with
            | None => None
            | Some m => Some (negb (opt_eqb m (Some qmid)))
            end
      end
  end.

(** [coin_button_handler].  [r] is the value [random.random()] returns,
    [new_mid] the id of a message sent, [qmid] the id of the message the
    button is on (which is also the id of the message [edit_message_text]
    returns).  The flip branch subscripts [bot_data['coin_games']], which
    raises KeyError before the first coin match has created the entry; it
    sleeps between its check and the settlement and awaits again before the
    [del]: this function is the branch run with no other update in between
    ([flip_handler_alone] relates it to the steps of [flip_step]). *)
Definition coin_button_handler (chat_id user_id qmid : Z) (data : coin_callback)
    (r : Q) (new_mid : Z) (st : state) : reply * state :=
  let ud := udata_of st user_id in
  let setup := coin_setup ud in
  match data with
  | coin_cancel =>
      match coin_setup_rejected setup user_id qmid with
      | None => (Raised, st)
      | Some true => (Silent, st)
      | Some false => (SetupCancelled, put_udata user_id (put_coin_setup None ud) st)
      end
  | coin_pick s =>
      match coin_setup_rejected setup user_id qmid, setup with
      | Some false, Some su =>
          (SetupPrompt,
           put_udata user_id
             (put_coin_setup
                (Some (CoinSetup (cs_initiator su) (cs_bet su) (cs_message_id su) (Some s)))
                ud) st)
      | None, _ => (Raised, st)
      | _, _ => (NotYourSetup, st)
      end
  | coin_confirm =>
      match coin_setup_rejected setup user_id qmid with
      | Some false => (SetupPrompt, st)
      | None => (Raised, st)
      | Some true => (NotYourSetup, st)
      end
  | coin_bot =>
      match coin_setup_rejected setup user_id qmid, setup with
      | Some false, Some su =>
          match cs_choice su with
          | None => (Raised, st)
          | Some choice =>
              (MatchStarted,
               put_udata user_id (put_coin_setup None ud)
                 (set_coin_games
                    (Some (<[(chat_id, user_id) := CoinGame (cs_bet su) choice qmid]>
                             (default ∅ (coin_games st)))) st))
          end
      | None, _ => (Raised, st)
      | _, _ => (NotYourSetup, st)
      end
  | coin_flip =>
      match coin_games st with
      | None => (Raised, st)
      | Some registered =>
      match registered !! (chat_id, user_id) with
      | None => (OldGameButton, st)
      | Some game =>
          if negb (qmid =? cg_match_message_id game) then (OldGameButton, st)
          else
            let player_choice := cg_choice game in
            let result := coin_result player_choice r in
            let st1 :=
              if side_eqb player_choice result then
                let winnings := (cg_bet game * multiplier)%Q in
                update_user_balance user_id
                  (get_user_balance st user_id + winnings - cg_bet game)%Q st
              else
                update_user_balance user_id
                  (get_user_balance st user_id - cg_bet game)%Q st in
            (CoinLanded result,
             set_coin_games (delete (chat_id, user_id) <$> coin_games st1)
               (put_udata user_id
                  (put_coin_setup (Some (CoinSetup None (cg_bet game) None None))
                     (udata_of st1 user_id)) st1))
      end end
  | coin_restart | coin_double =>
      match setup with
      | None => (NoPreviousGame, st)
      | Some su =>
          if Qeq_bool (cs_bet su) 0 then (NoPreviousGame, st)
          else
            let bet :=
              match data with coin_double => (cs_bet su * 2)%Q | _ => cs_bet su end in
            if Qgt_bool bet (get_user_balance st user_id)
            then (InsufficientBalance, st)
            else
              (SetupPrompt,
               put_udata user_id
                 (put_coin_setup
                    (Some (CoinSetup (Some user_id) bet (Some (Some new_mid)) None)) ud)
                 st)
      end
  end.

(** ** Notions used by the statements, and concrete sessions *)

(** The example of the specification: mode "double", A = [3,5], B = [4,4]. *)
Definition drawn_game : game :=
  Game 1 (Some 2) "double" 2 5%Q (PerSlot 1 0) Player2
       (PerSlot [3; 5] [4; 4]) 2 (PerSlot 2 2) 3 (Some 40).

(** The state [settle] credits the winner in. *)
Definition credited (g : game) (winner : slot) (st : state) : state :=
  match player_of g winner with
  | Some w =>
      update_user_balance w
        (get_user_balance st w + bet g * multiplier + bet g)%Q st
  | None => st
  end.

(** Two registered players with 10 each in chat 100; player 1 has challenged
    player 2 to a one-point match in mode "normal" for a wager of 5. *)
Definition alice : Z := 1.
Definition bob : Z := 2.
Definition chat : Z := 100.

Definition funded : state :=
  set_balances (<[alice := 10%Q]> (<[bob := 10%Q]> ∅)) empty_state.

Definition proposed : state :=
  store_challenge 1 (Challenge alice bob "normal" 1 5%Q) funded.

Definition started : state := (accept Darts chat bob 1 50 proposed).2.

Definition alice_threw : state :=
  (dart_throw chat alice 50 1 (Some 6) [] 51 started).2.

Definition bob_threw : state :=
  (dart_throw chat bob 51 1 (Some 2) [] 52 alice_threw).2.

(** The game dictionary at the moment the last round is evaluated. *)
Definition final_round : game :=
  Game alice (Some bob) "normal" 1 5%Q (PerSlot 0 0) Player2
       (PerSlot [6] [2]) 1 (PerSlot 1 1) 1 (Some 51).

(** Both players are registered with balances 3 and 0; the pending
    challenge asks for a wager of 5. *)
Definition underfunded : state :=
  store_challenge 1 (Challenge alice bob "normal" 1 5%Q)
    (set_balances (<[alice := 3%Q]> (<[bob := 0%Q]> ∅)) empty_state).

(** Player 1 has set up a darts match for 5 against the bot. *)
Definition darts_ready : state :=
  put_udata alice
    (UData (Some (Setup alice 5%Q (Some 30))) (Some "normal"%string) (Some 1)
           None None None false None None)
    funded.

(** Player 1 has set up a coin match for 5 and picked a side. *)
Definition coin_ready : state :=
  (coin_button_handler chat alice 60 (coin_pick heads) 0%Q 61
     (coin_command chat alice 5%Q 60 funded).2).2.

(** What was debited for a slot when the session was built: the wager for a
    human slot ([accept_debits], [start_game_debit]), nothing for the bot. *)
Definition stake (g : game) (s : slot) : Q :=
  match player_of g s with Some _ => bet g | None => 0%Q end.

(** The sum of the debits at session start. *)
Definition escrow (g : game) : Q := (stake g Player1 + stake g Player2)%Q.

(** The conservation equation of the specification, for a session with game
    dictionary [g] won by slot [w], where [before] and [after] are the states
    around the settlement: the escrow equals what the winner was credited
    beyond the own returned stake or, if the house won, what the house
    kept. *)
Definition conserved (g : game) (w : slot) (before after : state) : Prop :=
  match player_of g w with
  | Some u =>
      (escrow g == get_user_balance after u - get_user_balance before u - bet g)%Q
  | None => (escrow g == bet g)%Q
  end.

(** No pointer of the registry is redirected: a participant's session key
    stays or is removed. *)
Definition pointers_kept (st st' : state) : Prop :=
  ∀ key k, user_games st !! key = Some k →
           user_games st' !! key = Some k ∨ user_games st' !! key = None.

(** A coin button press as the application dispatches it. *)
Definition registered_coin_handler (chat_id user_id qmid : Z) (data : coin_callback)
    (r : Q) (new_mid : Z) (st : state) : reply * state :=
  with_game_ownership_check (coin_button_handler chat_id user_id qmid data r new_mid)
                            chat_id user_id qmid st.

(** A two-throw match: mode "double", one point to win, wager 5. *)
Definition proposed_double : state :=
  store_challenge 1 (Challenge alice bob "double" 1 5%Q) funded.

Definition started_double : state := (accept Darts chat bob 1 50 proposed_double).2.

(** Player 1 throws a 3 from the current prompt (message 50); the anchor
    rotates to message 51. *)
Definition first_throw : reply * state :=
  registered_button_handler Darts chat alice 50 (cb_throw 1)
    (Transport 51 (Some 3) []) started_double.

Definition carol : Z := 3.

Definition funded3 : state :=
  set_balances (<[alice := 10%Q]> (<[bob := 10%Q]> (<[carol := 10%Q]> ∅))) empty_state.

Definition no_dice : transport := Transport 31 None [].

(** Player 1 runs [/dart 1], picks mode "normal" and one point, and asks to
    challenge a player. *)
Definition negotiated : state :=
  (button_handler Darts chat alice 30 cb_challenge no_dice
     (button_handler Darts chat alice 30 (cb_points 1) no_dice
        (button_handler Darts chat alice 30 (cb_mode "normal") no_dice
           (game_command Darts chat alice 1%Q 30 funded3).2).2).2).2.

(** First proposal, to player 2. *)
Definition proposal1 : reply * state :=
  text_handler Darts chat alice true (Some bob) negotiated.

(** Second proposal, to player 3. *)
Definition proposal2 : reply * state :=
  text_handler Darts chat alice true (Some carol)
    (button_handler Darts chat alice 30 cb_challenge no_dice proposal1.2).2.

(** Player 2 declines the first proposal. *)
Definition declined : reply * state :=
  button_handler Darts chat bob 32 (cb_cancel_challenge 1) no_dice proposal2.2.

(** Third proposal, to player 2 again. *)
Definition proposal3 : reply * state :=
  text_handler Darts chat alice true (Some bob)
    (button_handler Darts chat alice 30 cb_challenge no_dice declined.2).2.

(** Player 1 loses a bot match for 5 twice (throwing 1 against the bot's 6),
    the second one started with "Play Again", and is left with 0. *)
Definition lost_once : state :=
  (dart_throw chat alice 50 1 (Some 1) [Some 6] 51
     (start_game_against_bot Darts chat alice 50 darts_ready).2).2.

Definition lost_twice : state :=
  (dart_throw chat alice 52 1 (Some 1) [Some 6] 53
     (play_again Darts chat alice 52 lost_once).2).2.

(** ** The slot machine (slots.py) *)

(** The four symbols of [values]: chocolate, grapes, lemon, seven. *)
Inductive symbol := chocolate | grapes | lemon | seven.

Definition symbol_eqb (a b : symbol) : bool :=
  match a, b with
  | chocolate, chocolate | grapes, grapes | lemon, lemon | seven, seven => true
  | _, _ => false
  end.

(** [values[i]] for the index [i = dice_value % 4], which is 0, 1, 2 or 3. *)
Definition values_at (i : Z) : symbol :=
  if i =? 0 then chocolate
  else if i =? 1 then grapes
  else if i =? 2 then lemon
  else seven.

(** The loop [for _ in range(n): result.append(values[dice_value % 4]);
    dice_value //= 4]. *)
Fixpoint combo_loop (n : nat) (dice_value : Z) : list symbol :=
  match n with
  | O => []
  | S n' => values_at (dice_value mod 4) :: combo_loop n' (dice_value / 4)
  end.

(** [get_combo_parts(dice_value)] *)
Definition get_combo_parts (dice_value : Z) : list symbol :=
  combo_loop 3 (dice_value - 1).

(** [get_payout(symbols)]; the unpacking [s1, s2, s3 = symbols] raises
    ValueError unless there are three symbols: the result is [None]. *)
Definition get_payout (symbols : list symbol) : option Q :=
  match symbols with
  | [s1; s2; s3] =>
      Some
        (if symbol_eqb s1 seven && symbol_eqb s2 seven && symbol_eqb s3 seven
         then 20%Q
         else if symbol_eqb s1 s2 && symbol_eqb s2 s3 then
           if symbol_eqb s1 chocolate then 7%Q
           else if symbol_eqb s1 lemon then 7%Q
           else if symbol_eqb s1 grapes then 7%Q
           else 0%Q
         else if symbol_eqb s1 seven && symbol_eqb s2 seven then 2%Q
         else if symbol_eqb s2 seven && symbol_eqb s3 seven then 1%Q
         else if symbol_eqb s1 s2 then
           if symbol_eqb s1 chocolate then 0.5%Q
           else if symbol_eqb s1 lemon then 0.25%Q
           else if symbol_eqb s1 grapes then 0.25%Q
           else 0%Q
         else 0%Q)
  | _ => None
  end.

(** [context.user_data['slots_game']] *)
Record slots_game := SlotsGame {
  bet_size : Q;
  sg_message_id : Z
}.

Inductive bet_button :=
| bet_minus_1 | bet_plus_1 | bet_min | bet_double | bet_max
| bet_other.  (* any other text after "slots_bet_" *)

Inductive slots_callback :=
| slots_cancel | slots_spin | slots_bet (b : bet_button)
| slots_show_combos | slots_back
| slots_noop.  (* "slots_noop" and any other text: no branch is taken *)

Inductive slots_reply :=
| SlotsPrivateOnly       (* "Slots are only available in my private chat." *)
| SlotsRegister          (* "Please register with /start." *)
| SlotsAlreadyActive     (* "You already have an active slots game." *)
| SlotsOpened            (* the bet-size prompt of a new game *)
| SlotsOutdated          (* "This game has ended or the button is outdated." *)
| SlotsNoActiveGame      (* the wrapper's "No active game found!" *)
| SlotsNotYourMessage    (* the wrapper's "This message is not for your game!" *)
| SlotsCancelled         (* "Slots game cancelled." *)
| SlotsNotEnough         (* "Not enough balance to spin!" *)
| SlotsWon (symbols : list symbol) (winnings : Q)
| SlotsLost (symbols : list symbol)
| SlotsBetShown          (* the bet-size prompt, edited in place *)
| SlotsCombosShown
| SlotsNothing           (* no branch of the handler matches *)
| SlotsRaised.

(** Python's [max(x, y)] and [min(x, y)] of two amounts: [x] unless [y] is
    strictly larger (smaller). *)
Definition amount_max (x y : Q) : Q := if Qgt_bool y x then y else x.
Definition amount_min (x y : Q) : Q := if Qgt_bool x y then y else x.

(** The new bet size of the ["slots_bet_..."] buttons. *)
Definition adjust_bet (b : bet_button) (bet_size : Q) : Q :=
  match b with
  | bet_minus_1 => amount_max 0.25 (bet_size - 1)
  | bet_plus_1 => amount_min 50 (bet_size + 1)
  | bet_min => 0.25%Q
  | bet_double => amount_min 50 (bet_size * 2)
  | bet_max => 50%Q
  | bet_other => bet_size
  end.

(** [slots_command]; [private] tells whether the chat type is ['private'],
    [game] is the caller's [user_data.get('slots_game')]. *)
Definition slots_command (user_id : Z) (private : bool) (new_mid : Z)
    (game : option slots_game) (st : state) : slots_reply * option slots_game :=
  if negb private then (SlotsPrivateOnly, game)
  else if negb (user_exists st user_id) then (SlotsRegister, game)
  else
    match game with
    | Some _ => (SlotsAlreadyActive, game)
    | None => (SlotsOpened, Some (SlotsGame 1%Q new_mid))
    end.

(** [slots_button_handler]; [dice_value] is the value of the slot-machine
    die sent by a spin, [new_mid] the id of the prompt sent after it. *)
Definition slots_button_handler (user_id qmid : Z) (data : slots_callback)
    (dice_value new_mid : Z) (game : option slots_game) (st : state)
  : slots_reply * option slots_game * state :=
  match game with
  | None => (SlotsOutdated, game, st)
  | Some g =>
      if negb (qmid =? sg_message_id g) then (SlotsOutdated, game, st)
      else
        let balance := get_user_balance st user_id in
        match data with
        | slots_cancel => (SlotsCancelled, None, st)
        | slots_spin =>
            if Qgt_bool (bet_size g) balance then (SlotsNotEnough, game, st)
            else
              let symbols := get_combo_parts dice_value in
              match get_payout symbols with
              | None => (SlotsRaised, game, st)
              | Some payout_multiplier =>
                  if Qgt_bool payout_multiplier 0 then
                    let winnings := (bet_size g * payout_multiplier)%Q in
                    (SlotsWon symbols winnings,
                     Some (SlotsGame (bet_size g) new_mid),
                     update_user_balance user_id (balance + winnings)%Q st)
                  else
                    (SlotsLost symbols,
                     Some (SlotsGame (bet_size g) new_mid),
                     update_user_balance user_id (balance - bet_size g)%Q st)
              end
        | slots_bet b =>
            (SlotsBetShown, Some (SlotsGame (adjust_bet b (bet_size g)) (sg_message_id g)), st)
        | slots_show_combos => (SlotsCombosShown, game, st)
        | slots_back => (SlotsBetShown, game, st)
        | slots_noop => (SlotsNothing, game, st)
        end
  end.

(** [with_game_ownership_check(slots_button_handler, 'slots_game')] of
    main.py (the branch for games kept in [user_data]). *)
Definition registered_slots_handler (user_id qmid : Z) (data : slots_callback)
    (dice_value new_mid : Z) (game : option slots_game) (st : state)
  : slots_reply * option slots_game * state :=
  match game with
  | None => (SlotsNoActiveGame, game, st)
  | Some g =>
      if negb (sg_message_id g =? qmid) then (SlotsNotYourMessage, game, st)
      else slots_button_handler user_id qmid data dice_value new_mid game st
  end.

(** The position of a symbol in [values]. *)
Definition symbol_index (s : symbol) : Z :=
  match s with chocolate => 0 | grapes => 1 | lemon => 2 | seven => 3 end.

(** The die value that shows a given combination (the inverse of
    [get_combo_parts] on 1..64). *)
Definition combo_value (symbols : list symbol) : option Z :=
  match symbols with
  | [s1; s2; s3] => Some (1 + symbol_index s1 + 4 * symbol_index s2 + 16 * symbol_index s3)
  | _ => None
  end.

(** The 64 values of the slot-machine die. *)
Definition die_values : list Z := List.map Z.of_nat (List.seq 1 64).

(** What a spin on die value [v] adds to the player's balance. *)
Definition spin_gain (user_id qmid new_mid : Z) (g : slots_game) (st : state) (v : Z) : Q :=
  (get_user_balance
     (slots_button_handler user_id qmid slots_spin v new_mid (Some g) st).2 user_id
   - get_user_balance st user_id)%Q.

Definition sum_amounts (l : list Q) : Q := List.fold_right Qplus 0%Q l.

Definition in_bet_range (q : Q) : Prop := (0.25 <= q <= 50)%Q.

(** The balance change of a spin in units of the bet: the multiplier of a
    paying combination, minus one otherwise. *)
Definition net_multiplier (v : Z) : Q :=
  match get_payout (get_combo_parts v) with
  | Some m => if Qgt_bool m 0 then m else (-1)%Q
  | None => 0%Q
  end.

(** ** Commands of main.py *)

Inductive main_reply :=
| MainRegisterFirst      (* "Please register with /start first." *)
| MainUsage              (* the usage text of the command *)
| MainMustBePositive     (* "... must be greater than 0." *)
| MainInsufficient       (* "Insufficient balance." *)
| MainUserNotFound       (* "User @... not found." *)
| MainSelfTip            (* "You cannot tip yourself." *)
| MainTipped             (* "Successfully tipped ..." *)
| MainNotAuthorized      (* "You are not authorized to use this command." *)
| MainAdded              (* "Added ..." *)
| MainRemoved            (* "Removed ..." *)
| MainInsufficientHouse  (* "Insufficient house balance." *)
| MainRan (r : reply).   (* the game command was called and replied [r] *)

(** The bet argument of a game command: ["all"], ["half"] or a number. *)
Inductive bet_arg := BetAll | BetHalf | BetNumber (q : Q).

(** [get_house_balance()]: the row of the house, 0 without one. *)
Definition get_house_balance (house : option Q) : Q := default 0%Q house.

(** [set_house_balance(new_balance)]: UPDATE, and INSERT when no row was
    updated. *)
Definition set_house_balance (new_balance : Q) (house : option Q) : option Q :=
  Some new_balance.

(** The amount a bet argument stands for: the balance for ["all"], half of
    it for ["half"], the number otherwise. *)
Definition bet_amount_of (bet : bet_arg) (balance : Q) : Q :=
  match bet with
  | BetAll => balance
  | BetHalf => (balance / 2)%Q
  | BetNumber q => q
  end.

(** [create_game_handler(game_name, game_func)]'s handler.  [arg] is
    [context.args[0].lower()] ([None]: no argument), [private] tells whether
    the chat type is ['private'], [house] is the house row.  The entry
    [user_data['bet_amount']], which no handler of the sources reads, is not
    represented. *)
Definition create_game_handler (game_func : state → reply * state) (user_id : Z)
    (private : bool) (arg : option bet_arg) (house : option Q) (st : state)
  : main_reply * option Q * state :=
  if negb (user_exists st user_id) then (MainRegisterFirst, house, st)
  else
    match arg with
    | None => (MainUsage, house, st)
    | Some bet =>
        let balance := get_user_balance st user_id in
        let bet_amount := bet_amount_of bet balance in
        if Qle_bool bet_amount 0 then (MainMustBePositive, house, st)
        else if Qgt_bool bet_amount balance then (MainInsufficient, house, st)
        else
          let house1 :=
            if private then house
            else set_house_balance (get_house_balance house + bet_amount)%Q house in
          (MainRan (game_func st).1, house1, (game_func st).2)
    end.

(** [dart_command] / [football_command] on the single argument the wrapper
    has looked at: [float("all")] and [float("half")] raise ValueError, which
    the command reports as an invalid bet. *)
Definition game_command_on (v : variant) (chat_id user_id : Z) (arg : bet_arg)
    (new_mid : Z) (st : state) : reply * state :=
  match arg with
  | BetNumber q => game_command v chat_id user_id q new_mid st
  | _ =>
      if negb (user_exists st user_id) then (PleaseRegister, st) else (InvalidBet, st)
  end.

(** [if not recipient_id]: no row, or the id 0. *)
Definition found_user (r : option Z) : option Z :=
  match r with
  | Some x => if x =? 0 then None else Some x
  | None => None
  end.

(** [tip_command] with two arguments, the first of which parses to
    [amount]; [recipient_id] is what [get_user_by_username] returns. *)
Definition tip_command (user_id : Z) (amount : Q) (recipient_id : option Z) (st : state)
  : main_reply * state :=
  if negb (user_exists st user_id) then (MainRegisterFirst, st)
  else if Qle_bool amount 0 then (MainMustBePositive, st)
  else
    match found_user recipient_id with
    | None => (MainUserNotFound, st)
    | Some r =>
        if user_id =? r then (MainSelfTip, st)
        else
          let balance := get_user_balance st user_id in
          if Qgt_bool amount balance then (MainInsufficient, st)
          else
            let recipient_balance := get_user_balance st r in
            (MainTipped,
             update_user_balance r (recipient_balance + amount)%Q
               (update_user_balance user_id (balance - amount)%Q st))
    end.

(** [add_balance_command] and [remove_balance_command] with two arguments,
    the second of which parses to [amount]; [owner_id] is [OWNER_ID]. *)
Definition add_balance_command (owner_id user_id : Z) (amount : Q)
    (target_user_id : option Z) (st : state) : main_reply * state :=
  if negb (user_id =? owner_id) then (MainNotAuthorized, st)
  else if Qle_bool amount 0 then (MainMustBePositive, st)
  else
    match found_user target_user_id with
    | None => (MainUserNotFound, st)
    | Some t =>
        (MainAdded, update_user_balance t (get_user_balance st t + amount)%Q st)
    end.

Definition remove_balance_command (owner_id user_id : Z) (amount : Q)
    (target_user_id : option Z) (st : state) : main_reply * state :=
  if negb (user_id =? owner_id) then (MainNotAuthorized, st)
  else if Qle_bool amount 0 then (MainMustBePositive, st)
  else
    match found_user target_user_id with
    | None => (MainUserNotFound, st)
    | Some t =>
        (MainRemoved, update_user_balance t (get_user_balance st t - amount)%Q st)
    end.

(** [add_house_command] and [remove_house_command] with one argument that
    parses to [amount]. *)
Definition add_house_command (owner_id user_id : Z) (amount : Q) (house : option Q)
  : main_reply * option Q :=
  if negb (user_id =? owner_id) then (MainNotAuthorized, house)
  else if Qle_bool amount 0 then (MainMustBePositive, house)
  else (MainAdded, set_house_balance (get_house_balance house + amount)%Q house).

Definition remove_house_command (owner_id user_id : Z) (amount : Q) (house : option Q)
  : main_reply * option Q :=
  if negb (user_id =? owner_id) then (MainNotAuthorized, house)
  else if Qle_bool amount 0 then (MainMustBePositive, house)
  else if Qgt_bool amount (get_house_balance house) then (MainInsufficientHouse, house)
  else (MainRemoved, set_house_balance (get_house_balance house - amount)%Q house).

(** The slot that gets the point of a round, as [evaluate_round] computes
    it from the two outcome buffers; the outer [None] is a raised
    exception. *)
Definition round_point (v : variant) (mode : string) (rolls1 rolls2 : list Z)
  : option (option slot) :=
  match computed_scores v mode rolls1 rolls2 with
  | Some (score1, score2) => Some (award v score1 score2)
  | None => None
  end.

(** The in-game branch of the button handler of a variant. *)
Definition take_turn (v : variant) (chat_id user_id qmid turn_round : Z) (d : option Z)
    (bd : list (option Z)) (new_mid : Z) (st : state) : reply * state :=
  match v with
  | Darts => dart_throw chat_id user_id qmid turn_round d bd new_mid st
  | Football => football_take_shot chat_id user_id qmid turn_round d bd new_mid st
  end.

(** ** Consistency of the registries *)

(** Every pointer of [user_games] leads to a stored game whose key is made of
    the chat and the two players, in which the pointer's owner plays, and
    all human players of that game point to it; the two players differ. *)
Definition registry_ok (st : state) : Prop :=
  ∀ c u k, user_games st !! (c, u) = Some k →
    ∃ g, games st !! k = Some g
         ∧ k = (c, player1 g, player2 g)
         ∧ (u = player1 g ∨ player2 g = Some u)
         ∧ user_games st !! (c, player1 g) = Some k
         ∧ (∀ q, player2 g = Some q →
                 user_games st !! (c, q) = Some k ∧ q ≠ player1 g).

(** Nobody is challenged by themselves. *)
Definition challenges_ok (st : state) : Prop :=
  ∀ id c, pending_challenges st !! id = Some c → c_initiator c ≠ c_challenged c.

(** Nobody's summary names themselves as the opponent. *)
Definition summaries_ok (st : state) : Prop :=
  ∀ c u lg, last_game_of st c u = Some lg → lg_opponent lg ≠ Some u.

Definition consistent (st : state) : Prop :=
  registry_ok st ∧ challenges_ok st ∧ summaries_ok st.

(** One update of the darts and football handlers. *)
Inductive game_update :=
| UCommand (v : variant) (chat_id user_id : Z) (amount : Q) (new_mid : Z)
| UButton (v : variant) (chat_id user_id qmid : Z) (data : callback) (t : transport)
| URegisteredButton (v : variant) (chat_id user_id qmid : Z) (data : callback)
                    (t : transport)
| UText (v : variant) (chat_id user_id : Z) (at_sign : bool) (result : option Z).

Definition apply_update (st : state) (u : game_update) : state :=
  match u with
  | UCommand v c i a m => (game_command v c i a m st).2
  | UButton v c i q d t => (button_handler v c i q d t st).2
  | URegisteredButton v c i q d t => (registered_button_handler v c i q d t st).2
  | UText v c i a r => (text_handler v c i a r st).2
  end.

Definition run_updates (st : state) (l : list game_update) : state :=
  List.fold_left apply_update l st.

(** ** Updates that overlap *)

(** [telegram_webhook] of main.py hands every update to the event loop as a
    task of its own ([asyncio.run_coroutine_threadsafe(
    application.process_update(update), loop)]).  A task runs up to its next
    [await]; while it waits, the tasks of other updates run.  The handler
    functions above give the outcome of a task during whose waits no other
    task touches the state.  In this section the darts throw, as dispatched
    through the registered wrapper, and the coin flip are cut at their
    awaits, so that the tasks of several presses can be interleaved.

    A step is the code between two waits.  Consecutive awaits with no access
    to the state between them are one wait.  What a task keeps in its local
    variables while it waits is carried by its program point. *)

(** The local variable [game] of a task refers to the game dictionary
    itself: the dictionary stays reachable through it after
    [del context.bot_data['games'][game_key]].  [detached] holds the
    dictionaries removed from [games].  No step below stores a new
    dictionary under a key, so a key names one dictionary throughout. *)
Record world := World {
  shared : state;
  detached : gmap game_key game
}.

Definition deref (k : game_key) (w : world) : option game :=
  match games (shared w) !! k with
  | Some g => Some g
  | None => detached w !! k
  end.

Definition assign (k : game_key) (g : game) (w : world) : world :=
  match games (shared w) !! k with
  | Some _ => World (write_game k g (shared w)) (detached w)
  | None => World (shared w) (<[k := g]> (detached w))
  end.

Definition on_shared (f : state → state) (w : world) : world :=
  World (f (shared w)) (detached w).

(** [del context.bot_data['games'][k]]; KeyError is [None]. *)
Definition detach (k : game_key) (w : world) : option world :=
  match games (shared w) !! k with
  | Some g =>
      Some (World (set_games (delete k (games (shared w))) (shared w))
                  (<[k := g]> (detached w)))
  | None => None
  end.

(** The wrapper [with_game_ownership_check(handler, use_bot_data=True)] up
    to [await handler(update, context)], whose first statement is an await;
    the boolean tells whether the handler is called. *)
Definition wrapper_step (chat_id user_id qmid : Z) (w : world) : world * bool :=
  let st := shared w in
  let setup_phase :=
    match dice_setup (udata_of st user_id) with
    | Some su => opt_eqb (su_message_id su) (Some qmid)
    | None => false
    end in
  match user_games st !! (chat_id, user_id) with
  | Some game_key_user =>
      match games st !! game_key_user with
      | Some g =>
          (World (write_game game_key_user (with_message_id (Some qmid) g) st)
                 (detached w), true)
      | None => (w, setup_phase)
      end
  | None => (w, setup_phase)
  end.

(** One press of a throw button: what [query] carries and what the chat
    transport returns to the task of this press. *)
Record press := Press {
  p_chat : Z;
  p_user : Z;
  p_qmid : Z;
  p_round : Z;
  p_transport : transport
}.

(** Where the task of a darts throw waits. *)
Inductive throw_pc :=
| AtWrapper
    (* [await query.answer()] of the wrapper *)
| AtHandler
    (* [await query.answer()] of [dart_button_handler] *)
| DieSent (k : game_key) (pk : slot) (dart_value : Z)
    (* the checks passed: [send_with_retry(emoji)], [asyncio.sleep(4)] *)
| BotDie (k : game_key) (other : slot) (todo : nat) (supply : list (option Z))
         (bot_rolls : list Z)
    (* the bot's loop, [todo] iterations to go: the send and the sleep *)
| NamesAsked (k : game_key)
    (* [evaluate_round]: [get_chat_member] *)
| ResultSent (k : game_key) (winner : slot)
    (* [evaluate_round]: the final results are being sent *)
| IncompleteSent (k : game_key)
    (* [evaluate_round]: "Rolls incomplete" is being sent *)
| PromptSent (k : game_key) (r : reply)
    (* a prompt is being sent; its id is stored afterwards *)
| Finished (r : reply).

(** [evaluate_round] of darts.py up to its first await; [g] is the
    dictionary with the mutations of the calling step. *)
Definition evaluate_begin (k : game_key) (g : game) (w : world) : world * throw_pc :=
  let rolls1 := at1 (rolls g) in
  let rolls2 := at2 (rolls g) in
  let required_rolls := rolls_needed g in
  if (Z.of_nat (length rolls1) <? required_rolls)
     || (Z.of_nat (length rolls2) <? required_rolls)
  then (assign k g w, IncompleteSent k)
  else
    match computed_scores Darts (mode g) rolls1 rolls2 with
    | None => (assign k g w, Finished Raised)
    | Some (score1, score2) =>
        let g1 :=
          match award Darts score1 score2 with
          | Some s => add_point s g
          | None => g
          end in
        (assign k g1 w, NamesAsked k)
    end.

(** [evaluate_round] from the names to the next send: the test of the
    scores against [points_to_win], then the credit, or the next round. *)
Definition evaluate_decide (k : game_key) (w : world) : world * throw_pc :=
  match deref k w with
  | None => (w, Finished Raised)
  | Some g =>
      if target_reached g then
        let winner :=
          if at1 (scores g) >? at2 (scores g) then Player1 else Player2 in
        (on_shared (credited g winner) w, ResultSent k winner)
      else
        (assign k (with_round_number (round_number g + 1) (clear_rolls g)) w,
         PromptSent k RoundResult)
  end.

(** The summaries [evaluate_round] writes to [last_games]. *)
Definition record_summaries (g : game) (chat_id : Z) (st : state) : state :=
  match player2 g with
  | Some p2 =>
      record_last_game chat_id p2
        (LastGame (Some (player1 g)) (mode g) (points_to_win g) (bet g))
        (record_last_game chat_id (player1 g)
           (LastGame (Some p2) (mode g) (points_to_win g) (bet g)) st)
  | None =>
      record_last_game chat_id (player1 g)
        (LastGame None (mode g) (points_to_win g) (bet g)) st
  end.

(** [evaluate_round] after the final results were sent: the summaries and
    the three [del]. *)
Definition evaluate_close (chat_id : Z) (k : game_key) (winner : slot) (w : world)
  : world * throw_pc :=
  match deref k w with
  | None => (w, Finished Raised)
  | Some g =>
      let st2 := record_summaries g chat_id (shared w) in
      let after_p2 :=
        match player2 g with
        | Some p2 => del_user_game (chat_id, p2) st2
        | None => Some st2
        end in
      match after_p2 with
      | None => (World st2 (detached w), Finished Raised)
      | Some st3 =>
          match del_user_game (chat_id, player1 g) st3 with
          | None => (World st3 (detached w), Finished Raised)
          | Some st4 =>
              match detach k (World st4 (detached w)) with
              | None => (World st4 (detached w), Finished Raised)
              | Some w5 => (w5, Finished (GameOver winner))
              end
          end
      end
  end.

(** The setup test and the checks of the ["dart_throw_<n>"] branch, up to
    the send of the die. *)
Definition throw_checks (p : press) (w : world) : world * throw_pc :=
  let st := shared w in
  match get_setup Darts (udata_of st (p_user p)) with
  | Some su =>
      if negb (su_initiator su =? p_user p) then (w, Finished NotYourSetup)
      else if negb (opt_eqb (su_message_id su) (Some (p_qmid p)))
      then (w, Finished NotYourSetup)
      else (w, Finished Silent)
  | None =>
  match user_games st !! (p_chat p, p_user p) with
  | None => (w, Finished NoActiveGame)
  | Some k =>
  match games st !! k with
  | None => (w, Finished GameDataMissing)
  | Some g =>
  if negb (opt_eqb (Some (p_qmid p)) (message_id g)) then (w, Finished NotCurrentMessage)
  else if target_reached g then (w, Finished GameEnded)
  else
  match player_key g (p_user p) with
  | None => (w, Finished Silent)
  | Some pk =>
  if negb (p_round p =? round_number g) then (w, Finished PreviousRound)
  else if negb (slot_eqb pk (current_player g)) then (w, Finished NotYourTurn)
  else
  match t_die (p_transport p) with
  | None => (w, Finished ThrowFailed)
  | Some dart_value => (w, DieSent k pk dart_value)
  end end end end end.

(** From the end of the sleep to the next wait: the die is appended and
    counted, then the round is evaluated, the player throws again, the bot
    throws, or the turn passes to the other player. *)
Definition after_die (p : press) (k : game_key) (pk : slot) (dart_value : Z) (w : world)
  : world * throw_pc :=
  match deref k w with
  | None => (w, Finished Raised)
  | Some g =>
      let g1 := append_roll pk dart_value g in
      if both_complete g1 then evaluate_begin k g1 w
      else if get_slot (roll_count g1) pk <? rolls_needed g1 then
        (assign k g1 w, PromptSent k ThrowAgain)
      else
        let other_player := other_slot pk in
        let g2 := with_current_player other_player g1 in
        match player_of g2 other_player with
        | None =>
            match Z.to_nat (rolls_needed g2 - get_slot (roll_count g2) other_player) with
            | O => evaluate_begin k (extend_rolls other_player [] g2) w
            | S n =>
                (assign k g2 w,
                 BotDie k other_player (S n) (t_bot_dice (p_transport p)) [])
            end
        | Some _ => (assign k g2 w, PromptSent k NextTurn)
        end
  end.

(** One iteration of the bot's loop, from the end of its waits: a failed
    send ends the handler; after the last die the rolls are stored and the
    round is evaluated. *)
Definition bot_die (k : game_key) (other : slot) (todo : nat)
    (supply : list (option Z)) (bot_rolls : list Z) (w : world) : world * throw_pc :=
  match supply with
  | Some x :: rest =>
      match todo with
      | S (S n) => (w, BotDie k other (S n) rest (bot_rolls ++ [x]))
      | _ =>
          match deref k w with
          | None => (w, Finished Raised)
          | Some g => evaluate_begin k (extend_rolls other (bot_rolls ++ [x]) g) w
          end
      end
  | _ => (w, Finished BotThrowFailed)
  end.

(** One step of the task of a darts throw. *)
Definition throw_step (p : press) (pc : throw_pc) (w : world) : world * throw_pc :=
  match pc with
  | AtWrapper =>
      let '(w', called) := wrapper_step (p_chat p) (p_user p) (p_qmid p) w in
      (w', if called then AtHandler else Finished NoGameOrSetup)
  | AtHandler => throw_checks p w
  | DieSent k pk dart_value => after_die p k pk dart_value w
  | BotDie k other todo supply bot_rolls => bot_die k other todo supply bot_rolls w
  | NamesAsked k => evaluate_decide k w
  | ResultSent k winner => evaluate_close (p_chat p) k winner w
  | IncompleteSent k =>
      match deref k w with
      | None => (w, Finished Raised)
      | Some g => (assign k (clear_rolls g) w, Finished RollsIncomplete)
      end
  | PromptSent k r =>
      match deref k w with
      | None => (w, Finished Raised)
      | Some g =>
          (assign k (with_message_id (Some (t_new_mid (p_transport p))) g) w,
           Finished r)
      end
  | Finished r => (w, Finished r)
  end.

Record throw_task := ThrowTask {
  tt_press : press;
  tt_pc : throw_pc
}.

Definition throw_task_step (t : throw_task) (w : world) : world * throw_task :=
  let '(w', pc') := throw_step (tt_press t) (tt_pc t) w in
  (w', ThrowTask (tt_press t) pc').

(** One press of the flip button of the coin game; [c_draw] is the value
    [random.random()] returns to its task. *)
Record coin_press := CoinPress {
  c_chat : Z;
  c_user : Z;
  c_qmid : Z;
  c_draw : Q
}.

(** Where the task of a coin flip waits.  The coin game dictionary is not
    changed after it is built, so what [game] refers to is its value. *)
Inductive flip_pc :=
| FlipAtWrapper
    (* [await query.answer()] of the wrapper *)
| FlipAtHandler
    (* [await query.answer()] of [coin_button_handler] *)
| FlipChecked (game : coin_game)
    (* the check passed: [sleep(2)], the draw, [send_sticker], [sleep(3)] *)
| FlipPaid (game : coin_game) (result : side)
    (* the balance is updated; the outcome message is being sent *)
| FlipFinished (r : reply).

(** One step of the task of a coin flip. *)
Definition flip_step (p : coin_press) (pc : flip_pc) (w : world) : world * flip_pc :=
  let st := shared w in
  match pc with
  | FlipAtWrapper =>
      let '(w', called) := wrapper_step (c_chat p) (c_user p) (c_qmid p) w in
      (w', if called then FlipAtHandler else FlipFinished NoGameOrSetup)
  | FlipAtHandler =>
      match coin_games st with
      | None => (w, FlipFinished Raised)
      | Some registered =>
          match registered !! (c_chat p, c_user p) with
          | None => (w, FlipFinished OldGameButton)
          | Some game =>
              if negb (c_qmid p =? cg_match_message_id game)
              then (w, FlipFinished OldGameButton)
              else (w, FlipChecked game)
          end
      end
  | FlipChecked game =>
      let player_choice := cg_choice game in
      let result := coin_result player_choice (c_draw p) in
      let st1 :=
        if side_eqb player_choice result then
          let winnings := (cg_bet game * multiplier)%Q in
          update_user_balance (c_user p)
            (get_user_balance st (c_user p) + winnings - cg_bet game)%Q st
        else
          update_user_balance (c_user p)
            (get_user_balance st (c_user p) - cg_bet game)%Q st in
      (World st1 (detached w), FlipPaid game result)
  | FlipPaid game result =>
      let st1 :=
        put_udata (c_user p)
          (put_coin_setup (Some (CoinSetup None (cg_bet game) None None))
             (udata_of st (c_user p))) st in
      match coin_games st1 with
      | None => (World st1 (detached w), FlipFinished Raised)
      | Some registered =>
          match registered !! (c_chat p, c_user p) with
          | None => (World st1 (detached w), FlipFinished Raised)
          | Some _ =>
              (World (set_coin_games (Some (delete (c_chat p, c_user p) registered)) st1)
                     (detached w),
               FlipFinished (CoinLanded result))
          end
      end
  | FlipFinished r => (w, FlipFinished r)
  end.

Record flip_task := FlipTask {
  ft_press : coin_press;
  ft_pc : flip_pc
}.

Definition flip_task_step (t : flip_task) (w : world) : world * flip_task :=
  let '(w', pc') := flip_step (ft_press t) (ft_pc t) w in
  (w', FlipTask (ft_press t) pc').

(** The event loop: [schedule] names, step by step, the task that runs
    next; [run_alone] runs one task with nothing in between. *)
Fixpoint run_schedule {T : Type} (step : T → world → world * T)
    (schedule : list nat) (tasks : list T) (w : world) : list T * world :=
  match schedule with
  | [] => (tasks, w)
  | i :: rest =>
      match tasks !! i with
      | Some t =>
          let '(w', t') := step t w in
          run_schedule step rest (<[i := t']> tasks) w'
      | None => run_schedule step rest tasks w
      end
  end.

Fixpoint run_alone {T : Type} (step : T → world → world * T)
    (steps : nat) (t : T) (w : world) : T * world :=
  match steps with
  | O => (t, w)
  | S n => let '(w', t') := step t w in run_alone step n t' w'
  end.

(** A bot match of player 1 (one point, mode "normal", wager 5), and two
    presses of its throw button. *)
Definition bot_match : state :=
  (start_game_against_bot Darts chat alice 50 darts_ready).2.

Definition first_press : press := Press chat alice 50 1 (Transport 51 (Some 6) [Some 2]).
Definition second_press : press := Press chat alice 50 1 (Transport 52 (Some 4) [Some 3]).

(** The task of a throw, resumed at [pc] in world [w] and run with nothing
    in between, finishes with reply [r] in world [w']. *)
Definition throw_alone (p : press) (pc : throw_pc) (w : world) (r : reply) (w' : world)
  : Prop :=
  ∃ n, ∀ m, (n ≤ m)%nat →
    run_alone throw_task_step m (ThrowTask p pc) w = (ThrowTask p (Finished r), w').

Definition flip_alone (p : coin_press) (pc : flip_pc) (w : world) (r : reply) (w' : world)
  : Prop :=
  ∃ n, ∀ m, (n ≤ m)%nat →
    run_alone flip_task_step m (FlipTask p pc) w = (FlipTask p (FlipFinished r), w').

(** Player 1, who is in the darts match [started] with a balance of 5, has
    set up a coin match for 5 on heads and started it from message 60. *)
Definition coin_started : state :=
  (registered_coin_handler chat alice 60 coin_bot 0%Q 61
     (registered_coin_handler chat alice 60 (coin_pick heads) 0%Q 61
        (coin_command chat alice 5%Q 60 started).2).2).2.

(** A uniform draw from [0, 1) on a grid of [n] points: the equally likely
    values [0/n, 1/n, ..., (n-1)/n] ([random.random()] returns such a value
    for n = 2^53). *)
Definition grid_draws (n : nat) : list Q :=
  List.map (fun i => Qmake (Z.of_nat i) (Pos.of_nat n)) (seq 0 n).

(** Whether the flip handled with draw [r] shows the side [choice]. *)
Definition flip_won (chat_id user_id qmid new_mid : Z) (st : state) (choice : side)
    (r : Q) : bool :=
  match (coin_button_handler chat_id user_id qmid coin_flip r new_mid st).1 with
  | CoinLanded s => side_eqb choice s
  | _ => false
  end.

(** The number of draws of the grid with which the player wins the flip. *)
Definition winning_draws (chat_id user_id qmid new_mid : Z) (st : state) (choice : side)
    (n : nat) : nat :=
  length (List.filter (flip_won chat_id user_id qmid new_mid st choice) (grid_draws n)).

(** [context.user_data['dice_setup'] = s]: the setup dictionary of the dice
    game, which the wrapper of main.py looks at. *)
Definition put_dice_setup (s : option setup) (ud : udata) : udata :=
  UData (dart_setup ud) (dart_mode ud) (dart_points ud)
        (football_setup ud) (football_mode ud) (football_points ud)
        (expecting_username ud) s (coin_setup ud).

(** [lost_twice] with a dice setup of player 1 whose message id is 53. *)
Definition lost_twice_dice : state :=
  put_udata alice
    (put_dice_setup (Some (Setup alice 1%Q (Some 53))) (udata_of lost_twice alice))
    lost_twice.

(** * Properties *)

(** ** The ledger and the state projections *)

Lemma update_user_balance_games u x st :
  games (update_user_balance u x st) = games st.
Proof. unfold update_user_balance. by destruct (balances st !! u). Qed.

Lemma update_user_balance_user_games u x st :
  user_games (update_user_balance u x st) = user_games st.
Proof. unfold update_user_balance. by destruct (balances st !! u). Qed.

Lemma update_user_balance_pending u x st :
  pending_challenges (update_user_balance u x st) = pending_challenges st.
Proof. unfold update_user_balance. by destruct (balances st !! u). Qed.

Lemma update_user_balance_last_games u x st :
  last_games (update_user_balance u x st) = last_games st.
Proof. unfold update_user_balance. by destruct (balances st !! u). Qed.

Lemma coin_game_of_Some st key game :
  coin_game_of st key = Some game →
  ∃ registered, coin_games st = Some registered ∧ registered !! key = Some game.
Proof.
  unfold coin_game_of. destruct (coin_games st) as [m|]; simpl.
  - intros H. by exists m.
  - by rewrite lookup_empty.
Qed.

Lemma update_user_balance_coin_games u x st :
  coin_games (update_user_balance u x st) = coin_games st.
Proof. unfold update_user_balance. by destruct (balances st !! u). Qed.

Lemma update_user_balance_user_data u x st :
  user_data (update_user_balance u x st) = user_data st.
Proof. unfold update_user_balance. by destruct (balances st !! u). Qed.

Lemma get_update_eq u x st :
  is_Some (balances st !! u) →
  get_user_balance (update_user_balance u x st) u = x.
Proof.
  intros [b Hb]. unfold get_user_balance, update_user_balance.
  rewrite Hb. simpl. by rewrite lookup_insert_eq.
Qed.

Lemma get_update_ne u u' x st :
  u ≠ u' →
  get_user_balance (update_user_balance u x st) u' = get_user_balance st u'.
Proof.
  intros Hne. unfold get_user_balance, update_user_balance.
  destruct (balances st !! u); [simpl | done].
  by rewrite lookup_insert_ne.
Qed.

Lemma update_keeps_rows u u' x st :
  is_Some (balances st !! u') →
  is_Some (balances (update_user_balance u x st) !! u').
Proof.
  intros Hu'. unfold update_user_balance.
  destruct (balances st !! u) eqn:Hu; [simpl | done].
  destruct (decide (u = u')) as [->|Hne].
  - rewrite lookup_insert_eq. by eexists.
  - by rewrite lookup_insert_ne.
Qed.

Lemma balances_update_ext u x y st1 st2 :
  balances st1 = balances st2 → x = y →
  balances (update_user_balance u x st1) = balances (update_user_balance u y st2).
Proof.
  intros H ->. unfold update_user_balance. rewrite H.
  destruct (balances st2 !! u); simpl; by rewrite ?H.
Qed.

Lemma udata_of_update_user_balance u x st w :
  udata_of (update_user_balance u x st) w = udata_of st w.
Proof. unfold udata_of. by rewrite update_user_balance_user_data. Qed.

Lemma last_game_of_record_eq chat u lg st :
  last_game_of (record_last_game chat u lg st) chat u = Some lg.
Proof.
  unfold last_game_of, record_last_game. simpl.
  rewrite lookup_insert_eq. simpl. by rewrite lookup_insert_eq.
Qed.

Lemma last_game_of_record_ne chat u u' lg st :
  u ≠ u' →
  last_game_of (record_last_game chat u lg st) chat u' = last_game_of st chat u'.
Proof.
  intros Hne. unfold last_game_of, record_last_game. simpl.
  rewrite lookup_insert_eq. simpl. by rewrite lookup_insert_ne.
Qed.

(** ** Equal scores award no point *)

Lemma award_equal v s : award v s s = None.
Proof.
  destruct v; simpl.
  - destruct (s >? s) eqn:E; [lia | done].
  - destruct (s >? 0) eqn:E1, (s =? 0) eqn:E2; simpl; try done; lia.
Qed.

(** C7. A round whose two complete outcome buffers give equal computed
    scores under the active rule increments neither score; the buffers and
    the counts are cleared, the turn goes back to slot 1 and the round number
    grows by one (for the darts rule and for the football rule alike).  The
    only thing stored is the game under its key. *)
Theorem draw_round_repeats (v : variant) (g : game) (chat_id : Z) (k : game_key)
    (new_mid : Z) (st : state) (s : Z) :
  rolls_needed g <= Z.of_nat (length (at1 (rolls g))) →
  rolls_needed g <= Z.of_nat (length (at2 (rolls g))) →
  computed_scores v (mode g) (at1 (rolls g)) (at2 (rolls g)) = Some (s, s) →
  target_reached g = false →
  evaluate_round v g chat_id k new_mid st =
    (RoundResult,
     write_game k
       (Game (player1 g) (player2 g) (mode g) (points_to_win g) (bet g)
             (scores g) Player1 (PerSlot [] []) (rolls_needed g) (PerSlot 0 0)
             (round_number g + 1) (Some new_mid))
       st).
Proof.
  intros H1 H2 Hs Ht. unfold evaluate_round.
  assert ((Z.of_nat (length (at1 (rolls g))) <? rolls_needed g) = false) as -> by lia.
  assert ((Z.of_nat (length (at2 (rolls g))) <? rolls_needed g) = false) as -> by lia.
  simpl. rewrite Hs, award_equal, Ht. reflexivity.
Qed.

Lemma draw_round_repeats_witness :
  evaluate_round Darts drawn_game 100 (100, 1, Some 2) 41 empty_state =
    (RoundResult,
     write_game (100, 1, Some 2)
       (Game 1 (Some 2) "double" 2 5%Q (PerSlot 1 0) Player1
             (PerSlot [] []) 2 (PerSlot 0 0) 4 (Some 41))
       empty_state).
Proof.
  apply (draw_round_repeats Darts drawn_game 100 (100, 1, Some 2) 41 empty_state 8);
    vm_compute; congruence.
Defined.

(** ** Settlement *)

Lemma del_user_game_Some key st :
  is_Some (user_games st !! key) →
  del_user_game key st = Some (set_user_games (delete key (user_games st)) st).
Proof. intros [x Hx]. unfold del_user_game. by rewrite Hx. Qed.

Lemma del_game_Some k st :
  is_Some (games st !! k) →
  del_game k st = Some (set_games (delete k (games st)) st).
Proof. intros [x Hx]. unfold del_game. by rewrite Hx. Qed.

Lemma credited_user_games g w st : user_games (credited g w st) = user_games st.
Proof.
  unfold credited. destruct (player_of g w); [|done].
  apply update_user_balance_user_games.
Qed.

Lemma credited_games g w st : games (credited g w st) = games st.
Proof.
  unfold credited. destruct (player_of g w); [|done].
  apply update_user_balance_games.
Qed.

Lemma credited_last_games g w st : last_games (credited g w st) = last_games st.
Proof.
  unfold credited. destruct (player_of g w); [|done].
  apply update_user_balance_last_games.
Qed.

(** What [settle] leaves behind when the registry holds the pointers of the
    session: the reply names the slot with the higher score, the balances
    are those after the credit, the summaries are recorded and the pointers
    and the session are gone. *)
Lemma settle_complete g chat_id k st :
  let winner := if at1 (scores g) >? at2 (scores g) then Player1 else Player2 in
  is_Some (user_games st !! (chat_id, player1 g)) →
  (∀ p2, player2 g = Some p2 →
         is_Some (user_games st !! (chat_id, p2)) ∧ p2 ≠ player1 g) →
  is_Some (games st !! k) →
  ∃ st',
    settle g chat_id k st = (GameOver winner, st')
    ∧ balances st' = balances (credited g winner st)
    ∧ last_game_of st' chat_id (player1 g)
      = Some (LastGame (player2 g) (mode g) (points_to_win g) (bet g))
    ∧ (∀ p2, player2 g = Some p2 →
         last_game_of st' chat_id p2
         = Some (LastGame (Some (player1 g)) (mode g) (points_to_win g) (bet g)))
    ∧ user_games st' !! (chat_id, player1 g) = None
    ∧ (∀ p2, player2 g = Some p2 → user_games st' !! (chat_id, p2) = None)
    ∧ games st' !! k = None.
Proof.
  intros winner H1 H2 Hk. unfold settle. fold winner.
  change (match player_of g winner with
          | Some w => update_user_balance w
                        (get_user_balance st w + bet g * multiplier + bet g)%Q st
          | None => st
          end) with (credited g winner st).
  set (st1 := credited g winner st).
  destruct (player2 g) as [p2|] eqn:Hp2.
  - destruct (H2 p2 eq_refl) as [Hu2 Hne].
    rewrite del_user_game_Some by (simpl; unfold st1; by rewrite credited_user_games).
    rewrite del_user_game_Some.
    2:{ simpl. rewrite lookup_delete_ne by congruence.
        unfold st1. by rewrite credited_user_games. }
    rewrite del_game_Some by (simpl; unfold st1; by rewrite credited_games).
    eexists. split; [reflexivity|]. simpl.
    repeat split.
    + unfold last_game_of. simpl. rewrite lookup_insert_eq. simpl.
      rewrite lookup_insert_eq. simpl.
      rewrite lookup_insert_ne by done. by rewrite lookup_insert_eq.
    + intros ? [= <-]. unfold last_game_of. simpl. rewrite lookup_insert_eq. simpl.
      by rewrite lookup_insert_eq.
    + by rewrite lookup_delete_eq.
    + intros ? [= <-]. rewrite lookup_delete_ne by congruence.
      by rewrite lookup_delete_eq.
    + by rewrite lookup_delete_eq.
  - rewrite del_user_game_Some by (simpl; unfold st1; by rewrite credited_user_games).
    rewrite del_game_Some by (simpl; unfold st1; by rewrite credited_games).
    eexists. split; [reflexivity|]. simpl.
    repeat split.
    + unfold last_game_of. simpl. rewrite lookup_insert_eq. simpl.
      by rewrite lookup_insert_eq.
    + intros ? [=].
    + by rewrite lookup_delete_eq.
    + intros ? [=].
    + by rewrite lookup_delete_eq.
Qed.

Lemma get_user_balance_ext st1 st2 u :
  balances st1 = balances st2 → get_user_balance st1 u = get_user_balance st2 u.
Proof. unfold get_user_balance. by intros ->. Qed.

Lemma credited_winner g w st u :
  player_of g w = Some u →
  is_Some (balances st !! u) →
  get_user_balance (credited g w st) u
  = (get_user_balance st u + bet g * multiplier + bet g)%Q.
Proof.
  intros Hw Hu. unfold credited. rewrite Hw. by apply get_update_eq.
Qed.

Lemma credited_other g w st u :
  player_of g w ≠ Some u →
  get_user_balance (credited g w st) u = get_user_balance st u.
Proof.
  intros Hw. unfold credited. destruct (player_of g w) as [x|]; [|done].
  apply get_update_ne. congruence.
Qed.

Lemma dart_throw_no_session chat_id u qmid r d bd m st :
  user_games st !! (chat_id, u) = None →
  dart_throw chat_id u qmid r d bd m st = (NoActiveGame, st).
Proof. intros H. unfold dart_throw. by rewrite H. Qed.

Lemma football_take_shot_no_session chat_id u qmid r d bd m st :
  user_games st !! (chat_id, u) = None →
  football_take_shot chat_id u qmid r d bd m st = (NoActiveGame, st).
Proof. intros H. unfold football_take_shot. by rewrite H. Qed.

(** The round that brings slot [w] to the target ends in [settle], and [w]
    is the slot [settle] pays. *)
Lemma evaluate_round_final v g chat_id k new_mid st s1 s2 w :
  rolls_needed g <= Z.of_nat (length (at1 (rolls g))) →
  rolls_needed g <= Z.of_nat (length (at2 (rolls g))) →
  computed_scores v (mode g) (at1 (rolls g)) (at2 (rolls g)) = Some (s1, s2) →
  award v s1 s2 = Some w →
  get_slot (scores g) w + 1 = points_to_win g →
  get_slot (scores g) (other_slot w) < points_to_win g →
  evaluate_round v g chat_id k new_mid st
  = settle (add_point w g) chat_id k (write_game k (add_point w g) st)
  ∧ (if at1 (scores (add_point w g)) >? at2 (scores (add_point w g))
     then Player1 else Player2) = w.
Proof.
  intros H1 H2 Hs Ha Hw Ho. unfold evaluate_round.
  assert ((Z.of_nat (length (at1 (rolls g))) <? rolls_needed g) = false) as -> by lia.
  assert ((Z.of_nat (length (at2 (rolls g))) <? rolls_needed g) = false) as -> by lia.
  simpl. rewrite Hs, Ha.
  assert (target_reached (add_point w g) = true) as ->.
  { unfold target_reached. destruct w; simpl in *; lia. }
  split; [reflexivity|].
  destruct w; simpl in *.
  - assert ((at1 (scores g) + 1 >? at2 (scores g)) = true) as -> by lia. done.
  - assert ((at1 (scores g) >? at2 (scores g) + 1) = false) as -> by lia. done.
Qed.

(** What the final round evaluation leaves behind: the credit, the summaries,
    the removed registry entries, and no session for a later throw. *)
Lemma evaluate_round_settles (v : variant) (g : game) (chat_id : Z) (k : game_key)
    (new_mid : Z) (st : state) (s1 s2 : Z) (w : slot) :
  rolls_needed g <= Z.of_nat (length (at1 (rolls g))) →
  rolls_needed g <= Z.of_nat (length (at2 (rolls g))) →
  computed_scores v (mode g) (at1 (rolls g)) (at2 (rolls g)) = Some (s1, s2) →
  award v s1 s2 = Some w →
  get_slot (scores g) w + 1 = points_to_win g →
  get_slot (scores g) (other_slot w) < points_to_win g →
  is_Some (user_games st !! (chat_id, player1 g)) →
  (∀ p2, player2 g = Some p2 →
         is_Some (user_games st !! (chat_id, p2)) ∧ p2 ≠ player1 g) →
  (∀ u, player_of g w = Some u → is_Some (balances st !! u)) →
  ∃ st',
    evaluate_round v g chat_id k new_mid st = (GameOver w, st')
    ∧ (∀ u, player_of g w = Some u →
         (get_user_balance st' u == get_user_balance st u + (bet g * 1.92 + bet g))%Q)
    ∧ (∀ u, player_of g w ≠ Some u → get_user_balance st' u = get_user_balance st u)
    ∧ last_game_of st' chat_id (player1 g)
      = Some (LastGame (player2 g) (mode g) (points_to_win g) (bet g))
    ∧ (∀ p2, player2 g = Some p2 →
         last_game_of st' chat_id p2
         = Some (LastGame (Some (player1 g)) (mode g) (points_to_win g) (bet g)))
    ∧ user_games st' !! (chat_id, player1 g) = None
    ∧ (∀ p2, player2 g = Some p2 → user_games st' !! (chat_id, p2) = None)
    ∧ games st' !! k = None
    ∧ (∀ u qmid r d bd m,
         u = player1 g ∨ player2 g = Some u →
         dart_throw chat_id u qmid r d bd m st' = (NoActiveGame, st')
         ∧ football_take_shot chat_id u qmid r d bd m st' = (NoActiveGame, st')).
Proof.
  intros H1 H2 Hs Ha Hw Ho Hp1 Hp2 Hreg.
  destruct (evaluate_round_final v g chat_id k new_mid st s1 s2 w) as [-> Hwin];
    try done.
  set (g1 := add_point w g) in *.
  assert (player_of g1 = player_of g) as Hpl by (by destruct w).
  destruct (settle_complete g1 chat_id k (write_game k g1 st))
    as (st' & Hst' & Hbal & Hl1 & Hl2 & Hu1 & Hu2 & Hg).
  { by destruct w. }
  { intros p2 Hp. apply Hp2. by destruct w. }
  { simpl. rewrite lookup_insert_eq. by eexists. }
  rewrite Hwin in Hst', Hbal.
  assert (∀ u, get_user_balance st' u
               = get_user_balance (credited g1 w (write_game k g1 st)) u) as Hget.
  { intros u. by apply get_user_balance_ext. }
  exists st'. split; [done|].
  split.
  { intros u Hu. rewrite Hget, credited_winner.
    - replace (bet g1) with (bet g) by (by destruct w).
      replace (get_user_balance (write_game k g1 st) u) with (get_user_balance st u)
        by done.
      unfold multiplier. ring.
    - by rewrite Hpl.
    - simpl. by apply Hreg. }
  split.
  { intros u Hu. rewrite Hget, credited_other by (by rewrite Hpl). done. }
  replace (player1 g1) with (player1 g) in * by (by destruct w).
  replace (player2 g1) with (player2 g) in * by (by destruct w).
  replace (mode g1) with (mode g) in * by (by destruct w).
  replace (points_to_win g1) with (points_to_win g) in * by (by destruct w).
  replace (bet g1) with (bet g) in * by (by destruct w).
  repeat (split; [done|]).
  intros u qmid r d bd m [-> | Hu].
  - by rewrite dart_throw_no_session, football_take_shot_no_session.
  - by rewrite dart_throw_no_session, football_take_shot_no_session by auto.
Qed.

(** X24. The round evaluation that brings slot [w] to the win target, run
    with no other update in between, ends the match.  A human winner's
    balance grows by exactly wager*1.92 + wager and no other balance changes
    (the loser is not refunded, a win of the bot credits nobody); a summary
    is recorded for every human participant; both per-participant pointers
    and the session entry are removed; and a throw handled afterwards finds
    no session.  A press whose task overlaps the evaluation is another
    matter: see the section "Presses that overlap". *)
Theorem match_completion (v : variant) (g : game) (chat_id : Z) (k : game_key)
    (new_mid : Z) (st : state) (s1 s2 : Z) (w : slot) :
  rolls_needed g <= Z.of_nat (length (at1 (rolls g))) →
  rolls_needed g <= Z.of_nat (length (at2 (rolls g))) →
  computed_scores v (mode g) (at1 (rolls g)) (at2 (rolls g)) = Some (s1, s2) →
  award v s1 s2 = Some w →
  get_slot (scores g) w + 1 = points_to_win g →
  get_slot (scores g) (other_slot w) < points_to_win g →
  is_Some (user_games st !! (chat_id, player1 g)) →
  (∀ p2, player2 g = Some p2 →
         is_Some (user_games st !! (chat_id, p2)) ∧ p2 ≠ player1 g) →
  (∀ u, player_of g w = Some u → is_Some (balances st !! u)) →
  ∃ st',
    evaluate_round v g chat_id k new_mid st = (GameOver w, st')
    ∧ (∀ u, player_of g w = Some u →
         (get_user_balance st' u == get_user_balance st u + (bet g * 1.92 + bet g))%Q)
    ∧ (∀ u, player_of g w ≠ Some u → get_user_balance st' u = get_user_balance st u)
    ∧ last_game_of st' chat_id (player1 g)
      = Some (LastGame (player2 g) (mode g) (points_to_win g) (bet g))
    ∧ (∀ p2, player2 g = Some p2 →
         last_game_of st' chat_id p2
         = Some (LastGame (Some (player1 g)) (mode g) (points_to_win g) (bet g)))
    ∧ user_games st' !! (chat_id, player1 g) = None
    ∧ (∀ p2, player2 g = Some p2 → user_games st' !! (chat_id, p2) = None)
    ∧ games st' !! k = None
    ∧ (∀ u qmid r d bd m,
         u = player1 g ∨ player2 g = Some u →
         dart_throw chat_id u qmid r d bd m st' = (NoActiveGame, st')
         ∧ football_take_shot chat_id u qmid r d bd m st' = (NoActiveGame, st')).
Proof. exact (evaluate_round_settles v g chat_id k new_mid st s1 s2 w). Qed.

(** ** A concrete match *)

Example alice_threw_game :
  games alice_threw !! (chat, alice, Some bob)
  = Some (Game alice (Some bob) "normal" 1 5%Q (PerSlot 0 0) Player2
               (PerSlot [6] []) 1 (PerSlot 1 0) 1 (Some 51)).
Proof. vm_compute. reflexivity. Qed.

Example bob_threw_is_final_round :
  dart_throw chat bob 51 1 (Some 2) [] 52 alice_threw
  = evaluate_round Darts final_round chat (chat, alice, Some bob) 52 alice_threw.
Proof. vm_compute. reflexivity. Qed.

Lemma match_completion_witness :
  ∃ st',
    evaluate_round Darts final_round chat (chat, alice, Some bob) 52 alice_threw
    = (GameOver Player1, st')
    ∧ (get_user_balance st' alice == get_user_balance alice_threw alice + (5 * 1.92 + 5))%Q
    ∧ get_user_balance st' bob = get_user_balance alice_threw bob
    ∧ last_game_of st' chat alice = Some (LastGame (Some bob) "normal" 1 5%Q)
    ∧ last_game_of st' chat bob = Some (LastGame (Some alice) "normal" 1 5%Q)
    ∧ user_games st' !! (chat, alice) = None
    ∧ user_games st' !! (chat, bob) = None
    ∧ games st' !! (chat, alice, Some bob) = None.
Proof.
  destruct (match_completion Darts final_round chat (chat, alice, Some bob) 52
              alice_threw 6 2 Player1)
    as (st' & H & Hw & Ho & Hl1 & Hl2 & Hu1 & Hu2 & Hg & _).
  - vm_compute; congruence.
  - vm_compute; congruence.
  - reflexivity.
  - reflexivity.
  - reflexivity.
  - reflexivity.
  - vm_compute. by eexists.
  - intros p2 [= <-]. split; [vm_compute; by eexists | done].
  - intros u [= <-]. vm_compute. by eexists.
  - exists st'. split; [exact H|].
    split; [exact (Hw alice eq_refl)|].
    split; [apply Ho; discriminate|].
    split; [exact Hl1|].
    split; [exact (Hl2 bob eq_refl)|].
    split; [exact Hu1|].
    split; [exact (Hu2 bob eq_refl)|exact Hg].
Defined.

(** ** Session constructors *)

Lemma get_user_balance_write_game k g st u :
  get_user_balance (write_game k g st) u = get_user_balance st u.
Proof. reflexivity. Qed.

(** A successful accept: the reply, the registered session with empty
    buffers, both pointers, the removed challenge and both debits. *)
Lemma accept_started v chat_id user_id game_id new_mid st c :
  pending_challenges st !! game_id = Some c →
  c_challenged c = user_id →
  user_games st !! (chat_id, c_initiator c) = None →
  user_games st !! (chat_id, user_id) = None →
  ∃ st',
    accept v chat_id user_id game_id new_mid st = (MatchStarted, st')
    ∧ games st' !! (chat_id, c_initiator c, Some user_id)
      = Some (with_message_id (Some new_mid)
                (new_game (c_initiator c) (Some user_id) (c_mode c)
                          (c_points_to_win c) (c_bet c)))
    ∧ user_games st' !! (chat_id, c_initiator c)
      = Some (chat_id, c_initiator c, Some user_id)
    ∧ user_games st' !! (chat_id, user_id)
      = Some (chat_id, c_initiator c, Some user_id)
    ∧ pending_challenges st' !! game_id = None
    ∧ last_games st' = last_games st
    ∧ balances st'
      = balances
          (update_user_balance user_id
             (get_user_balance
                (update_user_balance (c_initiator c)
                   (get_user_balance st (c_initiator c) - c_bet c)%Q st) user_id
              - c_bet c)%Q
             (update_user_balance (c_initiator c)
                (get_user_balance st (c_initiator c) - c_bet c)%Q st)).
Proof.
  intros Hc Hch Hi Hu. unfold accept. rewrite Hc, Hch, Z.eqb_refl, Hi, Hu. simpl.
  set (k := (chat_id, c_initiator c, Some user_id)).
  set (g := new_game (c_initiator c) (Some user_id) (c_mode c)
                     (c_points_to_win c) (c_bet c)).
  set (st2 := set_user_games _ _).
  set (st3 := update_user_balance (c_initiator c) _ st2).
  set (st4 := update_user_balance user_id _ st3).
  set (st6 := set_pending_challenges _ _).
  assert (games st6 !! k = Some (with_message_id (Some new_mid) g)) as Hg.
  { simpl. by rewrite lookup_insert_eq. }
  assert (user_games st6 = user_games st2) as Hug.
  { simpl. unfold st4, st3.
    by rewrite !update_user_balance_user_games. }
  assert (pending_challenges st6 !! game_id = None) as Hp.
  { simpl. by rewrite lookup_delete_eq. }
  assert (last_games st6 = last_games st) as Hl.
  { simpl. unfold st4, st3. by rewrite !update_user_balance_last_games. }
  assert (balances st6 = balances st4) as Hb by done.
  assert (user_games st2 !! (chat_id, c_initiator c) = Some k) as Hk1.
  { simpl. destruct (decide (user_id = c_initiator c)) as [->|Hne].
    - by rewrite lookup_insert_eq.
    - rewrite lookup_insert_ne by congruence. by rewrite lookup_insert_eq. }
  assert (user_games st2 !! (chat_id, user_id) = Some k) as Hk2.
  { simpl. by rewrite lookup_insert_eq. }
  assert (balances st4
          = balances
              (update_user_balance user_id
                 (get_user_balance
                    (update_user_balance (c_initiator c)
                       (get_user_balance st (c_initiator c) - c_bet c)%Q st) user_id
                  - c_bet c)%Q
                 (update_user_balance (c_initiator c)
                    (get_user_balance st (c_initiator c) - c_bet c)%Q st))) as Hb4.
  { unfold st4, st3.
    assert (balances
              (update_user_balance (c_initiator c)
                 (get_user_balance st2 (c_initiator c) - c_bet c)%Q st2)
            = balances
                (update_user_balance (c_initiator c)
                   (get_user_balance st (c_initiator c) - c_bet c)%Q st)) as Hb3
      by (by apply balances_update_ext).
    apply balances_update_ext; [done|].
    by rewrite (get_user_balance_ext _ _ _ Hb3). }
  assert (user_games st4 = user_games st2) as Hug4 by done.
  eexists. split; [reflexivity|].
  destruct (get_setup v (udata_of st6 user_id)); simpl;
    rewrite ?Hg, ?Hp, ?Hug4; repeat split; done.
Qed.

(** The two debits of a successful accept, read as balances. *)
Lemma accept_debits v chat_id user_id game_id new_mid st c :
  pending_challenges st !! game_id = Some c →
  c_challenged c = user_id →
  user_games st !! (chat_id, c_initiator c) = None →
  user_games st !! (chat_id, user_id) = None →
  is_Some (balances st !! c_initiator c) →
  is_Some (balances st !! user_id) →
  c_initiator c ≠ user_id →
  let st' := (accept v chat_id user_id game_id new_mid st).2 in
  get_user_balance st' (c_initiator c)
  = (get_user_balance st (c_initiator c) - c_bet c)%Q
  ∧ get_user_balance st' user_id = (get_user_balance st user_id - c_bet c)%Q
  ∧ (∀ u, u ≠ c_initiator c → u ≠ user_id →
          get_user_balance st' u = get_user_balance st u).
Proof.
  intros Hc Hch Hi Hu Hri Hru Hne st'.
  destruct (accept_started v chat_id user_id game_id new_mid st c)
    as (st1 & Hacc & _ & _ & _ & _ & _ & Hb); try done.
  unfold st'. rewrite Hacc. simpl.
  repeat split.
  - rewrite (get_user_balance_ext _ _ _ Hb).
    rewrite get_update_ne by congruence. by rewrite get_update_eq.
  - rewrite (get_user_balance_ext _ _ _ Hb).
    rewrite get_update_eq by (by apply update_keeps_rows).
    by rewrite get_update_ne.
  - intros u H1 H2. rewrite (get_user_balance_ext _ _ _ Hb).
    rewrite get_update_ne by congruence. by rewrite get_update_ne by congruence.
Qed.

(** A successful [start_game_against_bot]: the reply, the registered session
    with empty buffers, the pointer, the single debit; the summaries are not
    touched. *)
Lemma start_game_started v chat_id user_id new_mid st su m p :
  user_games st !! (chat_id, user_id) = None →
  get_setup v (udata_of st user_id) = Some su →
  get_mode v (udata_of st user_id) = Some m →
  get_points v (udata_of st user_id) = Some p →
  ∃ st',
    start_game_against_bot v chat_id user_id new_mid st = (MatchStarted, st')
    ∧ games st' !! (chat_id, user_id, None)
      = Some (with_message_id (Some new_mid) (new_game user_id None m p (su_bet su)))
    ∧ user_games st' !! (chat_id, user_id) = Some (chat_id, user_id, None)
    ∧ last_games st' = last_games st
    ∧ pending_challenges st' = pending_challenges st
    ∧ balances st'
      = balances (update_user_balance user_id
                    (get_user_balance st user_id - su_bet su)%Q st).
Proof.
  intros Hu Hs Hm Hp. unfold start_game_against_bot. rewrite Hu, Hs, Hm, Hp.
  eexists. split; [reflexivity|]. simpl.
  rewrite update_user_balance_user_games, update_user_balance_last_games,
    update_user_balance_pending. simpl.
  rewrite !lookup_insert_eq. repeat split; try done.
  unfold update_user_balance. simpl. by destruct (balances st !! user_id).
Qed.

Lemma start_game_debit v chat_id user_id new_mid st su m p :
  user_games st !! (chat_id, user_id) = None →
  get_setup v (udata_of st user_id) = Some su →
  get_mode v (udata_of st user_id) = Some m →
  get_points v (udata_of st user_id) = Some p →
  is_Some (balances st !! user_id) →
  let st' := (start_game_against_bot v chat_id user_id new_mid st).2 in
  get_user_balance st' user_id = (get_user_balance st user_id - su_bet su)%Q
  ∧ (∀ u, u ≠ user_id → get_user_balance st' u = get_user_balance st u).
Proof.
  intros Hu Hs Hm Hp Hr st'.
  destruct (start_game_started v chat_id user_id new_mid st su m p)
    as (st1 & Hst & _ & _ & _ & _ & Hb); try done.
  unfold st'. rewrite Hst. simpl. split.
  - rewrite (get_user_balance_ext _ _ _ Hb). by rewrite get_update_eq.
  - intros u Hne. rewrite (get_user_balance_ext _ _ _ Hb).
    by rewrite get_update_ne by congruence.
Qed.

(** C10. Accepting a pending challenge debits the full wager from both
    participants as soon as the challenge exists, the responder is the
    challenged user and neither has a registered session: no balance is
    compared with the wager, so a participant whose balance is below the
    wager ends with a negative balance. *)
Theorem accept_debits_without_balance_check (v : variant)
    (chat_id user_id game_id new_mid : Z) (st : state) (c : challenge) :
  pending_challenges st !! game_id = Some c →
  c_challenged c = user_id →
  user_games st !! (chat_id, c_initiator c) = None →
  user_games st !! (chat_id, user_id) = None →
  is_Some (balances st !! c_initiator c) →
  is_Some (balances st !! user_id) →
  c_initiator c ≠ user_id →
  let r := accept v chat_id user_id game_id new_mid st in
  r.1 = MatchStarted
  ∧ get_user_balance r.2 (c_initiator c)
    = (get_user_balance st (c_initiator c) - c_bet c)%Q
  ∧ get_user_balance r.2 user_id = (get_user_balance st user_id - c_bet c)%Q
  ∧ ((get_user_balance st (c_initiator c) < c_bet c)%Q →
     (get_user_balance r.2 (c_initiator c) < 0)%Q)
  ∧ ((get_user_balance st user_id < c_bet c)%Q →
     (get_user_balance r.2 user_id < 0)%Q).
Proof.
  intros Hc Hch Hi Hu Hri Hru Hne r.
  destruct (accept_debits v chat_id user_id game_id new_mid st c)
    as (Hb1 & Hb2 & _); try done.
  destruct (accept_started v chat_id user_id game_id new_mid st c)
    as (st' & Hacc & _); try done.
  fold r in Hb1, Hb2. unfold r at 1. rewrite Hacc. simpl.
  rewrite Hb1, Hb2. repeat split; try done; intros; lra.
Qed.

Lemma accept_debits_without_balance_check_witness :
  (accept Darts chat bob 1 50 underfunded).1 = MatchStarted
  ∧ (0 <= get_user_balance underfunded alice)%Q
  ∧ (0 <= get_user_balance underfunded bob)%Q
  ∧ (get_user_balance (accept Darts chat bob 1 50 underfunded).2 alice < 0)%Q
  ∧ (get_user_balance (accept Darts chat bob 1 50 underfunded).2 bob < 0)%Q.
Proof.
  destruct (accept_debits_without_balance_check Darts chat bob 1 50 underfunded
              (Challenge alice bob "normal" 1 5%Q))
    as (H1 & _ & _ & H4 & H5).
  - reflexivity.
  - reflexivity.
  - reflexivity.
  - reflexivity.
  - vm_compute. by eexists.
  - vm_compute. by eexists.
  - vm_compute. discriminate.
  - split; [exact H1|].
    split; [vm_compute; discriminate|].
    split; [vm_compute; discriminate|].
    split; [apply H4; reflexivity | apply H5; reflexivity].
Defined.

(** ** Turns that do not end the match *)

Lemma settle_reply g chat_id k st :
  (∃ w, (settle g chat_id k st).1 = GameOver w) ∨ (settle g chat_id k st).1 = Raised.
Proof.
  unfold settle.
  repeat match goal with
         | |- context [match ?x with _ => _ end] =>
             lazymatch x with
             | del_user_game _ _ => destruct x
             | del_game _ _ => destruct x
             | player2 _ => destruct x
             end
         end; simpl; eauto.
Qed.

(** An evaluation that neither ends the match nor raises stores the game
    under its key and changes nothing else. *)
Lemma evaluate_round_open v g chat_id k new_mid st :
  let r := evaluate_round v g chat_id k new_mid st in
  (∀ w, r.1 ≠ GameOver w) → r.1 ≠ Raised →
  ∃ g', r.2 = write_game k g' st.
Proof.
  intros r. unfold r, evaluate_round.
  destruct (_ || _); [intros; by eexists|].
  destruct (computed_scores _ _ _ _) as [[s1 s2]|]; [|intros; by eexists].
  destruct (target_reached _).
  - intros H1 H2.
    destruct (settle_reply
                match award v s1 s2 with Some s => add_point s g | None => g end
                chat_id k
                (write_game k
                   match award v s1 s2 with Some s => add_point s g | None => g end st))
      as [[w Hw]|Hr]; [by destruct (H1 w) | done].
  - intros; by eexists.
Qed.

Lemma dart_throw_open chat_id user_id qmid turn_round d bd new_mid st :
  let r := dart_throw chat_id user_id qmid turn_round d bd new_mid st in
  (∀ w, r.1 ≠ GameOver w) → r.1 ≠ Raised →
  r.2 = st ∨ ∃ k g', r.2 = write_game k g' st.
Proof.
  intros r. unfold r, dart_throw.
  destruct (user_games st !! _) as [k|]; [|by left].
  destruct (games st !! k) as [g|]; [|by left].
  destruct (negb _); [by left|].
  destruct (target_reached g); [by left|].
  destruct (player_key g user_id) as [pk|]; [|by left].
  destruct (negb _); [by left|].
  destruct (negb _); [by left|].
  destruct d as [x|]; [|by left].
  destruct (both_complete _).
  { intros H1 H2. right. exists k. by apply (evaluate_round_open Darts). }
  destruct (_ <? _); [right; by do 2 eexists|].
  destruct (player_of _ _); [right; by do 2 eexists|].
  destruct (bot_throws _ _); [|right; by do 2 eexists].
  intros H1 H2. right. exists k. by apply (evaluate_round_open Darts).
Qed.

Lemma football_take_shot_open chat_id user_id qmid turn_round d bd new_mid st :
  let r := football_take_shot chat_id user_id qmid turn_round d bd new_mid st in
  (∀ w, r.1 ≠ GameOver w) → r.1 ≠ Raised →
  r.2 = st ∨ ∃ k g', r.2 = write_game k g' st.
Proof.
  intros r. unfold r, football_take_shot.
  destruct (user_games st !! _) as [k|]; [|by left].
  destruct (games st !! k) as [g|]; [|by left].
  destruct (negb _); [by left|].
  destruct (target_reached g); [by left|].
  destruct (player_key g user_id) as [pk|]; [|by left].
  destruct (negb _); [by left|].
  destruct (negb _); [by left|].
  destruct d as [x|]; [|by left].
  destruct (_ <? _); [right; by do 2 eexists|].
  match goal with
  | |- context [match ?x with Some g3 => _ | None => _ end] => destruct x as [g3|]
  end; [|right; by do 2 eexists].
  destruct (both_complete g3); [|right; by do 2 eexists].
  intros H1 H2. right. exists k. by apply (evaluate_round_open Football).
Qed.

(** ** Escrow at the start of a bot match *)

Lemma coin_bot_keeps_balances chat_id user_id qmid r new_mid st :
  balances (coin_button_handler chat_id user_id qmid coin_bot r new_mid st).2
  = balances st.
Proof.
  unfold coin_button_handler.
  destruct (coin_setup_rejected _ _ _) as [[|]|]; try done.
  destruct (coin_setup (udata_of st user_id)) as [su|]; [|done].
  by destruct (cs_choice su).
Qed.

(** What the flip does to the balance of the player of a registered coin
    game: the stake is settled here, not when the match starts. *)
Lemma coin_flip_settles chat_id user_id qmid r new_mid st game :
  coin_game_of st (chat_id, user_id) = Some game →
  qmid = cg_match_message_id game →
  is_Some (balances st !! user_id) →
  let res := coin_button_handler chat_id user_id qmid coin_flip r new_mid st in
  res.1 = CoinLanded (coin_result (cg_choice game) r)
  ∧ get_user_balance res.2 user_id
    = (if Qgt_bool PLAYER_WIN_PROB r
       then get_user_balance st user_id + cg_bet game * multiplier - cg_bet game
       else get_user_balance st user_id - cg_bet game)%Q
  ∧ coin_game_of res.2 (chat_id, user_id) = None.
Proof.
  intros Hg -> Hr res. unfold res, coin_button_handler.
  destruct (coin_game_of_Some _ _ _ Hg) as (registered & Hall & Hreg).
  rewrite Hall, Hreg, Z.eqb_refl. simpl.
  split; [done|]. unfold coin_result, coin_game_of.
  destruct (Qgt_bool PLAYER_WIN_PROB r).
  - assert (side_eqb (cg_choice game) (cg_choice game) = true) as ->
        by (by destruct (cg_choice game)).
    simpl. rewrite update_user_balance_coin_games, Hall.
    split; [|simpl; by rewrite lookup_delete_eq].
    unfold get_user_balance at 1. simpl.
    change (default 0%Q (balances ?s !! ?u)) with (get_user_balance s u).
    by rewrite get_update_eq.
  - assert (side_eqb (cg_choice game) (opposite (cg_choice game)) = false) as ->
        by (by destruct (cg_choice game)).
    simpl. rewrite update_user_balance_coin_games, Hall.
    split; [|simpl; by rewrite lookup_delete_eq].
    unfold get_user_balance at 1. simpl.
    change (default 0%Q (balances ?s !! ?u)) with (get_user_balance s u).
    by rewrite get_update_eq.
Qed.

(** C5 (as the code has it).  Starting a darts or football match against the
    bot debits exactly the wager of the setup from the initiator in that one
    step, whatever the balance is, with both outcome buffers still empty, and
    does not write the summaries; a later turn of any darts or football
    session that neither ends a match nor raises changes no balance and no
    summary.  Starting a coin match debits nothing: the coin stake is settled
    by the flip. *)
Theorem bot_match_escrow (v : variant) (chat_id user_id new_mid : Z) (st : state)
    (su : setup) (m : string) (p : Z) :
  user_games st !! (chat_id, user_id) = None →
  get_setup v (udata_of st user_id) = Some su →
  get_mode v (udata_of st user_id) = Some m →
  get_points v (udata_of st user_id) = Some p →
  is_Some (balances st !! user_id) →
  let r := start_game_against_bot v chat_id user_id new_mid st in
  r.1 = MatchStarted
  ∧ get_user_balance r.2 user_id = (get_user_balance st user_id - su_bet su)%Q
  ∧ (∀ u, u ≠ user_id → get_user_balance r.2 u = get_user_balance st u)
  ∧ last_games r.2 = last_games st
  ∧ games r.2 !! (chat_id, user_id, None)
    = Some (Game user_id None m p (su_bet su) (PerSlot 0 0) Player1 (PerSlot [] [])
                 (if (m =? "double")%string then 2 else 1) (PerSlot 0 0) 1
                 (Some new_mid))
  ∧ (∀ c u qmid n d bd mid s,
       let t := dart_throw c u qmid n d bd mid s in
       (∀ w, t.1 ≠ GameOver w) → t.1 ≠ Raised →
       balances t.2 = balances s ∧ last_games t.2 = last_games s)
  ∧ (∀ c u qmid n d bd mid s,
       let t := football_take_shot c u qmid n d bd mid s in
       (∀ w, t.1 ≠ GameOver w) → t.1 ≠ Raised →
       balances t.2 = balances s ∧ last_games t.2 = last_games s)
  ∧ (∀ c u qmid x mid s,
       balances (coin_button_handler c u qmid coin_bot x mid s).2 = balances s).
Proof.
  intros Hu Hs Hm Hp Hr r.
  destruct (start_game_debit v chat_id user_id new_mid st su m p) as [Hd Ho];
    try done.
  destruct (start_game_started v chat_id user_id new_mid st su m p)
    as (st' & Hst & Hg & _ & Hl & _); try done.
  fold r in Hd, Ho. unfold r in *. rewrite Hst in *. simpl in *.
  repeat (split; [done|]).
  split; [|split].
  - intros c u qmid n d bd mid s H1 H2.
    destruct (dart_throw_open c u qmid n d bd mid s H1 H2) as [->|(k & g' & ->)];
      done.
  - intros c u qmid n d bd mid s H1 H2.
    destruct (football_take_shot_open c u qmid n d bd mid s H1 H2)
      as [->|(k & g' & ->)]; done.
  - intros c u qmid x mid s. exact (coin_bot_keeps_balances c u qmid x mid s).
Qed.

Lemma bot_match_escrow_witness :
  (start_game_against_bot Darts chat alice 50 darts_ready).1 = MatchStarted
  ∧ get_user_balance (start_game_against_bot Darts chat alice 50 darts_ready).2 alice
    = (get_user_balance darts_ready alice - 5)%Q
  ∧ last_games (start_game_against_bot Darts chat alice 50 darts_ready).2
    = last_games darts_ready.
Proof.
  destruct (bot_match_escrow Darts chat alice 50 darts_ready
              (Setup alice 5%Q (Some 30)) "normal" 1)
    as (H1 & H2 & _ & H4 & _).
  - reflexivity.
  - reflexivity.
  - reflexivity.
  - reflexivity.
  - vm_compute. by eexists.
  - split; [exact H1|]. split; [exact H2|exact H4].
Defined.

(** The claim fails for the coin game: the match against the bot starts and
    the wager, which is positive and within the balance, is not debited. *)
Lemma coin_match_starts_without_debit :
  let r := coin_button_handler chat alice 60 coin_bot 0%Q 61 coin_ready in
  (0 < 5 <= get_user_balance coin_ready alice)%Q
  ∧ r.1 = MatchStarted
  ∧ coin_game_of r.2 (chat, alice) = Some (CoinGame 5%Q heads 60)
  ∧ ¬ (get_user_balance r.2 alice == get_user_balance coin_ready alice - 5)%Q.
Proof.
  vm_compute. repeat split; try discriminate; reflexivity.
Qed.

(** ** The account of a session *)

(** C1 (as the code has it).  When the house wins, nothing is credited and
    the escrow is the initiator's wager, which the house keeps: the equation
    holds.  When a human wins, the winner gets wager*1.92 beyond the own
    returned stake and no other balance changes; what was debited from the
    other slot (the wager of a human loser, nothing for the bot) is below that
    for a positive wager, so the equation fails and the total paid out
    exceeds the escrow. *)
Theorem settlement_account (v : variant) (g : game) (chat_id : Z) (k : game_key)
    (new_mid : Z) (st : state) (s1 s2 : Z) (w : slot) :
  rolls_needed g <= Z.of_nat (length (at1 (rolls g))) →
  rolls_needed g <= Z.of_nat (length (at2 (rolls g))) →
  computed_scores v (mode g) (at1 (rolls g)) (at2 (rolls g)) = Some (s1, s2) →
  award v s1 s2 = Some w →
  get_slot (scores g) w + 1 = points_to_win g →
  get_slot (scores g) (other_slot w) < points_to_win g →
  is_Some (user_games st !! (chat_id, player1 g)) →
  (∀ p2, player2 g = Some p2 →
         is_Some (user_games st !! (chat_id, p2)) ∧ p2 ≠ player1 g) →
  (∀ u, player_of g w = Some u → is_Some (balances st !! u)) →
  ∃ st',
    evaluate_round v g chat_id k new_mid st = (GameOver w, st')
    ∧ match player_of g w with
      | None =>
          (∀ u, get_user_balance st' u = get_user_balance st u)
          ∧ (escrow g == bet g)%Q
          ∧ conserved g w st st'
      | Some u =>
          (get_user_balance st' u - get_user_balance st u - bet g == bet g * 1.92)%Q
          ∧ (∀ u', u' ≠ u → get_user_balance st' u' = get_user_balance st u')
          ∧ ((0 < bet g)%Q →
             (stake g (other_slot w) < bet g * 1.92)%Q
             ∧ (escrow g < bet g * 1.92 + bet g)%Q
             ∧ ¬ conserved g w st st')
      end.
Proof.
  intros H1 H2 Hs Ha Hw Ho Hp1 Hp2 Hreg.
  destruct (evaluate_round_settles v g chat_id k new_mid st s1 s2 w)
    as (st' & Hst & Hc & Hn & _); try done.
  exists st'. split; [done|].
  unfold conserved.
  destruct (player_of g w) as [u|] eqn:Hwin.
  - specialize (Hc u eq_refl).
    split; [rewrite Hc; ring|].
    split; [intros u' Hne; apply Hn; congruence|].
    intros Hpos.
    assert (stake g (other_slot w) = bet g ∨ stake g (other_slot w) = 0%Q) as Hle.
    { unfold stake. destruct (player_of g (other_slot w)); auto. }
    assert (escrow g == bet g + stake g (other_slot w))%Q as He.
    { unfold escrow, stake. destruct w; simpl in *; rewrite ?Hwin; simpl; ring. }
    rewrite He, Hc.
    destruct Hle as [-> | ->]; repeat split; try lra; intros Heq; lra.
  - split; [intros u; by apply Hn|].
    assert (escrow g == bet g)%Q as He.
    { unfold escrow, stake. destruct w; simpl in *; [done|].
      rewrite Hwin. ring. }
    done.
Qed.

Lemma settlement_account_witness :
  ∃ st',
    evaluate_round Darts final_round chat (chat, alice, Some bob) 52 alice_threw
    = (GameOver Player1, st')
    ∧ (get_user_balance st' alice - get_user_balance alice_threw alice - 5 == 5 * 1.92)%Q
    ∧ (escrow final_round < 5 * 1.92 + 5)%Q
    ∧ ¬ conserved final_round Player1 alice_threw st'.
Proof.
  destruct (settlement_account Darts final_round chat (chat, alice, Some bob) 52
              alice_threw 6 2 Player1)
    as (st' & H & Hacc).
  - vm_compute; congruence.
  - vm_compute; congruence.
  - reflexivity.
  - reflexivity.
  - reflexivity.
  - reflexivity.
  - vm_compute. by eexists.
  - intros p2 [= <-]. split; [vm_compute; by eexists | done].
  - intros u [= <-]. vm_compute. by eexists.
  - exists st'. split; [exact H|].
    simpl in Hacc. destruct Hacc as (Hnet & _ & Hpos).
    destruct Hpos as (_ & He & Hnc); [reflexivity|].
    split; [exact Hnet|]. split; [exact He|exact Hnc].
Defined.

(** The claim fails on the concrete match (wager 5, both players start with
    10): the two debits at session start total 10, the winner is credited
    14.6, that is 9.6 beyond the own stake; the loser's stake of 5 does not
    cover it, and the two balances, 20 before the session, total 24.6
    after it. *)
Lemma escrow_not_conserved :
  bob_threw
  = (evaluate_round Darts final_round chat (chat, alice, Some bob) 52 alice_threw).2
  ∧ ((get_user_balance funded alice - get_user_balance started alice)
     + (get_user_balance funded bob - get_user_balance started bob)
     == escrow final_round)%Q
  ∧ (escrow final_round == 10)%Q
  ∧ (get_user_balance bob_threw alice - get_user_balance alice_threw alice - 5 == 9.6)%Q
  ∧ ¬ conserved final_round Player1 alice_threw bob_threw
  ∧ (get_user_balance funded bob - get_user_balance started bob
     < get_user_balance bob_threw alice - get_user_balance alice_threw alice - 5)%Q
  ∧ (get_user_balance funded alice + get_user_balance funded bob == 20)%Q
  ∧ (get_user_balance bob_threw alice + get_user_balance bob_threw bob == 24.6)%Q.
Proof.
  vm_compute. repeat split; try discriminate; reflexivity.
Qed.

(** ** One session per participant *)

Lemma pointers_kept_shrink st st' :
  user_games st' ⊆ user_games st → pointers_kept st st'.
Proof.
  intros Hsub key k Hk.
  destruct (user_games st' !! key) as [k'|] eqn:Hk'; [|by right].
  left. pose proof (lookup_weaken _ _ _ _ Hk' Hsub). congruence.
Qed.

Lemma pointers_kept_grow st st' :
  user_games st ⊆ user_games st' → pointers_kept st st'.
Proof. intros Hsub key k Hk. left. by eapply lookup_weaken. Qed.

Lemma pointers_kept_same st st' :
  user_games st' = user_games st → pointers_kept st st'.
Proof. intros H. apply pointers_kept_shrink. by rewrite H. Qed.

Lemma del_user_game_shrink key st st' :
  del_user_game key st = Some st' → user_games st' ⊆ user_games st.
Proof.
  unfold del_user_game. destruct (user_games st !! key); [|done].
  intros [= <-]. simpl. apply delete_subseteq.
Qed.

Lemma settle_shrink g chat_id k st :
  user_games (settle g chat_id k st).2 ⊆ user_games st.
Proof.
  unfold settle.
  set (st1 := match player_of g _ with Some w => _ | None => st end).
  assert (user_games st1 = user_games st) as H1.
  { unfold st1. destruct (player_of g _); [|done].
    apply update_user_balance_user_games. }
  set (st2 := match player2 g with
              | Some p2 => record_last_game chat_id p2 _ _
              | None => record_last_game chat_id (player1 g) _ st1
              end).
  assert (user_games st2 = user_games st) as H2.
  { unfold st2. by destruct (player2 g). }
  destruct (match player2 g with
            | Some p2 => del_user_game (chat_id, p2) st2
            | None => Some st2
            end) as [st3|] eqn:H3; simpl; [|by rewrite H2].
  assert (user_games st3 ⊆ user_games st) as Hs3.
  { rewrite <- H2. destruct (player2 g).
    - by eapply del_user_game_shrink.
    - by injection H3 as <-. }
  destruct (del_user_game (chat_id, player1 g) st3) as [st4|] eqn:H4; simpl; [|done].
  assert (user_games st4 ⊆ user_games st) as Hs4.
  { etrans; [by eapply del_user_game_shrink|done]. }
  unfold del_game. destruct (games st4 !! k); done.
Qed.

Lemma evaluate_round_shrink v g chat_id k new_mid st :
  user_games (evaluate_round v g chat_id k new_mid st).2 ⊆ user_games st.
Proof.
  unfold evaluate_round.
  destruct (_ || _); [done|].
  destruct (computed_scores _ _ _ _) as [[s1 s2]|]; [|done].
  destruct (target_reached _); [|done].
  etrans; [apply settle_shrink|done].
Qed.

Lemma dart_throw_shrink chat_id user_id qmid n d bd new_mid st :
  user_games (dart_throw chat_id user_id qmid n d bd new_mid st).2 ⊆ user_games st.
Proof.
  unfold dart_throw.
  destruct (user_games st !! _) as [k|]; [|done].
  destruct (games st !! k) as [g|]; [|done].
  destruct (negb _); [done|].
  destruct (target_reached g); [done|].
  destruct (player_key g user_id) as [pk|]; [|done].
  destruct (negb _); [done|].
  destruct (negb _); [done|].
  destruct d as [x|]; [|done].
  destruct (both_complete _); [apply evaluate_round_shrink|].
  destruct (_ <? _); [done|].
  destruct (player_of _ _); [done|].
  destruct (bot_throws _ _); [apply evaluate_round_shrink|done].
Qed.

Lemma football_take_shot_shrink chat_id user_id qmid n d bd new_mid st :
  user_games (football_take_shot chat_id user_id qmid n d bd new_mid st).2
  ⊆ user_games st.
Proof.
  unfold football_take_shot.
  destruct (user_games st !! _) as [k|]; [|done].
  destruct (games st !! k) as [g|]; [|done].
  destruct (negb _); [done|].
  destruct (target_reached g); [done|].
  destruct (player_key g user_id) as [pk|]; [|done].
  destruct (negb _); [done|].
  destruct (negb _); [done|].
  destruct d as [x|]; [|done].
  destruct (_ <? _); [done|].
  match goal with
  | |- context [match ?x with Some g3 => _ | None => _ end] => destruct x as [g3|]
  end; [|done].
  destruct (both_complete g3); [apply evaluate_round_shrink|done].
Qed.

Lemma start_game_grow v chat_id user_id new_mid st :
  user_games st ⊆ user_games (start_game_against_bot v chat_id user_id new_mid st).2.
Proof.
  unfold start_game_against_bot.
  destruct (user_games st !! (chat_id, user_id)) eqn:Hu; [done|].
  destruct (get_setup v (udata_of st user_id)), (get_mode v (udata_of st user_id)),
    (get_points v (udata_of st user_id)); try done.
  simpl. rewrite update_user_balance_user_games. simpl.
  by apply insert_subseteq.
Qed.

Lemma accept_grow v chat_id user_id game_id new_mid st :
  user_games st ⊆ user_games (accept v chat_id user_id game_id new_mid st).2.
Proof.
  unfold accept.
  destruct (pending_challenges st !! game_id) as [c|]; [|done].
  destruct (negb _); [done|].
  destruct (user_games st !! (chat_id, c_initiator c)) eqn:Hi; [done|].
  destruct (user_games st !! (chat_id, user_id)) eqn:Hu; [done|].
  simpl.
  match goal with
  | |- context [match ?x with Some _ => _ | None => _ end] => destruct x
  end; simpl; rewrite !update_user_balance_user_games; simpl.
  all: destruct (decide (user_id = c_initiator c)) as [Heq|Hne].
  all: try (rewrite Heq, insert_insert_eq; by apply insert_subseteq).
  all: etrans; [apply (insert_subseteq _ (chat_id, c_initiator c)); done|].
  all: apply insert_subseteq; rewrite lookup_insert_ne by congruence; done.
Qed.

Lemma play_again_kept v chat_id user_id new_mid st :
  pointers_kept st (play_again v chat_id user_id new_mid st).2.
Proof.
  unfold play_again.
  destruct (last_game_of st chat_id user_id) as [last|];
    [|by apply pointers_kept_same].
  destruct (lg_opponent last) as [opponent_id|].
  - destruct (user_games st !! (chat_id, opponent_id)); by apply pointers_kept_same.
  - apply pointers_kept_grow.
    match goal with
    | |- _ ⊆ user_games (start_game_against_bot v chat_id user_id new_mid ?s).2 =>
        apply (start_game_grow v chat_id user_id new_mid s)
    end.
Qed.

Lemma double_kept v chat_id user_id new_mid st :
  pointers_kept st (double v chat_id user_id new_mid st).2.
Proof.
  unfold double.
  destruct (last_game_of st chat_id user_id) as [last|];
    [|by apply pointers_kept_same].
  destruct (lg_opponent last) as [opponent_id|].
  - destruct (_ || _); [by apply pointers_kept_same|].
    destruct (user_games st !! (chat_id, opponent_id)); by apply pointers_kept_same.
  - destruct (Qgt_bool _ _); [by apply pointers_kept_same|].
    apply pointers_kept_grow.
    match goal with
    | |- _ ⊆ user_games (start_game_against_bot v chat_id user_id new_mid ?s).2 =>
        apply (start_game_grow v chat_id user_id new_mid s)
    end.
Qed.

Lemma decline_same game_id st : (decline game_id st).2 = st ∨
  (decline game_id st).2
  = set_pending_challenges (delete game_id (pending_challenges st)) st.
Proof. unfold decline. destruct (pending_challenges st !! game_id); auto. Qed.

Lemma button_handler_kept v chat_id user_id qmid data t st :
  pointers_kept st (button_handler v chat_id user_id qmid data t st).2.
Proof.
  unfold button_handler.
  destruct (get_setup v (udata_of st user_id)) as [su|].
  - destruct (negb _); [by apply pointers_kept_same|].
    destruct (negb _); [by apply pointers_kept_same|].
    destruct data; try (by apply pointers_kept_same).
    + by destruct (get_mode v _); apply pointers_kept_same.
    + destruct (get_mode v _) as [m|]; [|by apply pointers_kept_same].
      destruct (get_points v _); [|by apply pointers_kept_same].
      by destruct (known_mode m); apply pointers_kept_same.
    + apply pointers_kept_grow, start_game_grow.
  - destruct data; try (by apply pointers_kept_same).
    + destruct v; apply pointers_kept_shrink;
        [apply dart_throw_shrink | apply football_take_shot_shrink].
    + apply pointers_kept_grow, accept_grow.
    + by destruct (decline_same game_id st) as [-> | ->]; apply pointers_kept_same.
    + apply play_again_kept.
    + apply double_kept.
Qed.

Lemma registered_button_handler_kept v chat_id user_id qmid data t st :
  pointers_kept st (registered_button_handler v chat_id user_id qmid data t st).2.
Proof.
  unfold registered_button_handler, with_game_ownership_check.
  assert (pointers_kept st
            match dice_setup (udata_of st user_id) with
            | Some su =>
                if opt_eqb (su_message_id su) (Some qmid)
                then button_handler v chat_id user_id qmid data t st
                else (NoGameOrSetup, st)
            | None => (NoGameOrSetup, st)
            end.2) as Hsetup.
  { destruct (dice_setup _) as [su|]; [|by apply pointers_kept_same].
    destruct (opt_eqb _ _); [apply button_handler_kept|by apply pointers_kept_same]. }
  destruct (user_games st !! (chat_id, user_id)) as [k|]; [|done].
  destruct (games st !! k) as [g|]; [|done].
  apply (button_handler_kept v chat_id user_id qmid data t
           (write_game k (with_message_id (Some qmid) g) st)).
Qed.

Lemma text_handler_challenge_only v chat_id user_id at_sign result st :
  let r := text_handler v chat_id user_id at_sign result st in
  games r.2 = games st ∧ user_games r.2 = user_games st ∧ balances r.2 = balances st.
Proof.
  unfold text_handler.
  destruct (get_setup v _) as [su|]; [|done].
  destruct (_ && _); [|done].
  destruct (negb at_sign); [done|].
  destruct result as [x|]; [|done].
  destruct (x =? user_id); [done|].
  destruct (Qgt_bool _ _); [done|].
  destruct (user_games st !! (chat_id, x)); [done|].
  destruct (get_mode v _); [|done].
  by destruct (get_points v _).
Qed.

Lemma game_command_busy v chat_id user_id amount new_mid st k :
  user_games st !! (chat_id, user_id) = Some k →
  (game_command v chat_id user_id amount new_mid st).2 = st
  ∧ (game_command v chat_id user_id amount new_mid st).1 ≠ SetupPrompt.
Proof.
  intros Hk. unfold game_command. rewrite Hk.
  destruct (negb _); [done|]. destruct (Qle_bool _ _); [done|].
  by destruct (Qgt_bool _ _).
Qed.

Lemma text_handler_busy_opponent v chat_id user_id at_sign opponent st k :
  user_games st !! (chat_id, opponent) = Some k →
  (text_handler v chat_id user_id at_sign (Some opponent) st).2 = st
  ∧ ∀ id, (text_handler v chat_id user_id at_sign (Some opponent) st).1
          ≠ ChallengeSent id.
Proof.
  intros Hk. unfold text_handler. rewrite Hk.
  destruct (get_setup v _) as [su|]; [|done].
  destruct (_ && _); [|done].
  destruct (negb at_sign); [done|].
  destruct (opponent =? user_id); [done|].
  by destruct (Qgt_bool _ _).
Qed.

Lemma accept_busy v chat_id responder game_id new_mid st c u k :
  user_games st !! (chat_id, u) = Some k →
  pending_challenges st !! game_id = Some c →
  c_initiator c = u ∨ responder = u →
  (accept v chat_id responder game_id new_mid st).2 = st
  ∧ (c_challenged c = responder →
     (accept v chat_id responder game_id new_mid st).1 = OneOfYouInGame).
Proof.
  intros Hk Hc Hu. unfold accept. rewrite Hc.
  destruct (responder =? c_challenged c) eqn:Heq; simpl.
  - destruct Hu as [-> | ->]; rewrite Hk.
    + done.
    + by destruct (user_games st !! (chat_id, c_initiator c)).
  - split; [done|]. intros <-. lia.
Qed.

Lemma rematch_busy_opponent v chat_id user_id new_mid st last opponent k :
  user_games st !! (chat_id, opponent) = Some k →
  last_game_of st chat_id user_id = Some last →
  lg_opponent last = Some opponent →
  play_again v chat_id user_id new_mid st = (OpponentInGame, st)
  ∧ (double v chat_id user_id new_mid st).2 = st
  ∧ ∀ id, (double v chat_id user_id new_mid st).1 ≠ ChallengeSent id.
Proof.
  intros Hk Hl Ho. unfold play_again, double. rewrite Hl, Ho, Hk.
  split; [done|]. by destruct (_ || _).
Qed.

(** C2 (as the code has it).  In the registry shared by darts and football
    a participant with a registered session gets no second one: beginning a
    bot match is rejected with "You are already in a game!", a new
    negotiation is refused, a proposal, rematch or doubled rematch towards
    that participant stores no challenge, an accept that involves the
    participant is rejected with "One of you is already in a game!", and
    whatever button or text the handlers process, the participant's pointer
    keeps its session key or is removed. *)
Theorem busy_participant_keeps_one_session (v : variant) (chat_id u : Z)
    (k : game_key) (st : state) :
  user_games st !! (chat_id, u) = Some k →
  (∀ mid, start_game_against_bot v chat_id u mid st = (AlreadyInGame, st))
  ∧ (∀ amount mid,
       (game_command v chat_id u amount mid st).2 = st
       ∧ (game_command v chat_id u amount mid st).1 ≠ SetupPrompt)
  ∧ (∀ i at_sign,
       (text_handler v chat_id i at_sign (Some u) st).2 = st
       ∧ ∀ id, (text_handler v chat_id i at_sign (Some u) st).1 ≠ ChallengeSent id)
  ∧ (∀ id responder mid c,
       pending_challenges st !! id = Some c →
       c_initiator c = u ∨ responder = u →
       (accept v chat_id responder id mid st).2 = st
       ∧ (c_challenged c = responder →
          (accept v chat_id responder id mid st).1 = OneOfYouInGame))
  ∧ (∀ i mid last,
       last_game_of st chat_id i = Some last →
       lg_opponent last = Some u →
       play_again v chat_id i mid st = (OpponentInGame, st)
       ∧ (double v chat_id i mid st).2 = st
       ∧ ∀ id, (double v chat_id i mid st).1 ≠ ChallengeSent id)
  ∧ (∀ c caller qmid data t,
       user_games (registered_button_handler v c caller qmid data t st).2
         !! (chat_id, u) = Some k
       ∨ user_games (registered_button_handler v c caller qmid data t st).2
           !! (chat_id, u) = None)
  ∧ (∀ c caller at_sign result,
       user_games (text_handler v c caller at_sign result st).2 = user_games st).
Proof.
  intros Hk.
  split. { intros mid. unfold start_game_against_bot. by rewrite Hk. }
  split. { intros amount mid. by eapply game_command_busy. }
  split. { intros i at_sign. by eapply text_handler_busy_opponent. }
  split. { intros id responder mid c Hc Hu. by eapply accept_busy. }
  split. { intros i mid last Hl Ho. by eapply rematch_busy_opponent. }
  split.
  { intros c caller qmid data t.
    by apply (registered_button_handler_kept v c caller qmid data t st). }
  intros c caller at_sign result.
  by destruct (text_handler_challenge_only v c caller at_sign result st) as (_ & H & _).
Qed.

Lemma busy_participant_keeps_one_session_witness :
  start_game_against_bot Darts chat alice 70 started = (AlreadyInGame, started)
  ∧ (text_handler Darts chat bob true (Some alice) started).2 = started.
Proof.
  destruct (busy_participant_keeps_one_session Darts chat alice
              (chat, alice, Some bob) started)
    as (H1 & _ & H3 & _).
  - reflexivity.
  - split; [exact (H1 70)|]. exact (proj1 (H3 bob true)).
Defined.

(** The claim fails across game variants: player 1, who has a registered
    darts session, sets up and starts a coin match in the same chat through
    the registered handlers; both sessions are registered at the end. *)
Lemma busy_player_starts_coin_match :
  let st1 := (coin_command chat alice 2%Q 60 started).2 in
  let st2 := (registered_coin_handler chat alice 60 (coin_pick heads) 0%Q 61 st1).2 in
  let r := registered_coin_handler chat alice 60 coin_bot 0%Q 61 st2 in
  user_games started !! (chat, alice) = Some (chat, alice, Some bob)
  ∧ (coin_command chat alice 2%Q 60 started).1 = SetupPrompt
  ∧ r.1 = MatchStarted
  ∧ user_games r.2 !! (chat, alice) = Some (chat, alice, Some bob)
  ∧ is_Some (games r.2 !! (chat, alice, Some bob))
  ∧ coin_game_of r.2 (chat, alice) = Some (CoinGame 2%Q heads 60).
Proof.
  vm_compute. repeat split; try reflexivity. by eexists.
Qed.

(** ** Stale anchors *)

(** The handler alone rejects a throw from a message that is not the
    session's current prompt, and mutates nothing. *)
Lemma dart_throw_stale_rejected chat_id user_id qmid n d bd new_mid st k g :
  user_games st !! (chat_id, user_id) = Some k →
  games st !! k = Some g →
  message_id g ≠ Some qmid →
  dart_throw chat_id user_id qmid n d bd new_mid st = (NotCurrentMessage, st).
Proof.
  intros Hk Hg Hm. unfold dart_throw. rewrite Hk, Hg.
  assert (opt_eqb (Some qmid) (message_id g) = false) as ->; [|done].
  destruct (message_id g) as [m|]; [|done]. simpl.
  apply Z.eqb_neq. congruence.
Qed.

(** Under the registered wrapper the anchor of the session is first
    overwritten with the incoming message id, so the handler's anchor test
    always passes. *)
Lemma registered_throw_never_stale chat_id user_id qmid n t st k g :
  user_games st !! (chat_id, user_id) = Some k →
  games st !! k = Some g →
  get_setup Darts (udata_of st user_id) = None →
  registered_button_handler Darts chat_id user_id qmid (cb_throw n) t st
  = dart_throw chat_id user_id qmid n (t_die t) (t_bot_dice t) (t_new_mid t)
      (write_game k (with_message_id (Some qmid) g) st)
  ∧ (registered_button_handler Darts chat_id user_id qmid (cb_throw n) t st).1
    ≠ NotCurrentMessage.
Proof.
  intros Hk Hg Hs.
  assert (registered_button_handler Darts chat_id user_id qmid (cb_throw n) t st
          = dart_throw chat_id user_id qmid n (t_die t) (t_bot_dice t) (t_new_mid t)
              (write_game k (with_message_id (Some qmid) g) st)) as Heq.
  { unfold registered_button_handler, with_game_ownership_check.
    rewrite Hk, Hg. unfold button_handler.
    change (udata_of (write_game k (with_message_id (Some qmid) g) st) user_id)
      with (udata_of st user_id).
    by rewrite Hs. }
  split; [done|]. rewrite Heq. unfold dart_throw. simpl.
  rewrite Hk, lookup_insert_eq. simpl. rewrite Z.eqb_refl. simpl.
  destruct (target_reached _); [done|].
  destruct (player_key _ user_id) as [pk|]; [|done].
  destruct (negb _); [done|].
  destruct (negb _); [done|].
  destruct (t_die t) as [x|]; [|done].
  destruct (both_complete _).
  { unfold evaluate_round.
    destruct (_ || _); [done|].
    destruct (computed_scores _ _ _ _) as [[s1 s2]|]; [|done].
    destruct (target_reached _); [|done].
    match goal with
    | |- (settle ?a ?b ?c ?d).1 ≠ _ =>
        destruct (settle_reply a b c d) as [[w ->] | ->]; done
    end. }
  destruct (_ <? _); [done|].
  destruct (player_of _ _); [done|].
  destruct (bot_throws _ _); [|done].
  unfold evaluate_round.
  destruct (_ || _); [done|].
  destruct (computed_scores _ _ _ _) as [[s1 s2]|]; [|done].
  destruct (target_reached _); [|done].
  match goal with
  | |- (settle ?a ?b ?c ?d).1 ≠ _ =>
      destruct (settle_reply a b c d) as [[w ->] | ->]; done
  end.
Qed.

(** C3, at the failing input.  A throw pressed on message 49 while the
    session's prompt is message 50 is rejected by the handler alone but
    accepted through the registered wrapper, which first overwrites the
    anchor: the outcome is appended and the turn passes.  After an accepted
    throw has rotated the anchor from 50 to 51, the same button of message
    50 pressed again is accepted again and a second outcome is counted. *)
Theorem stale_anchor_accepted :
  (* the session's anchor is message 50 and it is player 1's turn *)
  (message_id <$> games started !! (chat, alice, Some bob)) = Some (Some 50)
  (* the handler alone rejects message 49 without any change *)
  ∧ dart_throw chat alice 49 1 (Some 6) [] 51 started = (NotCurrentMessage, started)
  (* the registered handler accepts it *)
  ∧ (registered_button_handler Darts chat alice 49 (cb_throw 1)
       (Transport 51 (Some 6) []) started).1 = NextTurn
  ∧ games (registered_button_handler Darts chat alice 49 (cb_throw 1)
             (Transport 51 (Some 6) []) started).2 !! (chat, alice, Some bob)
    = Some (Game alice (Some bob) "normal" 1 5%Q (PerSlot 0 0) Player2
                 (PerSlot [6] []) 1 (PerSlot 1 0) 1 (Some 51))
  (* the same anchor and action twice: both outcomes are counted *)
  ∧ first_throw.1 = ThrowAgain
  ∧ (message_id <$> games first_throw.2 !! (chat, alice, Some bob)) = Some (Some 51)
  ∧ dart_throw chat alice 50 1 (Some 4) [] 52 first_throw.2
    = (NotCurrentMessage, first_throw.2)
  ∧ (registered_button_handler Darts chat alice 50 (cb_throw 1)
       (Transport 52 (Some 4) []) first_throw.2).1 = NextTurn
  ∧ games (registered_button_handler Darts chat alice 50 (cb_throw 1)
             (Transport 52 (Some 4) []) first_throw.2).2 !! (chat, alice, Some bob)
    = Some (Game alice (Some bob) "double" 1 5%Q (PerSlot 0 0) Player2
                 (PerSlot [3; 4] []) 2 (PerSlot 2 0) 1 (Some 52)).
Proof.
  vm_compute. repeat split; reflexivity.
Qed.

(** ** Challenge ids *)

(** While the pending ids are exactly 1..n the next id is free. *)
Lemma next_game_id_fresh_when_dense st :
  (∀ id, is_Some (pending_challenges st !! id) →
         1 <= id <= Z.of_nat (size (pending_challenges st))) →
  pending_challenges st !! next_game_id st = None.
Proof.
  intros Hdense. destruct (pending_challenges st !! next_game_id st) eqn:H; [|done].
  unfold next_game_id in *.
  assert (is_Some (pending_challenges st !! (Z.of_nat (size (pending_challenges st)) + 1)))
    as Hs by (by eexists).
  apply Hdense in Hs. lia.
Qed.

(** C6, at the failing input.  After proposals 1 and 2 and the decline of
    proposal 1, the table holds id 2 only; the next proposal is given
    [len + 1 = 2] again and replaces the pending challenge to player 3. *)
Theorem challenge_id_collision :
  proposal1.1 = ChallengeSent 1
  ∧ proposal2.1 = ChallengeSent 2
  ∧ declined.1 = ChallengeDeclined
  ∧ pending_challenges declined.2 !! 1 = None
  ∧ pending_challenges declined.2 !! 2 = Some (Challenge alice carol "normal" 1 1%Q)
  ∧ proposal3.1 = ChallengeSent 2
  ∧ pending_challenges proposal3.2 !! 2 = Some (Challenge alice bob "normal" 1 1%Q)
  ∧ size (pending_challenges proposal3.2) = 1%nat.
Proof.
  vm_compute. repeat split; reflexivity.
Qed.

(** ** Play again against the bot *)

(** The doubled rematch against the bot compares the balance with the new
    wager before anything else. *)
Lemma double_checks_balance v chat_id user_id new_mid st last :
  last_game_of st chat_id user_id = Some last →
  lg_opponent last = None →
  (get_user_balance st user_id < lg_bet last * 2)%Q →
  double v chat_id user_id new_mid st = (InsufficientBalance, st).
Proof.
  intros Hl Ho Hb. unfold double. rewrite Hl, Ho.
  assert (Qgt_bool (lg_bet last * 2) (get_user_balance st user_id) = true) as ->;
    [|done].
  unfold Qgt_bool. apply negb_true_iff.
  destruct (Qle_bool _ _) eqn:E; [|done].
  apply Qle_bool_iff in E. lra.
Qed.

(** The plain rematch against the bot starts the match with the parameters
    of the summary, whatever the balance is. *)
Lemma play_again_bot_starts v chat_id user_id new_mid st last :
  last_game_of st chat_id user_id = Some last →
  lg_opponent last = None →
  user_games st !! (chat_id, user_id) = None →
  is_Some (balances st !! user_id) →
  let r := play_again v chat_id user_id new_mid st in
  r.1 = MatchStarted
  ∧ games r.2 !! (chat_id, user_id, None)
    = Some (with_message_id (Some new_mid)
              (new_game user_id None (lg_mode last) (lg_points_to_win last)
                        (lg_bet last)))
  ∧ user_games r.2 !! (chat_id, user_id) = Some (chat_id, user_id, None)
  ∧ get_user_balance r.2 user_id = (get_user_balance st user_id - lg_bet last)%Q.
Proof.
  intros Hl Ho Hu Hr r. unfold r, play_again. rewrite Hl, Ho.
  set (ud := put_setup v _ _).
  set (st0 := put_udata user_id ud st).
  assert (udata_of st0 user_id = ud) as Hud.
  { unfold udata_of, st0. simpl. by rewrite lookup_insert_eq. }
  assert (get_setup v ud = Some (Setup user_id (lg_bet last) None)) as Hs
      by (by destruct v).
  assert (get_mode v ud = Some (lg_mode last)) as Hm by (by destruct v).
  assert (get_points v ud = Some (lg_points_to_win last)) as Hp by (by destruct v).
  destruct (start_game_started v chat_id user_id new_mid st0
              (Setup user_id (lg_bet last) None) (lg_mode last) (lg_points_to_win last))
    as (st' & Hst & Hg & Hug & _ & _ & Hb); rewrite ?Hud; try done.
  destruct (start_game_debit v chat_id user_id new_mid st0
              (Setup user_id (lg_bet last) None) (lg_mode last) (lg_points_to_win last))
    as [Hd _]; rewrite ?Hud; try done.
  rewrite Hst in *. simpl in *. done.
Qed.

Lemma start_never_insufficient v chat_id user_id new_mid st :
  (start_game_against_bot v chat_id user_id new_mid st).1 ≠ InsufficientBalance.
Proof.
  unfold start_game_against_bot.
  destruct (user_games st !! (chat_id, user_id)); [done|].
  destruct (get_setup v _); [|done].
  destruct (get_mode v _); [|done].
  by destruct (get_points v _).
Qed.

Lemma play_again_never_insufficient v chat_id user_id new_mid st :
  (play_again v chat_id user_id new_mid st).1 ≠ InsufficientBalance.
Proof.
  unfold play_again.
  destruct (last_game_of st chat_id user_id) as [last|]; [|done].
  destruct (lg_opponent last) as [o|].
  - by destruct (user_games st !! (chat_id, o)).
  - apply start_never_insufficient.
Qed.

Lemma button_play_again_never_insufficient v chat_id user_id qmid t st :
  (button_handler v chat_id user_id qmid cb_play_again t st).1 ≠ InsufficientBalance.
Proof.
  unfold button_handler.
  destruct (get_setup v (udata_of st user_id)) as [su|].
  - destruct (negb (su_initiator su =? user_id)); [done|].
    by destruct (negb (opt_eqb (su_message_id su) (Some qmid))).
  - apply play_again_never_insufficient.
Qed.

(** C8, as the application dispatches the button.  Pressed through the
    registered wrapper, "Play Again" is never answered with the
    insufficient-balance rejection, in any state.  At the failing input the
    summary of player 1 names the bot and a wager of 5, the balance is 0 and
    there is no session.  The wrapper then calls the handler only when the
    player has a dice setup on the pressed message: without one the press
    is answered "No active game or setup found!" and starts nothing; with
    one the match is registered and the wager debited, leaving a balance of
    -5, where "Double" in the same state is rejected for insufficient
    balance. *)
Theorem play_again_skips_balance_check :
  (∀ v chat_id user_id qmid t st,
     (registered_button_handler v chat_id user_id qmid cb_play_again t st).1
     ≠ InsufficientBalance)
  ∧ last_game_of lost_twice chat alice = Some (LastGame None "normal" 1 5%Q)
  ∧ (get_user_balance lost_twice alice == 0)%Q
  ∧ user_games lost_twice !! (chat, alice) = None
  ∧ registered_button_handler Darts chat alice 53 cb_play_again (Transport 54 None [])
      lost_twice
    = (NoGameOrSetup, lost_twice)
  ∧ last_game_of lost_twice_dice chat alice = Some (LastGame None "normal" 1 5%Q)
  ∧ (get_user_balance lost_twice_dice alice == 0)%Q
  ∧ user_games lost_twice_dice !! (chat, alice) = None
  ∧ dice_setup (udata_of lost_twice_dice alice) = Some (Setup alice 1%Q (Some 53))
  ∧ (registered_button_handler Darts chat alice 53 cb_play_again (Transport 54 None [])
       lost_twice_dice).1
    = MatchStarted
  ∧ user_games
      (registered_button_handler Darts chat alice 53 cb_play_again (Transport 54 None [])
         lost_twice_dice).2 !! (chat, alice)
    = Some (chat, alice, None)
  ∧ (get_user_balance
       (registered_button_handler Darts chat alice 53 cb_play_again (Transport 54 None [])
          lost_twice_dice).2 alice
     == -5)%Q
  ∧ registered_button_handler Darts chat alice 53 cb_double (Transport 54 None [])
      lost_twice_dice
    = (InsufficientBalance, lost_twice_dice).
Proof.
  split.
  { intros v chat_id user_id qmid t st.
    unfold registered_button_handler, with_game_ownership_check.
    assert (∀ s, (button_handler v chat_id user_id qmid cb_play_again t s).1
                 ≠ InsufficientBalance) as Hb
        by (intros s; apply button_play_again_never_insufficient).
    destruct (user_games st !! (chat_id, user_id)) as [k|].
    - destruct (games st !! k); [apply Hb|].
      destruct (dice_setup _) as [su|]; [|done].
      destruct (opt_eqb _ _); [apply Hb|done].
    - destruct (dice_setup _) as [su|]; [|done].
      destruct (opt_eqb _ _); [apply Hb|done]. }
  vm_compute. repeat split; reflexivity.
Qed.

(** ** The coin flip *)

Lemma Qgt_bool_iff x y : Qgt_bool x y = true ↔ (y < x)%Q.
Proof.
  unfold Qgt_bool. rewrite negb_true_iff. split.
  - intros H. apply Qnot_le_lt. intros Hle. apply Qle_bool_iff in Hle. congruence.
  - intros H. destruct (Qle_bool x y) eqn:E; [|done].
    apply Qle_bool_iff in E. lra.
Qed.

Lemma coin_result_won choice r :
  side_eqb choice (coin_result choice r) = Qgt_bool PLAYER_WIN_PROB r.
Proof. unfold coin_result. by destruct (Qgt_bool _ _), choice. Qed.

Lemma length_filter_map {A B} (f : B → bool) (h : A → B) (l : list A) :
  length (List.filter f (List.map h l)) = length (List.filter (fun a => f (h a)) l).
Proof.
  induction l as [|a l IH]; [done|]. simpl. destruct (f (h a)); simpl; by rewrite IH.
Qed.

(** Below a bound [c], the first [m] naturals number [min c m]. *)
Lemma count_below (c m : nat) :
  length (List.filter (fun i => i <? c)%nat (seq 0 m)) = Nat.min c m.
Proof.
  induction m as [|m IH]; [by rewrite Nat.min_0_r|].
  rewrite seq_S, List.filter_app, length_app, IH. simpl.
  destruct (m <? c)%nat eqn:E.
  - apply Nat.ltb_lt in E. simpl. lia.
  - apply Nat.ltb_ge in E. simpl. lia.
Qed.

(** On a grid of [n] points the draws below 0.4 are those with index below
    [(2n + 4) / 5], the least integer not below [2n/5]. *)
Lemma grid_below_prob (n i : nat) :
  (i < n)%nat →
  Qgt_bool PLAYER_WIN_PROB (Qmake (Z.of_nat i) (Pos.of_nat n)) = (i <? (2 * n + 4) / 5)%nat.
Proof.
  intros Hi.
  assert (Z.pos (Pos.of_nat n) = Z.of_nat n) as Hn.
  { rewrite <- positive_nat_Z, Nat2Pos.id by lia. done. }
  pose proof (Nat.div_mod_eq (2 * n + 4) 5) as Hd.
  pose proof (Nat.mod_upper_bound (2 * n + 4) 5 ltac:(lia)) as Hm.
  destruct (Qgt_bool PLAYER_WIN_PROB (Qmake (Z.of_nat i) (Pos.of_nat n))) eqn:E.
  - apply Qgt_bool_iff in E. unfold PLAYER_WIN_PROB, Qlt in E. simpl in E.
    rewrite Hn in E. symmetry. apply Nat.ltb_lt. lia.
  - symmetry. apply Nat.ltb_ge.
    destruct (decide (i < (2 * n + 4) / 5)%nat) as [Hlt|]; [|lia].
    exfalso. assert (Qgt_bool PLAYER_WIN_PROB (Qmake (Z.of_nat i) (Pos.of_nat n)) = true);
      [|congruence].
    apply Qgt_bool_iff. unfold PLAYER_WIN_PROB, Qlt. simpl. rewrite Hn. lia.
Qed.

(** C9. The flip of a registered coin game, handled with draw [r]: the
    handler shows the player's side exactly when [r < 0.4] and the opposite
    side exactly when [0.4 <= r], whatever side was chosen, and it settles
    by the same test: +0.92 bets on a win, minus the bet otherwise.  The
    face is computed from the decision.  For a draw that is uniform on a
    grid of [n] values of [0, 1) the number of winning draws is the least
    integer not below [2n/5], for either side: the player wins with
    probability 0.4 up to the step [1/n] of the grid, and with exactly 0.4
    when 5 divides [n]. *)
Theorem coin_flip_decision (chat_id user_id qmid new_mid : Z) (st : state)
    (game : coin_game) (r : Q) :
  coin_game_of st (chat_id, user_id) = Some game →
  qmid = cg_match_message_id game →
  is_Some (balances st !! user_id) →
  let res := coin_button_handler chat_id user_id qmid coin_flip r new_mid st in
  let wins := winning_draws chat_id user_id qmid new_mid st (cg_choice game) in
  (res.1 = CoinLanded (cg_choice game) ↔ (r < 0.4)%Q)
  ∧ (res.1 = CoinLanded (opposite (cg_choice game)) ↔ (0.4 <= r)%Q)
  ∧ ((r < 0.4)%Q →
     (get_user_balance res.2 user_id
      == get_user_balance st user_id + 0.92 * cg_bet game)%Q)
  ∧ ((0.4 <= r)%Q →
     (get_user_balance res.2 user_id == get_user_balance st user_id - cg_bet game)%Q)
  ∧ (∀ choice, coin_result choice r = choice ↔ (r < 0.4)%Q)
  ∧ (∀ n, (0 < n)%nat → (2 * n ≤ 5 * wins n < 2 * n + 5)%nat)
  ∧ (∀ m, wins (5 * m)%nat = (2 * m)%nat).
Proof.
  intros Hg Hq Hr res wins.
  assert (∀ x, (coin_button_handler chat_id user_id qmid coin_flip x new_mid st).1
               = CoinLanded (coin_result (cg_choice game) x)) as Hface.
  { intros x. by destruct (coin_flip_settles chat_id user_id qmid x new_mid st game Hg Hq Hr)
      as (H & _). }
  destruct (coin_flip_settles chat_id user_id qmid r new_mid st game Hg Hq Hr)
    as (_ & Hbal & _).
  fold res in Hbal.
  assert (∀ choice, coin_result choice r = choice ↔ (r < 0.4)%Q) as Hdec.
  { intros choice. unfold coin_result.
    destruct (Qgt_bool PLAYER_WIN_PROB r) eqn:E.
    - apply Qgt_bool_iff in E. unfold PLAYER_WIN_PROB in E. done.
    - split; [by destruct choice|]. intros Hlt.
      assert (Qgt_bool PLAYER_WIN_PROB r = true) by (by apply Qgt_bool_iff).
      congruence. }
  assert (∀ n, wins n = Nat.min ((2 * n + 4) / 5) n) as Hwins.
  { intros n. unfold wins, winning_draws, grid_draws.
    rewrite length_filter_map, <- count_below. f_equal.
    apply List.filter_ext_in. intros i Hi. apply in_seq in Hi.
    unfold flip_won. rewrite Hface, coin_result_won.
    apply grid_below_prob. lia. }
  split.
  { unfold res. rewrite Hface. rewrite <- (Hdec (cg_choice game)).
    split; [by intros [= ->]|by intros ->]. }
  split.
  { unfold res. rewrite Hface. unfold coin_result.
    destruct (Qgt_bool PLAYER_WIN_PROB r) eqn:E.
    - apply Qgt_bool_iff in E. unfold PLAYER_WIN_PROB in E.
      split; [intros [= H]; by destruct (cg_choice game)|intros H; lra].
    - split; [|done]. intros _. apply Qnot_lt_le. intros Hlt.
      assert (Qgt_bool PLAYER_WIN_PROB r = true) by (by apply Qgt_bool_iff).
      congruence. }
  split.
  { intros Hlt. rewrite Hbal.
    assert (Qgt_bool PLAYER_WIN_PROB r = true) as -> by (by apply Qgt_bool_iff).
    unfold multiplier. ring. }
  split.
  { intros Hle. rewrite Hbal.
    assert (Qgt_bool PLAYER_WIN_PROB r = false) as ->.
    { destruct (Qgt_bool _ _) eqn:E; [|done]. apply Qgt_bool_iff in E.
      unfold PLAYER_WIN_PROB in E. lra. }
    reflexivity. }
  split; [exact Hdec|]. split.
  - intros n Hn. rewrite Hwins.
    pose proof (Nat.div_mod_eq (2 * n + 4) 5) as Hd.
    pose proof (Nat.mod_upper_bound (2 * n + 4) 5 ltac:(lia)) as Hm. lia.
  - intros m. rewrite Hwins.
    pose proof (Nat.div_mod_eq (2 * (5 * m) + 4) 5) as Hd.
    pose proof (Nat.mod_upper_bound (2 * (5 * m) + 4) 5 ltac:(lia)) as Hm. lia.
Qed.

Lemma coin_flip_decision_witness :
  let st := (coin_button_handler chat alice 60 coin_bot 0%Q 61 coin_ready).2 in
  (coin_button_handler chat alice 60 coin_flip 0.39%Q 62 st).1 = CoinLanded heads
  ∧ (coin_button_handler chat alice 60 coin_flip 0.4%Q 62 st).1 = CoinLanded tails
  ∧ (get_user_balance (coin_button_handler chat alice 60 coin_flip 0.4%Q 62 st).2 alice
     == 10 - 5)%Q
  ∧ winning_draws chat alice 60 62 st heads 10 = 4%nat.
Proof.
  intros st.
  destruct (coin_flip_decision chat alice 60 62 st (CoinGame 5%Q heads 60) 0.39%Q)
    as (H1 & _ & _ & _ & _ & _ & H7); [reflexivity|reflexivity|vm_compute; by eexists|].
  destruct (coin_flip_decision chat alice 60 62 st (CoinGame 5%Q heads 60) 0.4%Q)
    as (_ & H2 & _ & H4 & _); [reflexivity|reflexivity|vm_compute; by eexists|].
  split; [apply H1; reflexivity|].
  split; [apply H2; vm_compute; discriminate|].
  split; [apply H4; vm_compute; discriminate|].
  exact (H7 2%nat).
Defined.

(** ** The slot machine *)

Lemma die_values_forallb (f : Z → bool) :
  List.forallb f die_values = true → ∀ v, 1 <= v <= 64 → f v = true.
Proof.
  intros H v Hv. rewrite forallb_forall in H. apply H.
  unfold die_values. apply in_map_iff. exists (Z.to_nat v). split; [lia|].
  apply in_seq. lia.
Qed.

Lemma combo_loop_length n d : length (combo_loop n d) = n.
Proof. revert d. induction n as [|n IH]; intros d; simpl; [done|]. by rewrite IH. Qed.

Lemma combo_loop_period d : combo_loop 3 (d + 64) = combo_loop 3 d.
Proof.
  simpl.
  replace ((d + 64) mod 4) with (d mod 4)
    by (replace (d + 64) with (d + 16 * 4) by lia; by rewrite Z_mod_plus_full).
  replace ((d + 64) / 4) with (d / 4 + 16)
    by (replace (d + 64) with (d + 16 * 4) by lia; by rewrite Z_div_plus_full).
  replace ((d / 4 + 16) mod 4) with ((d / 4) mod 4)
    by (replace (d / 4 + 16) with (d / 4 + 4 * 4) by lia; by rewrite Z_mod_plus_full).
  replace ((d / 4 + 16) / 4) with (d / 4 / 4 + 4)
    by (replace (d / 4 + 16) with (d / 4 + 4 * 4) by lia; by rewrite Z_div_plus_full).
  replace ((d / 4 / 4 + 4) mod 4) with ((d / 4 / 4) mod 4)
    by (replace (d / 4 / 4 + 4) with (d / 4 / 4 + 1 * 4) by lia;
        by rewrite Z_mod_plus_full).
  done.
Qed.

(** X1. [get_combo_parts] always returns three symbols and depends on the
    die value modulo 64 only; on the die's range 1..64 it is a bijection
    with the 64 combinations: the combination determines the value
    ([combo_value] decodes it) and every combination is shown by one value. *)
Theorem get_combo_parts_round_trip (v : Z) (s1 s2 s3 : symbol) :
  1 <= v <= 64 →
  length (get_combo_parts v) = 3%nat
  ∧ combo_value (get_combo_parts v) = Some v
  ∧ (∀ d, get_combo_parts (d + 64) = get_combo_parts d
          ∧ length (get_combo_parts d) = 3%nat)
  ∧ (∃ v', combo_value [s1; s2; s3] = Some v' ∧ 1 <= v' <= 64
           ∧ get_combo_parts v' = [s1; s2; s3]).
Proof.
  intros Hv. split; [apply combo_loop_length|]. split.
  - pose proof (die_values_forallb
                  (fun v => match combo_value (get_combo_parts v) with
                            | Some v' => v' =? v
                            | None => false
                            end)) as H.
    specialize (H eq_refl v Hv). cbv beta in H.
    destruct (combo_value (get_combo_parts v)) as [v'|]; [|done].
    f_equal. lia.
  - split.
    + intros d. split; [|apply combo_loop_length].
      unfold get_combo_parts. replace (d + 64 - 1) with (d - 1 + 64) by lia.
      apply combo_loop_period.
    + eexists. split; [reflexivity|].
      destruct s1, s2, s3; (split; [simpl; lia|reflexivity]).
Qed.

Lemma get_combo_parts_round_trip_witness :
  combo_value (get_combo_parts 16) = Some 16
  ∧ get_combo_parts 16 = [seven; seven; chocolate].
Proof.
  destruct (get_combo_parts_round_trip 16 seven seven chocolate) as (_ & H & _).
  - lia.
  - split; [exact H|reflexivity].
Defined.

(** X2. [get_payout] rejects anything but three symbols.  For three symbols
    the multiplier is positive exactly when the first two symbols are equal
    or the last two are sevens; it is 20 exactly for three sevens, 7 for
    three equal fruits, and otherwise one of 2, 1, 0.5, 0.25, 0. *)
Theorem get_payout_table (symbols : list symbol) :
  (get_payout symbols = None ↔ length symbols ≠ 3%nat)
  ∧ ∀ s1 s2 s3, symbols = [s1; s2; s3] →
      ∃ m, get_payout symbols = Some m
           ∧ (Qgt_bool m 0 = true ↔ s1 = s2 ∨ (s2 = seven ∧ s3 = seven))
           ∧ (m = 20%Q ↔ s1 = seven ∧ s2 = seven ∧ s3 = seven)
           ∧ (m = 7%Q ↔ s1 = s2 ∧ s2 = s3 ∧ s1 ≠ seven)
           ∧ (m = 20%Q ∨ m = 7%Q ∨ m = 2%Q ∨ m = 1%Q ∨ m = 0.5%Q ∨ m = 0.25%Q
              ∨ m = 0%Q).
Proof.
  split.
  - destruct symbols as [|a [|b [|c [|d l]]]]; simpl; split; try done; try lia.
  - intros s1 s2 s3 ->. eexists. split; [reflexivity|].
    destruct s1, s2, s3; simpl; repeat split; intros;
      try done; try (by right); try (by left); intuition (try discriminate; eauto 10).
Qed.

Lemma get_payout_table_witness :
  ∃ m, get_payout [grapes; seven; seven] = Some m ∧ Qgt_bool m 0 = true.
Proof.
  destruct (get_payout_table [grapes; seven; seven]) as [_ H].
  destruct (H grapes seven seven eq_refl) as (m & Hm & Hpos & _).
  exists m. split; [exact Hm|]. apply Hpos. right. split; reflexivity.
Defined.

Lemma get_payout_combo v : ∃ m, get_payout (get_combo_parts v) = Some m.
Proof.
  unfold get_combo_parts. simpl. by eexists.
Qed.

Lemma payout_nonneg v m : get_payout (get_combo_parts v) = Some m → (0 <= m)%Q.
Proof.
  unfold get_combo_parts. simpl.
  destruct (values_at _), (values_at _), (values_at _); simpl; intros [= <-];
    by vm_compute.
Qed.

(** An accepted spin, step by step. *)
Lemma spin_accepted user_id qmid v new_mid g st :
  qmid = sg_message_id g →
  (bet_size g <= get_user_balance st user_id)%Q →
  ∃ m, get_payout (get_combo_parts v) = Some m
       ∧ slots_button_handler user_id qmid slots_spin v new_mid (Some g) st
         = (if Qgt_bool m 0
            then SlotsWon (get_combo_parts v) (bet_size g * m)
            else SlotsLost (get_combo_parts v),
            Some (SlotsGame (bet_size g) new_mid),
            update_user_balance user_id
              (if Qgt_bool m 0
               then get_user_balance st user_id + bet_size g * m
               else get_user_balance st user_id - bet_size g)%Q st).
Proof.
  intros -> Hle. destruct (get_payout_combo v) as [m Hm]. exists m.
  split; [done|]. unfold slots_button_handler. rewrite Z.eqb_refl. cbn [negb].
  assert (Qgt_bool (bet_size g) (get_user_balance st user_id) = false) as ->.
  { destruct (Qgt_bool _ _) eqn:E; [|done]. apply Qgt_bool_iff in E. lra. }
  rewrite Hm. by destruct (Qgt_bool m 0).
Qed.

(** The effect of a spin on the game and on the balances. *)
Lemma spin_effect (user_id qmid v new_mid : Z) (g : slots_game) (st : state) :
  qmid = sg_message_id g →
  is_Some (balances st !! user_id) →
  (0 <= bet_size g)%Q →
  let r := slots_button_handler user_id qmid slots_spin v new_mid (Some g) st in
  ((get_user_balance st user_id < bet_size g)%Q →
   r = (SlotsNotEnough, Some g, st))
  ∧ ((bet_size g <= get_user_balance st user_id)%Q →
     r.1.2 = Some (SlotsGame (bet_size g) new_mid)
     ∧ (get_user_balance r.2 user_id
        == get_user_balance st user_id + bet_size g * net_multiplier v)%Q
     ∧ (get_user_balance st user_id - bet_size g <= get_user_balance r.2 user_id)%Q
     ∧ (0 <= get_user_balance r.2 user_id)%Q
     ∧ (∀ u, u ≠ user_id → get_user_balance r.2 u = get_user_balance st u)).
Proof.
  intros Hq Hreg Hbet r. split.
  - intros Hlt. unfold r, slots_button_handler. rewrite Hq, Z.eqb_refl. cbn [negb].
    assert (Qgt_bool (bet_size g) (get_user_balance st user_id) = true) as ->; [|done].
    by apply Qgt_bool_iff.
  - intros Hle.
    destruct (spin_accepted user_id qmid v new_mid g st Hq Hle) as (m & Hm & Hr).
    pose proof (payout_nonneg v m Hm) as Hm0.
    unfold r. rewrite Hr. simpl. split; [done|].
    rewrite get_update_eq by done.
    unfold net_multiplier. rewrite Hm.
    destruct (Qgt_bool m 0) eqn:E.
    + apply Qgt_bool_iff in E.
      assert (0 <= bet_size g * m)%Q by (by apply Qmult_le_0_compat).
      split; [reflexivity|]. split; [lra|]. split; [lra|].
      intros u Hu. by apply get_update_ne.
    + split; [ring|]. split; [lra|]. split; [lra|].
      intros u Hu. by apply get_update_ne.
Qed.

(** X3. A spin is refused without any change when the bet exceeds the
    balance.  An accepted spin keeps the bet size, moves the prompt to the
    new message and changes only the player's balance: a paying combination
    adds bet*multiplier (the stake itself is not taken), any other takes
    exactly the bet; the balance never drops by more than the bet, so it
    stays non-negative. *)
Theorem spin_settles (user_id qmid v new_mid : Z) (g : slots_game) (st : state) :
  qmid = sg_message_id g →
  is_Some (balances st !! user_id) →
  (0 <= bet_size g)%Q →
  let r := slots_button_handler user_id qmid slots_spin v new_mid (Some g) st in
  ((get_user_balance st user_id < bet_size g)%Q →
   r = (SlotsNotEnough, Some g, st))
  ∧ ((bet_size g <= get_user_balance st user_id)%Q →
     r.1.2 = Some (SlotsGame (bet_size g) new_mid)
     ∧ (get_user_balance r.2 user_id
        == get_user_balance st user_id + bet_size g * net_multiplier v)%Q
     ∧ (get_user_balance st user_id - bet_size g <= get_user_balance r.2 user_id)%Q
     ∧ (0 <= get_user_balance r.2 user_id)%Q
     ∧ (∀ u, u ≠ user_id → get_user_balance r.2 u = get_user_balance st u)).
Proof. exact (spin_effect user_id qmid v new_mid g st). Qed.

Lemma spin_settles_witness :
  let g := SlotsGame 2%Q 70 in
  (get_user_balance
     (slots_button_handler alice 70 slots_spin 64 71 (Some g) funded).2 alice
   == get_user_balance funded alice + 2 * 20)%Q
  ∧ (get_user_balance
       (slots_button_handler alice 70 slots_spin 2 71 (Some g) funded).2 alice
     == get_user_balance funded alice + 2 * (-1))%Q.
Proof.
  intros g.
  destruct (spin_settles alice 70 64 71 g funded) as [_ H1];
    [reflexivity | vm_compute; by eexists | vm_compute; discriminate |].
  destruct (spin_settles alice 70 2 71 g funded) as [_ H2];
    [reflexivity | vm_compute; by eexists | vm_compute; discriminate |].
  split.
  - destruct H1 as (_ & H & _); [vm_compute; discriminate | exact H].
  - destruct H2 as (_ & H & _); [vm_compute; discriminate | exact H].
Defined.

Lemma sum_amounts_scale (f c : Z → Q) (b : Q) (l : list Z) :
  (∀ v, f v == b * c v)%Q →
  (sum_amounts (List.map f l) == b * sum_amounts (List.map c l))%Q.
Proof.
  intros H. induction l as [|x l IH]; simpl.
  - ring.
  - rewrite IH, H. ring.
Qed.

(** X4. Summed over the 64 values of the slot-machine die, an affordable
    spin changes the player's balance by +8 bets in total: the paying
    combinations return more than the 45 losing values take. *)
Theorem spin_total_over_die (user_id qmid new_mid : Z) (g : slots_game) (st : state) :
  qmid = sg_message_id g →
  is_Some (balances st !! user_id) →
  (0 <= bet_size g <= get_user_balance st user_id)%Q →
  (sum_amounts (List.map (spin_gain user_id qmid new_mid g st) die_values)
   == 8 * bet_size g)%Q
  ∧ length (List.filter (fun v => Qgt_bool 0 (net_multiplier v)) die_values) = 45%nat.
Proof.
  intros Hq Hreg [Hb0 Hle]. split; [|by vm_compute].
  rewrite (sum_amounts_scale _ net_multiplier (bet_size g)).
  - assert (sum_amounts (List.map net_multiplier die_values) == 8)%Q as ->
        by (by vm_compute).
    ring.
  - intros v. unfold spin_gain.
    destruct (spin_effect user_id qmid v new_mid g st Hq Hreg Hb0) as [_ H].
    destruct (H Hle) as (_ & -> & _). ring.
Qed.

Lemma spin_total_over_die_witness :
  (sum_amounts (List.map (spin_gain alice 70 71 (SlotsGame 2%Q 70) funded) die_values)
   == 8 * 2)%Q.
Proof.
  destruct (spin_total_over_die alice 70 71 (SlotsGame 2%Q 70) funded) as [H _].
  - reflexivity.
  - vm_compute. by eexists.
  - split; vm_compute; discriminate.
  - exact H.
Defined.

Lemma amount_max_bounds x y : (x <= amount_max x y)%Q ∧ (y <= amount_max x y)%Q.
Proof.
  unfold amount_max. destruct (Qgt_bool y x) eqn:E.
  - apply Qgt_bool_iff in E. lra.
  - assert (y <= x)%Q; [|lra].
    apply Qnot_lt_le. intros H. apply Qgt_bool_iff in H. congruence.
Qed.

Lemma amount_max_cases x y : amount_max x y = x ∨ amount_max x y = y.
Proof. unfold amount_max. destruct (Qgt_bool y x); auto. Qed.

Lemma amount_min_bounds x y : (amount_min x y <= x)%Q ∧ (amount_min x y <= y)%Q.
Proof.
  unfold amount_min. destruct (Qgt_bool x y) eqn:E.
  - apply Qgt_bool_iff in E. lra.
  - assert (x <= y)%Q; [|lra].
    apply Qnot_lt_le. intros H. apply Qgt_bool_iff in H. congruence.
Qed.

Lemma amount_min_cases x y : amount_min x y = x ∨ amount_min x y = y.
Proof. unfold amount_min. destruct (Qgt_bool x y); auto. Qed.

Lemma adjust_bet_in_range b q : in_bet_range q → in_bet_range (adjust_bet b q).
Proof.
  unfold in_bet_range. intros [H1 H2]. destruct b; cbn [adjust_bet]; try lra.
  - destruct (amount_max_bounds 0.25 (q - 1)), (amount_max_cases 0.25 (q - 1)) as [E|E];
      rewrite E in *; lra.
  - destruct (amount_min_bounds 50 (q + 1)), (amount_min_cases 50 (q + 1)) as [E|E];
      rewrite E in *; lra.
  - destruct (amount_min_bounds 50 (q * 2)), (amount_min_cases 50 (q * 2)) as [E|E];
      rewrite E in *; lra.
Qed.

(** X5. The bet size of a slots game stays between 0.25 and 50: a new game
    opens at 1, and whatever button is handled, a game whose bet is in that
    range is removed or left with a bet in that range. *)
Theorem bet_size_stays_in_range (user_id qmid : Z) (data : slots_callback)
    (dice_value new_mid : Z) (g : slots_game) (st : state) :
  in_bet_range (bet_size g) →
  match (slots_button_handler user_id qmid data dice_value new_mid (Some g) st).1.2 with
  | Some g' => in_bet_range (bet_size g')
  | None => data = slots_cancel
  end
  ∧ (∀ private mid, (slots_command user_id private mid None st).2 = None
       ∨ ∃ g0, (slots_command user_id private mid None st).2 = Some g0
               ∧ bet_size g0 = 1%Q ∧ in_bet_range (bet_size g0)).
Proof.
  intros Hr. split.
  - unfold slots_button_handler.
    destruct (negb _); [done|].
    destruct data; try (by simpl).
    + destruct (Qgt_bool _ _); [done|].
      destruct (get_payout (get_combo_parts dice_value)); [|done].
      by destruct (Qgt_bool _ 0).
    + simpl. by apply adjust_bet_in_range.
  - intros private mid. unfold slots_command.
    destruct (negb private); [by left|]. destruct (negb _); [by left|].
    right. eexists. split; [reflexivity|]. split; [done|].
    unfold in_bet_range. simpl. lra.
Qed.

Lemma bet_size_stays_in_range_witness :
  match (slots_button_handler alice 70 (slots_bet bet_double) 1 71
           (Some (SlotsGame 40%Q 70)) funded).1.2 with
  | Some g' => in_bet_range (bet_size g')
  | None => slots_bet bet_double = slots_cancel
  end.
Proof.
  destruct (bet_size_stays_in_range alice 70 (slots_bet bet_double) 1 71
              (SlotsGame 40%Q 70) funded) as [H _].
  - unfold in_bet_range. simpl. lra.
  - exact H.
Defined.

(** X6. Once a spin has moved the prompt to a new message, every button of
    the old message is refused, by the handler itself and by the registered
    wrapper, and changes neither the game nor the state: a spin cannot be
    replayed from its old button. *)
Theorem spin_not_replayable (user_id qmid v new_mid : Z) (g : slots_game) (st : state)
    (data : slots_callback) (v' mid' : Z) :
  qmid = sg_message_id g →
  new_mid ≠ qmid →
  (bet_size g <= get_user_balance st user_id)%Q →
  let r := slots_button_handler user_id qmid slots_spin v new_mid (Some g) st in
  slots_button_handler user_id qmid data v' mid' r.1.2 r.2 = (SlotsOutdated, r.1.2, r.2)
  ∧ registered_slots_handler user_id qmid data v' mid' r.1.2 r.2
    = (SlotsNotYourMessage, r.1.2, r.2)
  ∧ registered_slots_handler user_id qmid slots_spin v new_mid (Some g) st = r.
Proof.
  intros Hq Hne Hle r.
  destruct (spin_accepted user_id qmid v new_mid g st Hq Hle) as (m & _ & Hr).
  unfold r. rewrite Hr. cbn [fst snd].
  unfold registered_slots_handler, slots_button_handler at 1. cbn [sg_message_id].
  assert ((qmid =? new_mid) = false) as -> by lia.
  assert ((new_mid =? qmid) = false) as -> by lia.
  cbn [negb]. split; [done|]. split; [done|].
  rewrite <- Hq, Z.eqb_refl. cbn [negb]. by rewrite Hr.
Qed.

Lemma spin_not_replayable_witness :
  let r := slots_button_handler alice 70 slots_spin 64 71 (Some (SlotsGame 2%Q 70)) funded in
  registered_slots_handler alice 70 slots_spin 64 72 r.1.2 r.2
  = (SlotsNotYourMessage, r.1.2, r.2).
Proof.
  intros r.
  destruct (spin_not_replayable alice 70 64 71 (SlotsGame 2%Q 70) funded slots_spin 64 72)
    as (_ & H & _).
  - reflexivity.
  - discriminate.
  - vm_compute. discriminate.
  - exact H.
Defined.

(** ** The commands of main.py *)

Lemma Qle_bool_false x y : Qle_bool x y = false → (y < x)%Q.
Proof.
  intros H. apply Qnot_le_lt. intros Hle. apply Qle_bool_iff in Hle. congruence.
Qed.

Lemma Qgt_bool_false x y : Qgt_bool x y = false → (x <= y)%Q.
Proof.
  intros H. apply Qnot_lt_le. intros Hlt. apply Qgt_bool_iff in Hlt. congruence.
Qed.

(** X7. The wrapper of the game commands calls the game only for a
    registered user and a bet with 0 < bet <= balance ("all" is the balance,
    "half" half of it); any rejection leaves the house row and the state
    untouched.  When the game is called from a chat that is not private, the
    house balance has been raised by the bet beforehand, whatever the game
    then replies; in a private chat the house row is not touched. *)
Theorem create_game_handler_guard (game_func : state → reply * state) (user_id : Z)
    (private : bool) (arg : option bet_arg) (house : option Q) (st : state) :
  let r := create_game_handler game_func user_id private arg house st in
  ((∀ x, r.1.1 ≠ MainRan x) → r.1.2 = house ∧ r.2 = st)
  ∧ (∀ x, r.1.1 = MainRan x →
       ∃ bet, arg = Some bet
         ∧ user_exists st user_id = true
         ∧ (0 < bet_amount_of bet (get_user_balance st user_id)
            <= get_user_balance st user_id)%Q
         ∧ x = (game_func st).1
         ∧ r.2 = (game_func st).2
         ∧ r.1.2 = if private then house
                   else Some (get_house_balance house
                              + bet_amount_of bet (get_user_balance st user_id))%Q).
Proof.
  intros r. unfold r, create_game_handler.
  destruct (user_exists st user_id) eqn:Hu; simpl; [|split; [done|intros; done]].
  destruct arg as [bet|]; [|split; [done|intros; done]].
  destruct (Qle_bool _ 0) eqn:H0; [split; [done|intros; done]|].
  destruct (Qgt_bool _ _) eqn:H1; [split; [done|intros; done]|].
  split.
  - intros H. by destruct (H (game_func st).1).
  - intros x [= <-]. exists bet. apply Qle_bool_false in H0. apply Qgt_bool_false in H1.
    split; [done|]. split; [done|]. split; [by split|].
    split; [done|]. split; [done|]. by destruct private.
Qed.

Lemma create_game_handler_guard_witness :
  (create_game_handler (game_command Darts chat alice 4%Q 30) alice false
     (Some (BetNumber 4%Q)) (Some 1%Q) funded).1.2 = Some (1 + 4)%Q.
Proof.
  destruct (create_game_handler_guard (game_command Darts chat alice 4%Q 30) alice false
              (Some (BetNumber 4%Q)) (Some 1%Q) funded) as [_ H].
  destruct (H SetupPrompt eq_refl) as (bet & Hb & _ & _ & _ & _ & Hh).
  injection Hb as <-. exact Hh.
Defined.

(** X8. In a chat that is not private, ["/dart all"] and ["/dart half"] of a
    registered user with a positive balance raise the house balance by the
    whole (half the) balance, and then the command itself rejects the
    argument as an invalid bet: no negotiation is created and no balance
    changes.  The same happens with a numeric bet when the user already has
    a session: the house is credited and the command replies "You are
    already in a game!". *)
Theorem house_credited_without_game (v : variant) (chat_id user_id new_mid : Z)
    (house : option Q) (st : state) :
  is_Some (balances st !! user_id) →
  (0 < get_user_balance st user_id)%Q →
  create_game_handler (game_command_on v chat_id user_id BetAll new_mid) user_id false
    (Some BetAll) house st
  = (MainRan InvalidBet,
     Some (get_house_balance house + get_user_balance st user_id)%Q, st)
  ∧ create_game_handler (game_command_on v chat_id user_id BetHalf new_mid) user_id false
      (Some BetHalf) house st
    = (MainRan InvalidBet,
       Some (get_house_balance house + get_user_balance st user_id / 2)%Q, st)
  ∧ (∀ q, (0 < q <= get_user_balance st user_id)%Q →
          is_Some (user_games st !! (chat_id, user_id)) →
          create_game_handler (game_command_on v chat_id user_id (BetNumber q) new_mid)
            user_id false (Some (BetNumber q)) house st
          = (MainRan AlreadyInGame, Some (get_house_balance house + q)%Q, st)).
Proof.
  intros Hreg Hpos.
  assert (user_exists st user_id = true) as Hu.
  { unfold user_exists. by apply bool_decide_eq_true. }
  assert (∀ q, (0 < q <= get_user_balance st user_id)%Q →
               Qle_bool q 0 = false ∧ Qgt_bool q (get_user_balance st user_id) = false)
    as Hok.
  { intros q [Hq1 Hq2]. split.
    - destruct (Qle_bool q 0) eqn:E; [|done]. apply Qle_bool_iff in E. lra.
    - destruct (Qgt_bool q _) eqn:E; [|done]. apply Qgt_bool_iff in E. lra. }
  split; [|split].
  - unfold create_game_handler, game_command_on. rewrite Hu. cbn [negb bet_amount_of].
    destruct (Hok (get_user_balance st user_id)) as [-> ->]; [lra|]. done.
  - unfold create_game_handler, game_command_on. rewrite Hu. cbn [negb bet_amount_of].
    destruct (Hok (get_user_balance st user_id / 2)%Q) as [-> ->]; [|done].
    split.
    + apply Qlt_shift_div_l; lra.
    + apply Qle_shift_div_r; lra.
  - intros q Hq [k Hk].
    unfold create_game_handler, game_command_on, game_command.
    rewrite Hu, Hk. cbn [negb bet_amount_of].
    destruct (Hok q Hq) as [-> ->]. done.
Qed.

Lemma house_credited_without_game_witness :
  create_game_handler (game_command_on Darts chat alice BetAll 30) alice false
    (Some BetAll) (Some 0%Q) funded
  = (MainRan InvalidBet, Some (0 + 10)%Q, funded).
Proof.
  destruct (house_credited_without_game Darts chat alice 30 (Some 0%Q) funded)
    as (H & _).
  - vm_compute. by eexists.
  - reflexivity.
  - exact H.
Defined.

Lemma tip_rejections user_id amount recipient_id st :
  (tip_command user_id amount recipient_id st).1 ≠ MainTipped →
  (tip_command user_id amount recipient_id st).2 = st.
Proof.
  unfold tip_command.
  destruct (negb _); [done|]. destruct (Qle_bool _ _); [done|].
  destruct (found_user _) as [r|]; [|done].
  destruct (user_id =? r); [done|].
  by destruct (Qgt_bool _ _).
Qed.

(** X9. A tip moves exactly the amount from the sender to the recipient: the
    sender's balance drops by it and stays non-negative, the recipient's
    grows by it, their sum and every other balance are unchanged.  It
    happens only for a positive amount within the sender's balance and a
    recipient other than the sender; every rejection leaves the state as it
    was. *)
Theorem tip_conserves (user_id recipient : Z) (amount : Q) (st : state) :
  is_Some (balances st !! user_id) →
  is_Some (balances st !! recipient) →
  recipient ≠ 0 →
  let r := tip_command user_id amount (Some recipient) st in
  (r.1 = MainTipped ↔
     (0 < amount <= get_user_balance st user_id)%Q ∧ user_id ≠ recipient)
  ∧ (r.1 ≠ MainTipped → r.2 = st)
  ∧ (r.1 = MainTipped →
     get_user_balance r.2 user_id = (get_user_balance st user_id - amount)%Q
     ∧ get_user_balance r.2 recipient = (get_user_balance st recipient + amount)%Q
     ∧ (0 <= get_user_balance r.2 user_id)%Q
     ∧ (get_user_balance r.2 user_id + get_user_balance r.2 recipient
        == get_user_balance st user_id + get_user_balance st recipient)%Q
     ∧ (∀ u, u ≠ user_id → u ≠ recipient →
             get_user_balance r.2 u = get_user_balance st u)).
Proof.
  intros Hs Hr H0 r.
  split; [|split; [apply tip_rejections|]].
  - unfold r, tip_command, found_user.
    assert (user_exists st user_id = true) as -> by (by apply bool_decide_eq_true).
    assert ((recipient =? 0) = false) as -> by lia. cbn [negb].
    destruct (Qle_bool amount 0) eqn:E0.
    { apply Qle_bool_iff in E0. split; [done|]. intros [[] _]. lra. }
    apply Qle_bool_false in E0.
    destruct (user_id =? recipient) eqn:E1.
    { split; [done|]. intros [_ Hne]. lia. }
    destruct (Qgt_bool amount _) eqn:E2.
    { apply Qgt_bool_iff in E2. split; [done|]. intros [[] _]. lra. }
    apply Qgt_bool_false in E2. split; [|done]. intros _. split; [done|lia].
  - unfold r, tip_command, found_user.
    assert (user_exists st user_id = true) as -> by (by apply bool_decide_eq_true).
    assert ((recipient =? 0) = false) as -> by lia. cbn [negb].
    destruct (Qle_bool amount 0) eqn:E0; [done|].
    destruct (user_id =? recipient) eqn:E1; [done|].
    destruct (Qgt_bool amount _) eqn:E2; [done|].
    apply Qgt_bool_false in E2. intros _. cbn [snd].
    assert (user_id ≠ recipient) as Hne by lia.
    rewrite get_update_ne by done. rewrite get_update_eq by done.
    rewrite get_update_eq by (by apply update_keeps_rows).
    split; [done|]. split; [done|]. split; [lra|]. split; [ring|].
    intros u H1 H2. rewrite get_update_ne by done. by rewrite get_update_ne.
Qed.

Lemma tip_conserves_witness :
  get_user_balance (tip_command alice 4%Q (Some bob) funded).2 alice = (10 - 4)%Q
  ∧ get_user_balance (tip_command alice 4%Q (Some bob) funded).2 bob = (10 + 4)%Q.
Proof.
  destruct (tip_conserves alice bob 4%Q funded) as (_ & _ & H).
  - vm_compute. by eexists.
  - vm_compute. by eexists.
  - discriminate.
  - destruct H as (H1 & H2 & _); [reflexivity|]. split; [exact H1|exact H2].
Defined.

(** X10. The four balance commands of the owner do nothing for anybody
    else.  For the owner, removing from the house is refused when the amount
    exceeds the house balance, so a non-negative house balance stays
    non-negative; removing from a user has no such test: the user's balance
    drops by the amount and becomes negative when the amount exceeds it. *)
Theorem owner_commands (owner_id user_id target : Z) (amount : Q) (house : option Q)
    (st : state) :
  is_Some (balances st !! target) →
  target ≠ 0 →
  (user_id ≠ owner_id →
     add_balance_command owner_id user_id amount (Some target) st = (MainNotAuthorized, st)
     ∧ remove_balance_command owner_id user_id amount (Some target) st
       = (MainNotAuthorized, st)
     ∧ add_house_command owner_id user_id amount house = (MainNotAuthorized, house)
     ∧ remove_house_command owner_id user_id amount house = (MainNotAuthorized, house))
  ∧ ((0 <= get_house_balance house)%Q →
     (0 <= get_house_balance (remove_house_command owner_id user_id amount house).2)%Q)
  ∧ (user_id = owner_id → (0 < amount)%Q →
     get_user_balance (remove_balance_command owner_id user_id amount (Some target) st).2
       target
     = (get_user_balance st target - amount)%Q
     ∧ get_user_balance (add_balance_command owner_id user_id amount (Some target) st).2
         target
       = (get_user_balance st target + amount)%Q
     ∧ ((get_user_balance st target < amount)%Q →
        (get_user_balance
           (remove_balance_command owner_id user_id amount (Some target) st).2 target
         < 0)%Q)
     ∧ ((get_house_balance house < amount)%Q →
        remove_house_command owner_id user_id amount house
        = (MainInsufficientHouse, house))).
Proof.
  intros Hreg H0. split; [|split].
  - intros Hne.
    unfold add_balance_command, remove_balance_command, add_house_command,
      remove_house_command.
    assert ((user_id =? owner_id) = false) as -> by lia. done.
  - intros Hh. unfold remove_house_command.
    destruct (negb _); [done|]. destruct (Qle_bool _ _); [done|].
    destruct (Qgt_bool _ _) eqn:E; [done|].
    apply Qgt_bool_false in E. simpl. lra.
  - intros -> Hpos.
    unfold add_balance_command, remove_balance_command, remove_house_command,
      found_user.
    rewrite Z.eqb_refl. cbn [negb].
    assert (Qle_bool amount 0 = false) as ->.
    { destruct (Qle_bool amount 0) eqn:E; [|done]. apply Qle_bool_iff in E. lra. }
    assert ((target =? 0) = false) as -> by lia. cbn [snd].
    rewrite !get_update_eq by done.
    split; [done|]. split; [done|]. split; [intros Hlt; lra|].
    intros Hlt. apply Qgt_bool_iff in Hlt. by rewrite Hlt.
Qed.

Lemma owner_commands_witness :
  (get_user_balance (remove_balance_command 9 9 25%Q (Some alice) funded).2 alice < 0)%Q
  ∧ remove_house_command 9 9 25%Q (Some 10%Q) = (MainInsufficientHouse, Some 10%Q).
Proof.
  destruct (owner_commands 9 9 alice 25%Q (Some 10%Q) funded) as (_ & _ & H).
  - vm_compute. by eexists.
  - discriminate.
  - destruct H as (_ & _ & H & _); [reflexivity | reflexivity |].
    split; [apply H; reflexivity | reflexivity].
Defined.

(** ** The life of a challenge *)

Lemma button_handler_no_setup v chat_id user_id qmid data t st :
  get_setup v (udata_of st user_id) = None →
  button_handler v chat_id user_id qmid data t st
  = match data with
    | cb_throw turn_round =>
        match v with
        | Darts =>
            dart_throw chat_id user_id qmid turn_round (t_die t) (t_bot_dice t)
                       (t_new_mid t) st
        | Football =>
            football_take_shot chat_id user_id qmid turn_round (t_die t) (t_bot_dice t)
                               (t_new_mid t) st
        end
    | cb_accept game_id => accept v chat_id user_id game_id (t_new_mid t) st
    | cb_cancel_challenge game_id => decline game_id st
    | cb_play_again => play_again v chat_id user_id (t_new_mid t) st
    | cb_double => double v chat_id user_id (t_new_mid t) st
    | _ => (Silent, st)
    end.
Proof. intros H. unfold button_handler. by rewrite H. Qed.

(** X11. Any user without a pending setup can decline a pending challenge,
    not only the challenged one: the challenge is removed and nothing else
    changes (no balance, no session).  After that an accept of the same id,
    by whomever, replies "Challenge no longer valid." and changes nothing. *)
Theorem declined_challenge_is_gone (v : variant) (chat_id caller qmid game_id : Z)
    (t : transport) (st : state) (c : challenge) :
  pending_challenges st !! game_id = Some c →
  get_setup v (udata_of st caller) = None →
  let r := button_handler v chat_id caller qmid (cb_cancel_challenge game_id) t st in
  r.1 = ChallengeDeclined
  ∧ r.2 = set_pending_challenges (delete game_id (pending_challenges st)) st
  ∧ balances r.2 = balances st
  ∧ games r.2 = games st
  ∧ user_games r.2 = user_games st
  ∧ (∀ id, id ≠ game_id → pending_challenges r.2 !! id = pending_challenges st !! id)
  ∧ (∀ w c' responder mid, accept w c' responder game_id mid r.2 = (ChallengeInvalid, r.2))
  ∧ (∀ responder qmid' t',
       get_setup v (udata_of st responder) = None →
       button_handler v chat_id responder qmid' (cb_accept game_id) t' r.2
       = (ChallengeInvalid, r.2)).
Proof.
  intros Hc Hs r.
  assert (r = (ChallengeDeclined,
               set_pending_challenges (delete game_id (pending_challenges st)) st)) as ->.
  { unfold r. rewrite button_handler_no_setup by done. unfold decline. by rewrite Hc. }
  cbn [fst snd]. repeat (split; [done|]).
  split. { intros id Hne. simpl. by rewrite lookup_delete_ne. }
  assert (∀ w c' responder mid,
            accept w c' responder game_id mid
              (set_pending_challenges (delete game_id (pending_challenges st)) st)
            = (ChallengeInvalid,
               set_pending_challenges (delete game_id (pending_challenges st)) st)) as Ha.
  { intros. unfold accept. simpl. by rewrite lookup_delete_eq. }
  split; [done|].
  intros responder qmid' t' Hr. rewrite button_handler_no_setup by done. apply Ha.
Qed.

Lemma declined_challenge_is_gone_witness :
  (button_handler Darts chat carol 32 (cb_cancel_challenge 1) no_dice proposed).1
  = ChallengeDeclined
  ∧ accept Darts chat bob 1 50
      (button_handler Darts chat carol 32 (cb_cancel_challenge 1) no_dice proposed).2
    = (ChallengeInvalid,
       (button_handler Darts chat carol 32 (cb_cancel_challenge 1) no_dice proposed).2).
Proof.
  destruct (declined_challenge_is_gone Darts chat carol 32 1 no_dice proposed
              (Challenge alice bob "normal" 1 5%Q))
    as (H1 & _ & _ & _ & _ & _ & H7 & _).
  - reflexivity.
  - reflexivity.
  - split; [exact H1|]. exact (H7 Darts chat bob 50).
Defined.

(** X12. A challenge is accepted at most once and only by the challenged
    user: an accept by anyone else changes nothing, and after a successful
    accept the id is gone, so a second accept of it replies "Challenge no
    longer valid." and debits nobody again. *)
Theorem accept_once (v : variant) (chat_id user_id game_id new_mid : Z) (st : state)
    (c : challenge) :
  pending_challenges st !! game_id = Some c →
  c_challenged c = user_id →
  user_games st !! (chat_id, c_initiator c) = None →
  user_games st !! (chat_id, user_id) = None →
  let r := accept v chat_id user_id game_id new_mid st in
  r.1 = MatchStarted
  ∧ (∀ w c' u mid, accept w c' u game_id mid r.2 = (ChallengeInvalid, r.2))
  ∧ (∀ w c' u mid, u ≠ user_id → accept w c' u game_id mid st = (Silent, st)).
Proof.
  intros Hc Hch Hi Hu r.
  destruct (accept_started v chat_id user_id game_id new_mid st c)
    as (st' & Hacc & _ & _ & _ & Hp & _); try done.
  unfold r. rewrite Hacc. cbn [fst snd]. split; [done|]. split.
  - intros. unfold accept. by rewrite Hp.
  - intros w c' u mid Hne. unfold accept. rewrite Hc, Hch.
    assert ((u =? user_id) = false) as -> by lia. done.
Qed.

Lemma accept_once_witness :
  accept Darts chat bob 1 51 started = (ChallengeInvalid, started)
  ∧ accept Darts chat carol 1 50 proposed = (Silent, proposed).
Proof.
  destruct (accept_once Darts chat bob 1 50 proposed (Challenge alice bob "normal" 1 5%Q))
    as (_ & H2 & H3); try reflexivity.
  split; [exact (H2 Darts chat bob 51)|]. apply H3. discriminate.
Defined.

(** What a proposal that passes the checks stores and leaves alone. *)
Lemma proposal_stores_challenge_facts (v : variant) (chat_id user_id opponent : Z)
    (st : state) (su : setup) (m : string) (p : Z) :
  get_setup v (udata_of st user_id) = Some su →
  su_initiator su = user_id →
  expecting_username (udata_of st user_id) = true →
  get_mode v (udata_of st user_id) = Some m →
  get_points v (udata_of st user_id) = Some p →
  opponent ≠ user_id →
  (su_bet su <= get_user_balance st opponent)%Q →
  user_games st !! (chat_id, opponent) = None →
  let r := text_handler v chat_id user_id true (Some opponent) st in
  r.1 = ChallengeSent (Z.of_nat (size (pending_challenges st)) + 1)
  ∧ pending_challenges r.2 !! (Z.of_nat (size (pending_challenges st)) + 1)
    = Some (Challenge user_id opponent m p (su_bet su))
  ∧ balances r.2 = balances st
  ∧ games r.2 = games st
  ∧ user_games r.2 = user_games st
  ∧ expecting_username (udata_of r.2 user_id) = false
  ∧ get_setup v (udata_of r.2 user_id) = Some su.
Proof.
  intros Hs Hi He Hm Hp Hne Hb Hu r. unfold r, text_handler.
  rewrite Hs, He, Hi, Z.eqb_refl, Hu, Hm, Hp. cbn [andb negb].
  assert ((opponent =? user_id) = false) as -> by lia.
  assert (Qgt_bool (su_bet su) (get_user_balance st opponent) = false) as ->.
  { destruct (Qgt_bool _ _) eqn:E; [|done]. apply Qgt_bool_iff in E. lra. }
  cbn [fst snd]. unfold next_game_id. split; [done|].
  split. { simpl. by rewrite lookup_insert_eq. }
  repeat (split; [done|]).
  unfold udata_of. simpl. rewrite lookup_insert_eq. simpl.
  split; [done|]. by destruct v.
Qed.

(** X13. A proposal that passes the checks (the caller is expecting a user
    name and owns the setup, the text starts with '@', the named user exists,
    is another user, has at least the wager and has no session) stores the
    challenge with the mode, target and wager of the setup under the id
    [len + 1] and stops expecting a name; nothing is escrowed: no balance, no
    session and no pointer changes.  The proposer's own balance and session
    are not looked at. *)
Theorem proposal_stores_challenge (v : variant) (chat_id user_id opponent : Z)
    (st : state) (su : setup) (m : string) (p : Z) :
  get_setup v (udata_of st user_id) = Some su →
  su_initiator su = user_id →
  expecting_username (udata_of st user_id) = true →
  get_mode v (udata_of st user_id) = Some m →
  get_points v (udata_of st user_id) = Some p →
  opponent ≠ user_id →
  (su_bet su <= get_user_balance st opponent)%Q →
  user_games st !! (chat_id, opponent) = None →
  let r := text_handler v chat_id user_id true (Some opponent) st in
  r.1 = ChallengeSent (Z.of_nat (size (pending_challenges st)) + 1)
  ∧ pending_challenges r.2 !! (Z.of_nat (size (pending_challenges st)) + 1)
    = Some (Challenge user_id opponent m p (su_bet su))
  ∧ balances r.2 = balances st
  ∧ games r.2 = games st
  ∧ user_games r.2 = user_games st
  ∧ expecting_username (udata_of r.2 user_id) = false
  ∧ get_setup v (udata_of r.2 user_id) = Some su.
Proof. exact (proposal_stores_challenge_facts v chat_id user_id opponent st su m p). Qed.

Lemma proposal_stores_challenge_witness :
  proposal1.1 = ChallengeSent 1
  ∧ pending_challenges proposal1.2 !! 1 = Some (Challenge alice bob "normal" 1 1%Q)
  ∧ balances proposal1.2 = balances negotiated.
Proof.
  destruct (proposal_stores_challenge Darts chat alice bob negotiated
              (Setup alice 1%Q (Some 30)) "normal" 1)
    as (H1 & H2 & H3 & _); try reflexivity.
  - discriminate.
  - vm_compute. discriminate.
  - split; [exact H1|]. split; [exact H2|exact H3].
Defined.

(** ** The coin game after the flip *)

(** The state a flip leaves: the game is gone and only the bet is kept in
    the setup. *)
Lemma coin_flip_leaves chat_id user_id qmid r new_mid st game :
  coin_game_of st (chat_id, user_id) = Some game →
  qmid = cg_match_message_id game →
  let res := coin_button_handler chat_id user_id qmid coin_flip r new_mid st in
  coin_game_of res.2 (chat_id, user_id) = None
  ∧ coin_setup (udata_of res.2 user_id) = Some (CoinSetup None (cg_bet game) None None)
  ∧ (∀ u, u ≠ user_id → get_user_balance res.2 u = get_user_balance st u)
  ∧ games res.2 = games st ∧ user_games res.2 = user_games st.
Proof.
  intros Hg -> res. unfold res, coin_button_handler.
  destruct (coin_game_of_Some _ _ _ Hg) as (registered & Hall & Hreg).
  rewrite Hall, Hreg, Z.eqb_refl.
  cbn [negb snd].
  set (st1 := if side_eqb _ _ then _ else _).
  assert (coin_games st1 = coin_games st ∧ games st1 = games st
          ∧ user_games st1 = user_games st
          ∧ ∀ u, u ≠ user_id → get_user_balance st1 u = get_user_balance st u)
    as (Hc & Hgm & Hug & Hb).
  { unfold st1. destruct (side_eqb _ _);
      rewrite update_user_balance_coin_games, update_user_balance_games,
        update_user_balance_user_games;
      (repeat split; [intros u Hu; by apply get_update_ne]). }
  split. { unfold coin_game_of. simpl. rewrite Hc, Hall. simpl. by rewrite lookup_delete_eq. }
  split. { unfold udata_of. simpl. by rewrite lookup_insert_eq. }
  split; [exact Hb|]. by split.
Qed.

(** After a flip the dictionary of coin games is still there, without the
    game. *)
Lemma coin_flip_removes chat_id user_id qmid r new_mid st game :
  coin_game_of st (chat_id, user_id) = Some game →
  qmid = cg_match_message_id game →
  let res := coin_button_handler chat_id user_id qmid coin_flip r new_mid st in
  ∃ registered, coin_games res.2 = Some registered
                ∧ registered !! (chat_id, user_id) = None.
Proof.
  intros Hg -> res. unfold res, coin_button_handler.
  destruct (coin_game_of_Some _ _ _ Hg) as (registered & Hall & Hreg).
  rewrite Hall, Hreg, Z.eqb_refl. cbn [negb snd].
  exists (delete (chat_id, user_id) registered). simpl.
  split; [|by rewrite lookup_delete_eq].
  destruct (side_eqb _ _); by rewrite update_user_balance_coin_games, Hall.
Qed.

(** X15. After a flip the setup dictionary holds the bet only.  The buttons
    that test the setup's owner (cancel, heads/tails, confirm, play vs bot)
    then end in an uncaught KeyError and change nothing; "Play Again" and
    "Double" are the way on: they compare the bet (twice the bet) with the
    current balance, reject it as insufficient without any change, and
    otherwise open a new setup for that bet owned by the player. *)
Theorem coin_after_flip (chat_id user_id qmid : Z) (r : Q) (new_mid : Z) (st : state)
    (game : coin_game) :
  coin_game_of st (chat_id, user_id) = Some game →
  qmid = cg_match_message_id game →
  ¬ (cg_bet game == 0)%Q →
  let st' := (coin_button_handler chat_id user_id qmid coin_flip r new_mid st).2 in
  (∀ q x mid data,
     data = coin_cancel ∨ (∃ s, data = coin_pick s) ∨ data = coin_confirm
     ∨ data = coin_bot →
     coin_button_handler chat_id user_id q data x mid st' = (Raised, st'))
  ∧ (∀ q x mid data bet,
       (data = coin_restart ∧ bet = cg_bet game)
       ∨ (data = coin_double ∧ bet = (cg_bet game * 2)%Q) →
       let res := coin_button_handler chat_id user_id q data x mid st' in
       ((get_user_balance st' user_id < bet)%Q → res = (InsufficientBalance, st'))
       ∧ ((bet <= get_user_balance st' user_id)%Q →
          res.1 = SetupPrompt
          ∧ coin_setup (udata_of res.2 user_id)
            = Some (CoinSetup (Some user_id) bet (Some (Some mid)) None)
          ∧ balances res.2 = balances st'
          ∧ coin_games res.2 = coin_games st')).
Proof.
  intros Hg Hq Hbet st'.
  destruct (coin_flip_leaves chat_id user_id qmid r new_mid st game Hg Hq)
    as (_ & Hs & _).
  fold st' in Hs.
  assert (Qeq_bool (cg_bet game) 0 = false) as Hz.
  { destruct (Qeq_bool _ _) eqn:E; [|done]. by apply Qeq_bool_iff in E. }
  split.
  - intros q x mid data Hd. unfold coin_button_handler. rewrite Hs.
    destruct Hd as [-> | [[s ->] | [-> | ->]]]; done.
  - intros q x mid data bet Hd res. unfold res, coin_button_handler. rewrite Hs.
    cbn [cs_bet]. rewrite Hz.
    destruct Hd as [[-> ->] | [-> ->]].
    + split.
      * intros Hlt. apply Qgt_bool_iff in Hlt. by rewrite Hlt.
      * intros Hle.
        assert (Qgt_bool (cg_bet game) (get_user_balance st' user_id) = false) as ->.
        { destruct (Qgt_bool _ _) eqn:E; [|done]. apply Qgt_bool_iff in E. lra. }
        cbn [fst snd]. split; [done|]. split; [|done].
        unfold udata_of. simpl. by rewrite lookup_insert_eq.
    + split.
      * intros Hlt. apply Qgt_bool_iff in Hlt. by rewrite Hlt.
      * intros Hle.
        assert (Qgt_bool (cg_bet game * 2) (get_user_balance st' user_id) = false) as ->.
        { destruct (Qgt_bool _ _) eqn:E; [|done]. apply Qgt_bool_iff in E. lra. }
        cbn [fst snd]. split; [done|]. split; [|done].
        unfold udata_of. simpl. by rewrite lookup_insert_eq.
Qed.

Lemma coin_after_flip_witness :
  let st := (coin_button_handler chat alice 60 coin_bot 0%Q 61 coin_ready).2 in
  let st' := (coin_button_handler chat alice 60 coin_flip 0.7%Q 62 st).2 in
  coin_button_handler chat alice 62 (coin_pick heads) 0%Q 63 st' = (Raised, st')
  ∧ coin_button_handler chat alice 62 coin_double 0%Q 63 st' = (InsufficientBalance, st').
Proof.
  intros st st'.
  destruct (coin_after_flip chat alice 60 0.7%Q 62 st (CoinGame 5%Q heads 60))
    as (H1 & H2).
  - reflexivity.
  - reflexivity.
  - vm_compute. discriminate.
  - split.
    + apply H1. right. left. by eexists.
    + destruct (H2 62 0%Q 63 coin_double (5 * 2)%Q) as [H _].
      * right. split; reflexivity.
      * apply H. reflexivity.
Defined.

(** ** Who gets the point of a round *)

Lemma evaluate_round_uses_round_point v g chat_id k new_mid st p :
  rolls_needed g <= Z.of_nat (length (at1 (rolls g))) →
  rolls_needed g <= Z.of_nat (length (at2 (rolls g))) →
  round_point v (mode g) (at1 (rolls g)) (at2 (rolls g)) = Some p →
  let g1 := match p with Some s => add_point s g | None => g end in
  evaluate_round v g chat_id k new_mid st
  = if target_reached g1 then settle g1 chat_id k (write_game k g1 st)
    else (RoundResult,
          write_game k
            (with_message_id (Some new_mid)
               (with_round_number (round_number g1 + 1) (clear_rolls g1))) st).
Proof.
  intros H1 H2 Hp g1. unfold evaluate_round.
  assert ((Z.of_nat (length (at1 (rolls g))) <? rolls_needed g) = false) as -> by lia.
  assert ((Z.of_nat (length (at2 (rolls g))) <? rolls_needed g) = false) as -> by lia.
  cbn [orb]. unfold round_point in Hp.
  destruct (computed_scores _ _ _ _) as [[s1 s2]|]; [|done].
  injection Hp as <-. done.
Qed.

(** X16. The darts rule.  In mode "normal" the higher first dart gets the
    point, in mode "double" the higher sum of all darts; every other mode
    name is played as "crazy", where the lower first dart gets it.  Equal
    values give nobody the point.  Without a first dart the modes other than
    "double" raise. *)
Theorem darts_round_point (m : string) (r1 r2 : Z) (l1 l2 : list Z) :
  let p := round_point Darts m (r1 :: l1) (r2 :: l2) in
  (m = "normal"%string →
     (p = Some (Some Player1) ↔ r1 > r2) ∧ (p = Some (Some Player2) ↔ r2 > r1)
     ∧ (p = Some None ↔ r1 = r2)
     ∧ round_point Darts m [] (r2 :: l2) = None
     ∧ round_point Darts m (r1 :: l1) [] = None)
  ∧ (m = "double"%string →
     (p = Some (Some Player1) ↔ sum_rolls (r1 :: l1) > sum_rolls (r2 :: l2))
     ∧ (p = Some (Some Player2) ↔ sum_rolls (r2 :: l2) > sum_rolls (r1 :: l1))
     ∧ (p = Some None ↔ sum_rolls (r1 :: l1) = sum_rolls (r2 :: l2)))
  ∧ (m ≠ "normal"%string → m ≠ "double"%string →
     (p = Some (Some Player1) ↔ r1 < r2) ∧ (p = Some (Some Player2) ↔ r2 < r1)
     ∧ (p = Some None ↔ r1 = r2)
     ∧ round_point Darts m [] (r2 :: l2) = None
     ∧ round_point Darts m (r1 :: l1) [] = None).
Proof.
  intros p. unfold p, round_point, computed_scores, darts_scores, award.
  split; [|split].
  - intros ->. simpl.
    destruct (r1 >? r2) eqn:E1; [|destruct (r2 >? r1) eqn:E2];
      repeat split; intros; try done; try lia.
  - intros ->. cbn [String.eqb Ascii.eqb Bool.eqb andb].
    set (a := sum_rolls (r1 :: l1)). set (b := sum_rolls (r2 :: l2)).
    destruct (a >? b) eqn:E1; [|destruct (b >? a) eqn:E2];
      repeat split; intros; try done; try lia.
  - intros Hn Hd.
    assert ((m =? "normal")%string = false) as -> by (by apply String.eqb_neq).
    assert ((m =? "double")%string = false) as -> by (by apply String.eqb_neq).
    destruct (7 - r1 >? 7 - r2) eqn:E1; [|destruct (7 - r2 >? 7 - r1) eqn:E2];
      repeat split; intros; try done; try lia.
Qed.

Lemma darts_round_point_witness :
  round_point Darts "crazy" [2] [5] = Some (Some Player1)
  ∧ round_point Darts "whatever" [2] [5] = Some (Some Player1).
Proof.
  destruct (darts_round_point "crazy" 2 5 [] []) as (_ & _ & H1).
  destruct (darts_round_point "whatever" 2 5 [] []) as (_ & _ & H2).
  split.
  - apply H1; [discriminate | discriminate | lia].
  - apply H2; [discriminate | discriminate | lia].
Defined.

Lemma sum_filter_goals (l : list Z) :
  0 <= sum_rolls (List.filter (fun roll => 3 <=? roll) l)
  ∧ (sum_rolls (List.filter (fun roll => 3 <=? roll) l) = 0 ↔ Forall (fun x => x < 3) l).
Proof.
  induction l as [|x l [IH0 IH]]; simpl.
  - split; [lia|]. split; [constructor|done].
  - destruct (3 <=? x) eqn:E; simpl.
    + split; [lia|]. split; [lia|]. intros H. inversion H. lia.
    + split; [done|]. rewrite IH. split.
      * intros H. constructor; [lia|done].
      * intros H. by inversion H.
Qed.

(** X17. The football rule gives a point only when exactly one side scores.
    In mode "normal" a shot scores when it is 3 or more, in mode "crazy"
    when it is 1, in mode "double" when any of the shots is 3 or more; the
    size of a scoring shot is irrelevant, so 6 against 3 is a draw.  Any
    other mode name raises. *)
Theorem football_round_point (m : string) (r1 r2 : Z) (l1 l2 : list Z) :
  let p := round_point Football m (r1 :: l1) (r2 :: l2) in
  (m = "normal"%string →
     (p = Some (Some Player1) ↔ 3 <= r1 ∧ r2 < 3)
     ∧ (p = Some (Some Player2) ↔ 3 <= r2 ∧ r1 < 3)
     ∧ (p = Some None ↔ (3 <= r1 ↔ 3 <= r2)))
  ∧ (m = "crazy"%string →
     (p = Some (Some Player1) ↔ r1 = 1 ∧ r2 ≠ 1)
     ∧ (p = Some (Some Player2) ↔ r2 = 1 ∧ r1 ≠ 1)
     ∧ (p = Some None ↔ (r1 = 1 ↔ r2 = 1)))
  ∧ (m = "double"%string →
     (p = Some (Some Player1) ↔
        ¬ Forall (fun x => x < 3) (r1 :: l1) ∧ Forall (fun x => x < 3) (r2 :: l2))
     ∧ (p = Some (Some Player2) ↔
        ¬ Forall (fun x => x < 3) (r2 :: l2) ∧ Forall (fun x => x < 3) (r1 :: l1)))
  ∧ (m ≠ "normal"%string → m ≠ "double"%string → m ≠ "crazy"%string → p = None).
Proof.
  intros p. unfold p, round_point, computed_scores, calculate_effective_score, award.
  split; [|split; [|split]].
  - intros ->. simpl.
    destruct (3 <=? r1) eqn:E1, (3 <=? r2) eqn:E2; simpl.
    + assert ((r1 >? 0) = true) as -> by lia. assert ((r2 =? 0) = false) as -> by lia.
      assert ((r2 >? 0) = true) as -> by lia. assert ((r1 =? 0) = false) as -> by lia.
      simpl. repeat split; intros; try done; lia.
    + assert ((r1 >? 0) = true) as -> by lia. simpl.
      repeat split; intros; try done; lia.
    + assert ((r2 >? 0) = true) as -> by lia. simpl.
      repeat split; intros; try done; lia.
    + simpl. repeat split; intros; try done; lia.
  - intros ->. simpl.
    destruct (r1 =? 1) eqn:E1, (r2 =? 1) eqn:E2; simpl;
      repeat split; intros; try done; lia.
  - intros ->. cbn [String.eqb Ascii.eqb Bool.eqb andb].
    destruct (sum_filter_goals (r1 :: l1)) as [Ha0 Ha].
    destruct (sum_filter_goals (r2 :: l2)) as [Hb0 Hb].
    set (a := sum_rolls (List.filter _ (r1 :: l1))) in *.
    set (b := sum_rolls (List.filter _ (r2 :: l2))) in *.
    rewrite <- Ha, <- Hb.
    destruct (a >? 0) eqn:E1, (b =? 0) eqn:E2, (b >? 0) eqn:E3, (a =? 0) eqn:E4; simpl;
      repeat split; intros; try done; try lia.
  - intros Hn Hd Hc.
    assert ((m =? "normal")%string = false) as -> by (by apply String.eqb_neq).
    assert ((m =? "double")%string = false) as -> by (by apply String.eqb_neq).
    assert ((m =? "crazy")%string = false) as -> by (by apply String.eqb_neq).
    done.
Qed.

Lemma football_round_point_witness :
  round_point Football "normal" [6] [3] = Some None
  ∧ round_point Football "normal" [3] [2] = Some (Some Player1).
Proof.
  destruct (football_round_point "normal" 6 3 [] []) as (H1 & _).
  destruct (football_round_point "normal" 3 2 [] []) as (H2 & _).
  split.
  - apply H1; [reflexivity | lia].
  - apply H2; [reflexivity | lia].
Defined.

(** ** A pending setup and the other buttons *)

Lemma button_handler_with_setup v chat_id user_id qmid data t st su :
  get_setup v (udata_of st user_id) = Some su →
  (∃ n, data = cb_throw n) ∨ (∃ id, data = cb_accept id)
  ∨ (∃ id, data = cb_cancel_challenge id) ∨ data = cb_play_again ∨ data = cb_double →
  button_handler v chat_id user_id qmid data t st = (NotYourSetup, st)
  ∨ button_handler v chat_id user_id qmid data t st = (Silent, st).
Proof.
  intros Hs Hd. unfold button_handler. rewrite Hs.
  destruct (negb (su_initiator su =? user_id)); [by left|].
  destruct (negb (opt_eqb _ _)); [by left|].
  right. destruct Hd as [[n ->] | [[id ->] | [[id ->] | [-> | ->]]]]; done.
Qed.

(** X18. While a user has a setup dictionary, the handler looks at the setup
    buttons only: a throw, an accept or decline of a challenge, "Play Again"
    and "Double" pressed by that user are answered "This is not your game
    setup!" or not at all, and change nothing. *)
Theorem pending_setup_blocks_buttons (v : variant) (chat_id user_id qmid : Z)
    (data : callback) (t : transport) (st : state) (su : setup) :
  get_setup v (udata_of st user_id) = Some su →
  (∃ n, data = cb_throw n) ∨ (∃ id, data = cb_accept id)
  ∨ (∃ id, data = cb_cancel_challenge id) ∨ data = cb_play_again ∨ data = cb_double →
  (button_handler v chat_id user_id qmid data t st).2 = st
  ∧ ((button_handler v chat_id user_id qmid data t st).1 = NotYourSetup
     ∨ (button_handler v chat_id user_id qmid data t st).1 = Silent)
  ∧ (su_message_id su ≠ Some qmid →
     (button_handler v chat_id user_id qmid data t st).1 = NotYourSetup).
Proof.
  intros Hs Hd.
  destruct (button_handler_with_setup v chat_id user_id qmid data t st su Hs Hd)
    as [H | H]; rewrite H; cbn [fst snd].
  - by auto.
  - split; [done|]. split; [by right|]. intros Hne.
    unfold button_handler in H. rewrite Hs in H.
    destruct (negb (su_initiator su =? user_id)); [done|].
    assert (opt_eqb (su_message_id su) (Some qmid) = false) as Hf.
    { destruct (su_message_id su) as [x|]; [|done]. simpl.
      apply Z.eqb_neq. congruence. }
    rewrite Hf in H. done.
Qed.

Lemma pending_setup_blocks_buttons_witness :
  button_handler Darts chat alice 50 (cb_accept 1) no_dice negotiated
  = (NotYourSetup, negotiated).
Proof.
  destruct (pending_setup_blocks_buttons Darts chat alice 50 (cb_accept 1) no_dice
              negotiated (Setup alice 1%Q (Some 30))) as (H1 & _ & H3).
  - reflexivity.
  - right. left. by eexists.
  - rewrite <- H1 at 2. rewrite <- H3; [|discriminate].
    by destruct (button_handler Darts chat alice 50 (cb_accept 1) no_dice negotiated).
Defined.

Lemma throw_by_waiting_player chat_id user_id qmid n d bd mid st k g v :
  user_games st !! (chat_id, user_id) = Some k →
  games st !! k = Some g →
  player_key g user_id = Some Player2 →
  current_player g = Player1 →
  match v with
  | Darts => dart_throw chat_id user_id qmid n d bd mid st
  | Football => football_take_shot chat_id user_id qmid n d bd mid st
  end.2 = st.
Proof.
  intros Hk Hg Hp Hc.
  destruct v; unfold dart_throw, football_take_shot; rewrite Hk, Hg, Hp, Hc;
    destruct (negb (opt_eqb _ _)); try done;
    destruct (target_reached g); try done;
    by destruct (negb (n =? round_number g)).
Qed.

(** ** The registered wrapper and a user without a session *)

(** X20. The wrapper under which the darts, football and coin buttons are
    registered calls the handler only for a user with a registered session
    or with a dice setup on the pressed message.  So the negotiation a game
    command has just opened cannot be continued through the registered
    handler: every button of that user is answered "No active game or setup
    found!" and changes nothing, although the handler itself would accept
    the mode button. *)
Theorem negotiation_unreachable (v : variant) (chat_id user_id : Z) (amount : Q)
    (new_mid : Z) (st : state) :
  (game_command v chat_id user_id amount new_mid st).1 = SetupPrompt →
  dice_setup (udata_of st user_id) = None →
  let st' := (game_command v chat_id user_id amount new_mid st).2 in
  get_setup v (udata_of st' user_id) = Some (Setup user_id amount (Some new_mid))
  ∧ (∀ handler qmid,
       with_game_ownership_check handler chat_id user_id qmid st' = (NoGameOrSetup, st'))
  ∧ (∀ qmid data t,
       registered_button_handler v chat_id user_id qmid data t st' = (NoGameOrSetup, st'))
  ∧ (∀ m t, (button_handler v chat_id user_id new_mid (cb_mode m) t st').1 = SetupPrompt
            ∧ get_mode v (udata_of (button_handler v chat_id user_id new_mid (cb_mode m)
                                       t st').2 user_id) = Some m).
Proof.
  intros Hr Hd st'.
  assert (user_games st !! (chat_id, user_id) = None
          ∧ st' = put_udata user_id
                    (put_setup v (Some (Setup user_id amount (Some new_mid)))
                       (udata_of st user_id)) st) as [Hu Hst'].
  { unfold st'. unfold game_command in *.
    destruct (negb _); [done|]. destruct (Qle_bool _ _); [done|].
    destruct (Qgt_bool _ _); [done|].
    by destruct (user_games st !! (chat_id, user_id)). }
  assert (udata_of st' user_id
          = put_setup v (Some (Setup user_id amount (Some new_mid))) (udata_of st user_id))
    as Hud.
  { rewrite Hst'. unfold udata_of at 1. simpl. by rewrite lookup_insert_eq. }
  assert (get_setup v (udata_of st' user_id) = Some (Setup user_id amount (Some new_mid)))
    as Hs by (rewrite Hud; by destruct v).
  assert (∀ handler qmid,
            with_game_ownership_check handler chat_id user_id qmid st'
            = (NoGameOrSetup, st')) as Hw.
  { intros handler qmid. unfold with_game_ownership_check.
    assert (user_games st' !! (chat_id, user_id) = None) as -> by (by rewrite Hst').
    rewrite Hud.
    assert (dice_setup
              (put_setup v (Some (Setup user_id amount (Some new_mid)))
                 (udata_of st user_id)) = None) as -> by (by destruct v).
    done. }
  split; [done|]. split; [done|]. split.
  - intros qmid data t. apply Hw.
  - intros m t. unfold button_handler. rewrite Hs. cbn [su_initiator su_message_id].
    rewrite Z.eqb_refl. cbn [opt_eqb]. rewrite Z.eqb_refl. cbn [negb fst snd].
    split; [done|]. unfold udata_of at 1. simpl. rewrite lookup_insert_eq. simpl.
    by destruct v.
Qed.

Lemma negotiation_unreachable_witness :
  let st' := (game_command Darts chat alice 1%Q 30 funded3).2 in
  registered_button_handler Darts chat alice 30 (cb_mode "normal") no_dice st'
  = (NoGameOrSetup, st').
Proof.
  intros st'.
  destruct (negotiation_unreachable Darts chat alice 1%Q 30 funded3) as (_ & _ & H & _).
  - reflexivity.
  - reflexivity.
  - exact (H 30 (cb_mode "normal") no_dice).
Defined.

(** ** A failed send for the bot *)

Lemma evaluate_round_replies v g chat_id k new_mid st :
  let r := (evaluate_round v g chat_id k new_mid st).1 in
  r = RollsIncomplete ∨ r = Raised ∨ r = RoundResult ∨ ∃ w, r = GameOver w.
Proof.
  unfold evaluate_round.
  destruct (_ || _); [by left|].
  destruct (computed_scores _ _ _ _) as [[s1 s2]|]; [|right; by left].
  destruct (target_reached _); [|right; right; by left].
  match goal with
  | |- context [settle ?a ?b ?c ?d] => destruct (settle_reply a b c d) as [[w H] | H]
  end; cbn zeta; rewrite H; eauto.
Qed.

Lemma take_turn_out_of_turn v chat_id user_id qmid n d bd mid st k g pk :
  user_games st !! (chat_id, user_id) = Some k →
  games st !! k = Some g →
  player_key g user_id = Some pk →
  current_player g ≠ pk →
  (take_turn v chat_id user_id qmid n d bd mid st).2 = st.
Proof.
  intros Hk Hg Hp Hc.
  assert (slot_eqb pk (current_player g) = false) as Hs
      by (destruct pk, (current_player g); done).
  destruct v; unfold take_turn, dart_throw, football_take_shot; rewrite Hk, Hg, Hp, Hs;
    destruct (negb (opt_eqb _ _)); try done;
    destruct (target_reached g); try done;
    by destruct (negb (n =? round_number g)).
Qed.

(** What is known after the reply "Failed to throw the dart for the bot":
    the turn has passed to the bot and only the game was stored. *)
Lemma bot_throw_failed_state v chat_id user_id qmid n d bd mid st :
  (take_turn v chat_id user_id qmid n d bd mid st).1 = BotThrowFailed →
  ∃ k g g2,
    user_games st !! (chat_id, user_id) = Some k
    ∧ games st !! k = Some g
    ∧ player_key g user_id = Some Player1
    ∧ player1 g2 = player1 g ∧ player2 g2 = player2 g ∧ player2 g = None
    ∧ current_player g2 = Player2
    ∧ (take_turn v chat_id user_id qmid n d bd mid st).2 = write_game k g2 st.
Proof.
  assert (∀ w g c k m s, (evaluate_round w g c k m s).1 ≠ BotThrowFailed) as Hev.
  { intros w g c k m s H.
    destruct (evaluate_round_replies w g c k m s) as [H1 | [H1 | [H1 | [x H1]]]];
      cbn zeta in H1; congruence. }
  destruct v; unfold take_turn, dart_throw, football_take_shot.
  - destruct (user_games st !! _) as [k|] eqn:Hk; [|done].
    destruct (games st !! k) as [g|] eqn:Hg; [|done].
    destruct (negb (opt_eqb _ _)); [done|].
    destruct (target_reached g); [done|].
    destruct (player_key g user_id) as [pk|] eqn:Hp; [|done].
    destruct (negb (n =? _)); [done|].
    destruct (negb (slot_eqb _ _)); [done|].
    destruct d as [x|]; [|done].
    destruct (both_complete _); [intros H; by apply Hev in H|].
    destruct (_ <? _); [done|].
    destruct pk; [|done]. cbn [other_slot player_of with_current_player player2
                                append_roll with_rolls].
    destruct (player2 g) eqn:Hp2; [done|].
    destruct (bot_throws _ _); [intros H; by apply Hev in H|].
    intros _. by exists k, g, (with_current_player Player2 (append_roll Player1 x g)).
  - destruct (user_games st !! _) as [k|] eqn:Hk; [|done].
    destruct (games st !! k) as [g|] eqn:Hg; [|done].
    destruct (negb (opt_eqb _ _)); [done|].
    destruct (target_reached g); [done|].
    destruct (player_key g user_id) as [pk|] eqn:Hp; [|done].
    destruct (negb (n =? _)); [done|].
    destruct (negb (slot_eqb _ _)); [done|].
    destruct d as [x|]; [|done].
    destruct (_ <? _); [done|].
    destruct pk.
    + cbn [other_slot player_of with_current_player player2 append_roll with_rolls].
      destruct (player2 g) eqn:Hp2.
      * destruct (both_complete _); [intros H; by apply Hev in H|done].
      * destruct (bot_throws _ _).
        -- destruct (both_complete _); [intros H; by apply Hev in H|done].
        -- intros _.
           by exists k, g, (with_current_player Player2 (append_roll Player1 x g)).
    + cbn [other_slot player_of].
      destruct (both_complete _); [intros H; by apply Hev in H|done].
Qed.

(** X21. When the send of a die for the bot fails, the handler has already
    passed the turn to the bot and returns.  From then on the session is
    stuck: every later turn of the player, whatever message, round or die, is
    refused and changes nothing, and the player cannot begin another match
    in that chat ("You are already in a game!").  No balance changed in the
    failed turn, so the wager debited at the start stays debited. *)
Theorem failed_bot_throw_strands_session (v : variant) (chat_id user_id qmid n : Z)
    (d : option Z) (bd : list (option Z)) (mid : Z) (st : state) :
  let r := take_turn v chat_id user_id qmid n d bd mid st in
  r.1 = BotThrowFailed →
  balances r.2 = balances st
  ∧ is_Some (user_games r.2 !! (chat_id, user_id))
  ∧ (∀ qmid' n' d' bd' mid',
       (take_turn v chat_id user_id qmid' n' d' bd' mid' r.2).2 = r.2
       ∧ ∀ w, (take_turn v chat_id user_id qmid' n' d' bd' mid' r.2).1 ≠ GameOver w)
  ∧ (∀ w mid', start_game_against_bot w chat_id user_id mid' r.2 = (AlreadyInGame, r.2)).
Proof.
  intros r Hr.
  destruct (bot_throw_failed_state v chat_id user_id qmid n d bd mid st Hr)
    as (k & g & g2 & Hk & Hg & Hp & H1 & H2 & Hbot & Hc & Hst).
  fold r in Hst. rewrite Hst.
  assert (user_games (write_game k g2 st) !! (chat_id, user_id) = Some k) as Hk' by done.
  assert (games (write_game k g2 st) !! k = Some g2) as Hg'
      by (simpl; by rewrite lookup_insert_eq).
  assert (player_key g2 user_id = Some Player1) as Hp'.
  { unfold player_key in *. by rewrite H1, H2. }
  split; [done|]. split; [by eexists|]. split.
  - intros qmid' n' d' bd' mid'.
    pose proof (take_turn_out_of_turn v chat_id user_id qmid' n' d' bd' mid'
                  (write_game k g2 st) k g2 Player1 Hk' Hg' Hp') as Hout.
    split; [apply Hout; by rewrite Hc|].
    intros w.
    destruct v; unfold take_turn, dart_throw, football_take_shot;
      rewrite Hk', Hg', Hp', Hc; cbn [slot_eqb negb];
      destruct (negb (opt_eqb _ _)); try done;
      destruct (target_reached g2); try done;
      by destruct (negb (n' =? round_number g2)).
  - intros w mid'. unfold start_game_against_bot. by rewrite Hk'.
Qed.

Lemma failed_bot_throw_strands_session_witness :
  let st := (start_game_against_bot Darts chat alice 50 darts_ready).2 in
  let r := take_turn Darts chat alice 50 1 (Some 4) [None] 51 st in
  (take_turn Darts chat alice 50 1 (Some 4) [Some 2] 52 r.2).2 = r.2.
Proof.
  intros st r.
  destruct (failed_bot_throw_strands_session Darts chat alice 50 1 (Some 4) [None] 51 st)
    as (_ & _ & H & _).
  - reflexivity.
  - exact (proj1 (H 50 1 (Some 4) [Some 2] 52)).
Defined.

(** ** A one-point darts match against the bot, from start to end *)

(** The throw that follows the start of a one-point "normal" bot match is
    the evaluation of the round with the two darts. *)
Lemma first_throw_evaluates chat_id user_id new_mid mid2 x y st su :
  user_games st !! (chat_id, user_id) = None →
  get_setup Darts (udata_of st user_id) = Some su →
  get_mode Darts (udata_of st user_id) = Some "normal"%string →
  get_points Darts (udata_of st user_id) = Some 1 →
  let s1 := (start_game_against_bot Darts chat_id user_id new_mid st).2 in
  dart_throw chat_id user_id new_mid 1 (Some x) [Some y] mid2 s1
  = evaluate_round Darts
      (Game user_id None "normal" 1 (su_bet su) (PerSlot 0 0) Player2 (PerSlot [x] [y])
            1 (PerSlot 1 1) 1 (Some new_mid))
      chat_id (chat_id, user_id, None) mid2 s1.
Proof.
  intros Hu Hs Hm Hp s1.
  destruct (start_game_started Darts chat_id user_id new_mid st su "normal" 1)
    as (st' & Hst & Hg & Hk & _); try done.
  unfold s1. rewrite Hst. cbn [snd].
  unfold dart_throw. rewrite Hk, Hg. unfold new_game, with_message_id, player_key.
  simpl. rewrite !Z.eqb_refl. simpl. reflexivity.
Qed.

(** X22. A one-point darts match in mode "normal" against the bot, played
    from a registered player's setup: the start debits the wager; one throw
    [x] against the bot's [y] then ends the match when the darts differ.  If
    [x > y] the player wins and ends 1.92 wagers above the balance before
    the match; if [y > x] the bot wins and the player ends one wager below
    it; in both cases the session is removed and the summary names the bot.
    Equal darts leave the session running in round 2 with the wager still
    debited. *)
Theorem bot_match_in_one_round (chat_id user_id new_mid mid2 x y : Z) (st : state)
    (su : setup) :
  user_games st !! (chat_id, user_id) = None →
  get_setup Darts (udata_of st user_id) = Some su →
  get_mode Darts (udata_of st user_id) = Some "normal"%string →
  get_points Darts (udata_of st user_id) = Some 1 →
  is_Some (balances st !! user_id) →
  let s1 := (start_game_against_bot Darts chat_id user_id new_mid st).2 in
  let r := dart_throw chat_id user_id new_mid 1 (Some x) [Some y] mid2 s1 in
  (x > y →
     r.1 = GameOver Player1
     ∧ (get_user_balance r.2 user_id == get_user_balance st user_id + su_bet su * 1.92)%Q
     ∧ user_games r.2 !! (chat_id, user_id) = None
     ∧ last_game_of r.2 chat_id user_id = Some (LastGame None "normal" 1 (su_bet su))
     ∧ games r.2 !! (chat_id, user_id, None) = None)
  ∧ (y > x →
     r.1 = GameOver Player2
     ∧ get_user_balance r.2 user_id = (get_user_balance st user_id - su_bet su)%Q
     ∧ user_games r.2 !! (chat_id, user_id) = None
     ∧ last_game_of r.2 chat_id user_id = Some (LastGame None "normal" 1 (su_bet su))
     ∧ games r.2 !! (chat_id, user_id, None) = None)
  ∧ (x = y →
     r.1 = RoundResult
     ∧ get_user_balance r.2 user_id = (get_user_balance st user_id - su_bet su)%Q
     ∧ games r.2 !! (chat_id, user_id, None)
       = Some (Game user_id None "normal" 1 (su_bet su) (PerSlot 0 0) Player1
                    (PerSlot [] []) 1 (PerSlot 0 0) 2 (Some mid2))).
Proof.
  intros Hu Hs Hm Hp Hreg s1 r.
  pose proof (first_throw_evaluates chat_id user_id new_mid mid2 x y st su Hu Hs Hm Hp)
    as Hr.
  fold s1 in Hr. fold r in Hr.
  destruct (start_game_started Darts chat_id user_id new_mid st su "normal" 1)
    as (st' & Hst & Hg & Hk & _ & _ & Hb); try done.
  destruct (start_game_debit Darts chat_id user_id new_mid st su "normal" 1)
    as [Hd _]; try done.
  assert (s1 = st') as Hs1 by (unfold s1; by rewrite Hst).
  fold s1 in Hd. rewrite <- Hs1 in Hg, Hk, Hb.
  assert (is_Some (balances s1 !! user_id)) as Hreg1.
  { rewrite Hb. by apply update_keeps_rows. }
  set (g := Game user_id None "normal" 1 (su_bet su) (PerSlot 0 0) Player2
                 (PerSlot [x] [y]) 1 (PerSlot 1 1) 1 (Some new_mid)) in *.
  split; [|split].
  - intros Hxy.
    destruct (evaluate_round_settles Darts g chat_id (chat_id, user_id, None) mid2 s1
                x y Player1)
      as (s2 & He & Hc & _ & Hl & _ & Hug & _ & Hgm & _);
      [ simpl; lia | simpl; lia | reflexivity
      | simpl; by assert ((x >? y) = true) as -> by lia
      | reflexivity | simpl; lia
      | cbn [player1 g]; rewrite Hk; by eexists
      | intros p2 [=]
      | intros u [= <-]; done | ].
    unfold r. rewrite Hr, He. cbn [fst snd]. split; [done|]. split.
    + rewrite (Hc user_id eq_refl), Hd. simpl. ring.
    + split; [exact Hug|]. split; [exact Hl|exact Hgm].
  - intros Hxy.
    destruct (evaluate_round_settles Darts g chat_id (chat_id, user_id, None) mid2 s1
                x y Player2)
      as (s2 & He & _ & Hn & Hl & _ & Hug & _ & Hgm & _);
      [ simpl; lia | simpl; lia | reflexivity
      | simpl; assert ((x >? y) = false) as -> by lia;
        by assert ((y >? x) = true) as -> by lia
      | reflexivity | simpl; lia
      | cbn [player1 g]; rewrite Hk; by eexists
      | intros p2 [=]
      | intros u [=] | ].
    unfold r. rewrite Hr, He. cbn [fst snd]. split; [done|]. split.
    + rewrite Hn by done. exact Hd.
    + split; [exact Hug|]. split; [exact Hl|exact Hgm].
  - intros ->. unfold r. rewrite Hr. unfold evaluate_round, g. simpl.
    assert ((y >? y) = false) as -> by lia. simpl.
    split; [done|]. split; [exact Hd|]. by rewrite lookup_insert_eq.
Qed.

Lemma bot_match_in_one_round_witness :
  let s1 := (start_game_against_bot Darts chat alice 50 darts_ready).2 in
  let r := dart_throw chat alice 50 1 (Some 6) [Some 2] 51 s1 in
  r.1 = GameOver Player1
  ∧ (get_user_balance r.2 alice == 10 + 5 * 1.92)%Q.
Proof.
  intros s1 r.
  destruct (bot_match_in_one_round chat alice 50 51 6 2 darts_ready
              (Setup alice 5%Q (Some 30))) as (H & _); try reflexivity.
  - vm_compute. by eexists.
  - destruct H as (H1 & H2 & _); [lia|]. split; [exact H1|exact H2].
Defined.

(** ** Consistency of the registries *)

Lemma consistent_ext st st' :
  games st' = games st → user_games st' = user_games st →
  pending_challenges st' = pending_challenges st → last_games st' = last_games st →
  consistent st → consistent st'.
Proof.
  intros Hg Hu Hp Hl (H1 & H2 & H3). unfold consistent, registry_ok, challenges_ok,
    summaries_ok, last_game_of in *. rewrite Hg, Hu, Hp, Hl. done.
Qed.

Lemma registry_ok_write_game st k g g' :
  registry_ok st → games st !! k = Some g →
  player1 g' = player1 g → player2 g' = player2 g →
  registry_ok (write_game k g' st).
Proof.
  intros Hreg Hg H1 H2 c u k' Hk'. simpl in Hk'.
  destruct (Hreg c u k' Hk') as (g0 & Hg0 & Hkey & Hpl & Hp1 & Hp2).
  destruct (decide (k' = k)) as [->|Hne].
  - assert (g0 = g) as -> by congruence.
    exists g'. simpl. rewrite lookup_insert_eq, H1, H2. done.
  - exists g0. simpl. rewrite lookup_insert_ne by done. done.
Qed.

Lemma consistent_write_game st k g g' :
  consistent st → games st !! k = Some g →
  player1 g' = player1 g → player2 g' = player2 g →
  consistent (write_game k g' st).
Proof.
  intros (H1 & H2 & H3) Hg Hp1 Hp2. split; [|done].
  by eapply registry_ok_write_game.
Qed.

Lemma last_game_of_record chat u lg st c u' :
  last_game_of (record_last_game chat u lg st) c u'
  = if decide (c = chat ∧ u' = u) then Some lg else last_game_of st c u'.
Proof.
  unfold last_game_of, record_last_game. simpl.
  destruct (decide (c = chat)) as [->|Hc].
  - rewrite lookup_insert_eq. simpl.
    destruct (decide (u' = u)) as [->|Hu].
    + rewrite lookup_insert_eq. by rewrite decide_True.
    + rewrite lookup_insert_ne by done. rewrite decide_False by tauto. done.
  - rewrite lookup_insert_ne by done. rewrite decide_False by tauto. done.
Qed.

Lemma last_game_of_ext st' st c u :
  last_games st' = last_games st → last_game_of st' c u = last_game_of st c u.
Proof. unfold last_game_of. by intros ->. Qed.

(** The whole state [settle] leaves when the pointers of the session are in
    the registry. *)
Lemma settle_state g chat_id k st :
  user_games st !! (chat_id, player1 g) = Some k →
  (∀ q, player2 g = Some q → user_games st !! (chat_id, q) = Some k ∧ q ≠ player1 g) →
  is_Some (games st !! k) →
  ∃ st',
    (settle g chat_id k st).2 = st'
    ∧ games st' = delete k (games st)
    ∧ user_games st'
      = delete (chat_id, player1 g)
          (match player2 g with
           | Some q => delete (chat_id, q) (user_games st)
           | None => user_games st
           end)
    ∧ pending_challenges st' = pending_challenges st
    ∧ (∀ c u, last_game_of st' c u
              = if decide (c = chat_id ∧ player2 g = Some u)
                then Some (LastGame (Some (player1 g)) (mode g) (points_to_win g) (bet g))
                else if decide (c = chat_id ∧ u = player1 g)
                     then Some (LastGame (player2 g) (mode g) (points_to_win g) (bet g))
                     else last_game_of st c u).
Proof.
  intros H1 H2 Hk. unfold settle.
  set (winner := if at1 (scores g) >? at2 (scores g) then Player1 else Player2).
  change (match player_of g winner with
          | Some w => update_user_balance w
                        (get_user_balance st w + bet g * multiplier + bet g)%Q st
          | None => st
          end) with (credited g winner st).
  set (st1 := credited g winner st).
  assert (user_games st1 = user_games st) as Hu1 by apply credited_user_games.
  assert (games st1 = games st) as Hg1 by apply credited_games.
  assert (last_games st1 = last_games st) as Hl1 by apply credited_last_games.
  assert (pending_challenges st1 = pending_challenges st) as Hp1.
  { unfold st1, credited. destruct (player_of g winner); [|done].
    apply update_user_balance_pending. }
  assert (∀ c u, last_game_of st1 c u = last_game_of st c u) as Hlg.
  { intros. unfold last_game_of. by rewrite Hl1. }
  destruct (player2 g) as [q|] eqn:Hq.
  - destruct (H2 q eq_refl) as [Hq1 Hne].
    rewrite del_user_game_Some by (simpl; rewrite Hu1; by eexists).
    rewrite del_user_game_Some.
    2:{ simpl. rewrite lookup_delete_ne by congruence. rewrite Hu1. by eexists. }
    rewrite del_game_Some by (simpl; by rewrite Hg1).
    eexists. split; [reflexivity|].
    split; [simpl; by rewrite Hg1|]. split; [simpl; by rewrite Hu1|].
    split; [simpl; by rewrite Hp1|].
    intros c u.
    rewrite (last_game_of_ext _
               (record_last_game chat_id q
                  (LastGame (Some (player1 g)) (mode g) (points_to_win g) (bet g))
                  (record_last_game chat_id (player1 g)
                     (LastGame (Some q) (mode g) (points_to_win g) (bet g)) st1)))
      by reflexivity.
    rewrite !last_game_of_record, Hlg.
    destruct (decide (c = chat_id ∧ u = q)) as [[-> ->]|Hd1].
    + rewrite decide_True by done. done.
    + rewrite (decide_False (P := c = chat_id ∧ Some q = Some u))
        by (intros [? [= ->]]; by apply Hd1).
      done.
  - rewrite del_user_game_Some by (simpl; rewrite Hu1; by eexists).
    rewrite del_game_Some by (simpl; by rewrite Hg1).
    eexists. split; [reflexivity|].
    split; [simpl; by rewrite Hg1|]. split; [simpl; by rewrite Hu1|].
    split; [simpl; by rewrite Hp1|].
    intros c u.
    rewrite (last_game_of_ext _
               (record_last_game chat_id (player1 g)
                  (LastGame None (mode g) (points_to_win g) (bet g)) st1))
      by reflexivity.
    rewrite last_game_of_record, Hlg.
    rewrite (decide_False (P := c = chat_id ∧ None = Some u)) by (intros [? [=]]).
    done.
Qed.

Lemma consistent_settle g chat_id k st :
  consistent st →
  games st !! k = Some g →
  k = (chat_id, player1 g, player2 g) →
  user_games st !! (chat_id, player1 g) = Some k →
  (∀ q, player2 g = Some q → user_games st !! (chat_id, q) = Some k ∧ q ≠ player1 g) →
  consistent (settle g chat_id k st).2.
Proof.
  intros (Hreg & Hch & Hsum) Hg Hkey H1 H2.
  destruct (settle_state g chat_id k st H1 H2) as (st' & -> & Hg' & Hu' & Hp' & Hl');
    [by eexists|].
  assert (∀ key k', user_games st' !! key = Some k' →
                    user_games st !! key = Some k' ∧ key ≠ (chat_id, player1 g)
                    ∧ ∀ q, player2 g = Some q → key ≠ (chat_id, q)) as Hback.
  { intros key k' Hk'. rewrite Hu' in Hk'.
    apply lookup_delete_Some in Hk' as [Hn1 Hk'].
    destruct (player2 g) as [q|].
    - apply lookup_delete_Some in Hk' as [Hn2 Hk'].
      split; [done|]. split; [done|]. by intros ? [= <-].
    - split; [done|]. split; [done|]. by intros ? [=]. }
  assert (∀ key k', user_games st !! key = Some k' → k' ≠ k →
                    user_games st' !! key = Some k') as Hfwd.
  { intros key k' Hk' Hne. rewrite Hu'.
    rewrite lookup_delete_ne by (intros <-; congruence).
    destruct (player2 g) as [q|] eqn:Hq; [|done].
    rewrite lookup_delete_ne; [done|]. intros <-.
    destruct (H2 q eq_refl) as [Hq' _]. congruence. }
  split; [|split].
  - intros c u k' Hk'.
    destruct (Hback _ _ Hk') as (Hst & Hn1 & Hn2).
    destruct (Hreg c u k' Hst) as (g0 & Hg0 & Hkey0 & Hpl & Hp1 & Hp2).
    assert (k' ≠ k) as Hne.
    { intros ->. assert (g0 = g) as -> by congruence.
      rewrite Hkey in Hkey0. injection Hkey0 as <-.
      destruct Hpl as [-> | Hpl]; [done|]. by apply (Hn2 u). }
    exists g0. rewrite Hg', lookup_delete_ne by done.
    split; [done|]. split; [done|]. split; [done|]. split; [by apply Hfwd|].
    intros q Hq. destruct (Hp2 q Hq) as [Hq1 Hq2]. split; [by apply Hfwd|done].
  - unfold challenges_ok. by rewrite Hp'.
  - intros c u lg Hlg. rewrite Hl' in Hlg.
    destruct (decide (c = chat_id ∧ player2 g = Some u)) as [[-> Hq]|Hd1].
    + injection Hlg as <-. simpl. destruct (H2 u Hq) as [_ Hne]. congruence.
    + destruct (decide (c = chat_id ∧ u = player1 g)) as [[-> ->]|Hd2].
      * injection Hlg as <-. simpl. intros Hq. by destruct (H2 _ Hq).
      * by eapply Hsum.
Qed.

Lemma consistent_evaluate_round v g g0 chat_id u k new_mid st :
  consistent st →
  user_games st !! (chat_id, u) = Some k →
  games st !! k = Some g0 →
  player1 g = player1 g0 → player2 g = player2 g0 →
  consistent (evaluate_round v g chat_id k new_mid st).2.
Proof.
  intros Hc Hk Hg0 Hp1 Hp2.
  pose proof Hc as (Hreg & _).
  destruct (Hreg chat_id u k Hk) as (g' & Hg' & Hkey & _ & Hu1 & Hu2).
  assert (g' = g0) as -> by congruence.
  unfold evaluate_round.
  destruct (_ || _); [by eapply consistent_write_game|].
  destruct (computed_scores _ _ _ _) as [[s1 s2]|]; [|by eapply consistent_write_game].
  set (g1 := match award v s1 s2 with Some s => add_point s g | None => g end).
  assert (player1 g1 = player1 g0 ∧ player2 g1 = player2 g0) as [Hq1 Hq2].
  { unfold g1. destruct (award v s1 s2) as [[]|]; done. }
  destruct (target_reached g1); [|by eapply consistent_write_game].
  apply consistent_settle.
  - by eapply consistent_write_game.
  - simpl. by rewrite lookup_insert_eq.
  - by rewrite Hq1, Hq2.
  - simpl. by rewrite Hq1.
  - intros q Hq. simpl. rewrite Hq1. apply Hu2. by rewrite <- Hq2.
Qed.

Lemma consistent_take_turn v chat_id user_id qmid n d bd mid st :
  consistent st → consistent (take_turn v chat_id user_id qmid n d bd mid st).2.
Proof.
  intros Hc. destruct v; unfold take_turn, dart_throw, football_take_shot.
  - destruct (user_games st !! _) as [k|] eqn:Hk; [|done].
    destruct (games st !! k) as [g|] eqn:Hg; [|done].
    destruct (negb (opt_eqb _ _)); [done|].
    destruct (target_reached g); [done|].
    destruct (player_key g user_id) as [pk|]; [|done].
    destruct (negb (n =? _)); [done|].
    destruct (negb (slot_eqb _ _)); [done|].
    destruct d as [x|]; [|done].
    destruct (both_complete _); [by eapply consistent_evaluate_round|].
    destruct (_ <? _); [by eapply consistent_write_game|].
    destruct (player_of _ _); [by eapply consistent_write_game|].
    destruct (bot_throws _ _); [|by eapply consistent_write_game].
    by eapply consistent_evaluate_round.
  - destruct (user_games st !! _) as [k|] eqn:Hk; [|done].
    destruct (games st !! k) as [g|] eqn:Hg; [|done].
    destruct (negb (opt_eqb _ _)); [done|].
    destruct (target_reached g); [done|].
    destruct (player_key g user_id) as [pk|]; [|done].
    destruct (negb (n =? _)); [done|].
    destruct (negb (slot_eqb _ _)); [done|].
    destruct d as [x|]; [|done].
    destruct (_ <? _); [by eapply consistent_write_game|].
    set (g2 := with_current_player (other_slot pk) (append_roll pk x g)).
    destruct (player_of g2 (other_slot pk)).
    + destruct (both_complete g2); [by eapply consistent_evaluate_round|].
      by eapply consistent_write_game.
    + destruct (bot_throws _ _) as [l|]; [|by eapply consistent_write_game].
      destruct (both_complete _); [by eapply consistent_evaluate_round|].
      by eapply consistent_write_game.
Qed.

Lemma consistent_put_udata u ud st : consistent st → consistent (put_udata u ud st).
Proof. by apply consistent_ext. Qed.

Lemma consistent_start v chat_id user_id new_mid st :
  consistent st → consistent (start_game_against_bot v chat_id user_id new_mid st).2.
Proof.
  intros Hc. unfold start_game_against_bot.
  destruct (user_games st !! (chat_id, user_id)) eqn:Hu; [done|].
  destruct (get_setup v (udata_of st user_id)) as [su|]; [|done].
  destruct (get_mode v (udata_of st user_id)) as [m|]; [|done].
  destruct (get_points v (udata_of st user_id)) as [p|]; [|done].
  cbn [snd]. apply consistent_put_udata.
  set (k := (chat_id, user_id, None) : game_key).
  set (g := new_game user_id None m p (su_bet su)).
  set (st2 := set_user_games _ (write_game k g st)).
  set (st3 := update_user_balance user_id _ st2).
  destruct Hc as (Hreg & Hch & Hsum).
  assert (games st3 = games st2 ∧ user_games st3 = user_games st2
          ∧ pending_challenges st3 = pending_challenges st2
          ∧ last_games st3 = last_games st2) as (E1 & E2 & E3 & E4).
  { unfold st3. by rewrite update_user_balance_games, update_user_balance_user_games,
      update_user_balance_pending, update_user_balance_last_games. }
  split; [|split].
  - intros c u k' Hk'. simpl in Hk'. rewrite E2 in Hk'. simpl in Hk'.
    simpl. rewrite E1, E2. simpl. rewrite insert_insert_eq.
    destruct (decide ((c, u) = (chat_id, user_id))) as [[= -> ->]|Hne].
    + rewrite lookup_insert_eq in Hk'. injection Hk' as <-.
      exists (with_message_id (Some new_mid) g). rewrite !lookup_insert_eq.
      repeat split; try done; by left.
    + rewrite lookup_insert_ne in Hk' by done.
      destruct (Hreg c u k' Hk') as (g0 & Hg0 & Hkey & Hpl & Hp1 & Hp2).
      assert (k' ≠ k) as Hnk.
      { intros ->. unfold k in Hkey. injection Hkey as Ea Eb Ec.
        rewrite <- Ea, <- Eb in Hp1. congruence. }
      exists g0. rewrite lookup_insert_ne by done.
      split; [done|]. split; [done|]. split; [done|]. split.
      * rewrite lookup_insert_ne; [done|]. intros E. rewrite <- E in Hp1. congruence.
      * intros q Hq. destruct (Hp2 q Hq) as [Hq1 Hq2]. split; [|done].
        rewrite lookup_insert_ne; [done|]. intros E. rewrite <- E in Hq1. congruence.
  - intros id c Hc. apply (Hch id c). simpl in Hc. by rewrite E3 in Hc.
  - intros c u lg Hl. apply (Hsum c u lg). unfold last_game_of in *. simpl in Hl.
    by rewrite E4 in Hl.
Qed.

Lemma consistent_accept v chat_id user_id game_id new_mid st :
  consistent st → consistent (accept v chat_id user_id game_id new_mid st).2.
Proof.
  intros Hc. unfold accept.
  destruct (pending_challenges st !! game_id) as [c|] eqn:Hp; [|done].
  destruct (user_id =? c_challenged c) eqn:Heq; [|done]. cbn [negb].
  apply Z.eqb_eq in Heq.
  destruct (user_games st !! (chat_id, c_initiator c)) eqn:Hi; [done|].
  destruct (user_games st !! (chat_id, user_id)) eqn:Hu; [done|].
  cbn [snd].
  destruct Hc as (Hreg & Hch & Hsum).
  assert (c_initiator c ≠ user_id) as Hne by (rewrite Heq; by eapply Hch).
  set (k := (chat_id, c_initiator c, Some user_id) : game_key).
  set (g := new_game (c_initiator c) (Some user_id) (c_mode c) (c_points_to_win c)
                     (c_bet c)).
  set (st2 := set_user_games _ (write_game k g st)).
  set (st3 := update_user_balance (c_initiator c) _ st2).
  set (st4 := update_user_balance user_id _ st3).
  set (st6 := set_pending_challenges _ (write_game k _ st4)).
  assert (games st4 = games st2 ∧ user_games st4 = user_games st2
          ∧ pending_challenges st4 = pending_challenges st2
          ∧ last_games st4 = last_games st2) as (E1 & E2 & E3 & E4).
  { unfold st4, st3. by rewrite !update_user_balance_games,
      !update_user_balance_user_games, !update_user_balance_pending,
      !update_user_balance_last_games. }
  assert (consistent st6) as H6.
  { split; [|split].
    - intros c' u k' Hk'. simpl in Hk'. rewrite E2 in Hk'. simpl in Hk'.
      simpl. rewrite E1, E2. simpl. rewrite insert_insert_eq.
      destruct (decide ((c', u) = (chat_id, user_id))) as [[= -> ->]|Hn1].
      + rewrite lookup_insert_eq in Hk'. injection Hk' as <-.
        exists (with_message_id (Some new_mid) g). rewrite !lookup_insert_eq.
        split; [done|]. split; [done|]. split; [by right|]. split.
        * simpl. rewrite lookup_insert_ne by congruence. by rewrite lookup_insert_eq.
        * intros q Hq. simpl in Hq. injection Hq as <-. simpl.
          split; [by rewrite lookup_insert_eq|congruence].
      + rewrite lookup_insert_ne in Hk' by done.
        destruct (decide ((c', u) = (chat_id, c_initiator c))) as [[= -> ->]|Hn2].
        * rewrite lookup_insert_eq in Hk'. injection Hk' as <-.
          exists (with_message_id (Some new_mid) g). rewrite !lookup_insert_eq.
          split; [done|]. split; [done|]. split; [by left|]. split.
          -- simpl. rewrite lookup_insert_ne by congruence. by rewrite lookup_insert_eq.
          -- intros q Hq. simpl in Hq. injection Hq as <-. simpl.
             split; [by rewrite lookup_insert_eq|congruence].
        * rewrite lookup_insert_ne in Hk' by done.
          destruct (Hreg c' u k' Hk') as (g0 & Hg0 & Hkey & Hpl & Hp1 & Hp2).
          assert (k' ≠ k) as Hnk.
          { intros ->. unfold k in Hkey. injection Hkey as Ea Eb Ec.
        rewrite <- Ea, <- Eb in Hp1. congruence. }
          assert (∀ key, user_games st !! key = Some k' →
                         <[(chat_id, user_id):=k]>
                           (<[(chat_id, c_initiator c):=k]> (user_games st)) !! key
                         = Some k') as Hfwd.
          { intros key Hkey'.
            rewrite lookup_insert_ne by (intros <-; congruence).
            rewrite lookup_insert_ne by (intros <-; congruence). done. }
          exists g0. rewrite lookup_insert_ne by done.
          split; [done|]. split; [done|]. split; [done|]. split; [by apply Hfwd|].
          intros q Hq. destruct (Hp2 q Hq) as [Hq1 Hq2]. split; [by apply Hfwd|done].
    - intros id c' Hc'. simpl in Hc'. rewrite E3 in Hc'. simpl in Hc'.
      apply lookup_delete_Some in Hc' as [_ Hc']. by eapply Hch.
    - intros c' u lg Hl. apply (Hsum c' u lg). unfold last_game_of in *. simpl in Hl.
      by rewrite E4 in Hl. }
  destruct (get_setup v (udata_of st6 user_id)); [by apply consistent_put_udata|done].
Qed.

Lemma consistent_store_challenge id c st :
  consistent st → c_initiator c ≠ c_challenged c → consistent (store_challenge id c st).
Proof.
  intros (Hreg & Hch & Hsum) Hne. split; [done|]. split; [|done].
  intros id' c' Hc'. simpl in Hc'.
  destruct (decide (id' = id)) as [->|Hn].
  - rewrite lookup_insert_eq in Hc'. by injection Hc' as <-.
  - rewrite lookup_insert_ne in Hc' by done. by eapply Hch.
Qed.

Lemma consistent_decline id st : consistent st → consistent (decline id st).2.
Proof.
  intros (Hreg & Hch & Hsum). unfold decline.
  destruct (pending_challenges st !! id); [|done].
  split; [done|]. split; [|done].
  intros id' c' Hc'. simpl in Hc'. apply lookup_delete_Some in Hc' as [_ Hc'].
  by eapply Hch.
Qed.

Lemma consistent_play_again v chat_id user_id new_mid st :
  consistent st → consistent (play_again v chat_id user_id new_mid st).2.
Proof.
  intros Hc. unfold play_again.
  destruct (last_game_of st chat_id user_id) as [last|] eqn:Hl; [|done].
  destruct (lg_opponent last) as [o|] eqn:Ho.
  - destruct (user_games st !! (chat_id, o)); [done|].
    apply consistent_store_challenge; [done|]. simpl.
    destruct Hc as (_ & _ & Hsum). intros ->. eapply Hsum; [exact Hl|done].
  - apply consistent_start. by apply consistent_put_udata.
Qed.

Lemma consistent_double v chat_id user_id new_mid st :
  consistent st → consistent (double v chat_id user_id new_mid st).2.
Proof.
  intros Hc. unfold double.
  destruct (last_game_of st chat_id user_id) as [last|] eqn:Hl; [|done].
  destruct (lg_opponent last) as [o|] eqn:Ho.
  - destruct (_ || _); [done|].
    destruct (user_games st !! (chat_id, o)); [done|].
    apply consistent_store_challenge; [done|]. simpl.
    destruct Hc as (_ & _ & Hsum). intros ->. eapply Hsum; [exact Hl|done].
  - destruct (Qgt_bool _ _); [done|].
    apply consistent_start. by apply consistent_put_udata.
Qed.

Lemma consistent_text_handler v chat_id user_id at_sign result st :
  consistent st → consistent (text_handler v chat_id user_id at_sign result st).2.
Proof.
  intros Hc. unfold text_handler.
  destruct (get_setup v _) as [su|]; [|done].
  destruct (_ && _); [|done].
  destruct (negb at_sign); [done|].
  destruct result as [x|]; [|done].
  destruct (x =? user_id) eqn:Hx; [done|].
  destruct (Qgt_bool _ _); [done|].
  destruct (user_games st !! (chat_id, x)); [done|].
  destruct (get_mode v _); [|done].
  destruct (get_points v _); [|done].
  cbn [snd]. apply consistent_put_udata, consistent_store_challenge; [done|].
  simpl. lia.
Qed.

Lemma consistent_game_command v chat_id user_id amount new_mid st :
  consistent st → consistent (game_command v chat_id user_id amount new_mid st).2.
Proof.
  intros Hc. unfold game_command.
  destruct (negb _); [done|]. destruct (Qle_bool _ _); [done|].
  destruct (Qgt_bool _ _); [done|].
  destruct (user_games st !! _); [done|]. by apply consistent_put_udata.
Qed.

Lemma consistent_button_handler v chat_id user_id qmid data t st :
  consistent st → consistent (button_handler v chat_id user_id qmid data t st).2.
Proof.
  intros Hc. unfold button_handler.
  destruct (get_setup v (udata_of st user_id)) as [su|].
  - destruct (negb _); [done|]. destruct (negb _); [done|].
    destruct data; try done; try (by apply consistent_put_udata).
    + destruct (get_mode v _); by apply consistent_put_udata.
    + destruct (get_mode v _) as [m|]; [|done].
      destruct (get_points v _); [|done]. by destruct (known_mode m).
    + by apply consistent_start.
  - destruct data; try done.
    + by apply (consistent_take_turn v).
    + by apply consistent_accept.
    + by apply consistent_decline.
    + by apply consistent_play_again.
    + by apply consistent_double.
Qed.

Lemma consistent_registered v chat_id user_id qmid data t st :
  consistent st → consistent (registered_button_handler v chat_id user_id qmid data t st).2.
Proof.
  intros Hc. unfold registered_button_handler, with_game_ownership_check.
  assert (consistent
            match dice_setup (udata_of st user_id) with
            | Some su =>
                if opt_eqb (su_message_id su) (Some qmid)
                then button_handler v chat_id user_id qmid data t st
                else (NoGameOrSetup, st)
            | None => (NoGameOrSetup, st)
            end.2) as Hsetup.
  { destruct (dice_setup _) as [su|]; [|done].
    destruct (opt_eqb _ _); [by apply consistent_button_handler|done]. }
  destruct (user_games st !! (chat_id, user_id)) as [k|]; [|done].
  destruct (games st !! k) as [g|] eqn:Hg; [|done].
  apply consistent_button_handler. by eapply consistent_write_game.
Qed.

(** X23. The registries stay consistent.  In the empty state, and after any
    sequence of commands, button presses (handled directly or through the
    registered wrapper) and proposal texts of the darts and football
    handlers: every pointer of a participant leads to a stored session whose
    key is made of the chat and its two players, the participant plays in
    it, all its human players point to it and its two players differ; no
    pending challenge is from a user to themselves; no summary names its
    owner as the opponent. *)
Theorem registries_stay_consistent (st : state) (l : list game_update) :
  consistent st →
  consistent (run_updates st l)
  ∧ consistent (run_updates empty_state l)
  ∧ (∀ c u k, user_games (run_updates st l) !! (c, u) = Some k →
       ∃ g, games (run_updates st l) !! k = Some g
            ∧ k = (c, player1 g, player2 g)
            ∧ (u = player1 g ∨ player2 g = Some u)
            ∧ player2 g ≠ Some (player1 g)).
Proof.
  assert (∀ l s, consistent s → consistent (run_updates s l)) as Hrun.
  { clear. intros l. induction l as [|u l IH]; intros s Hs; [done|].
    simpl. apply IH. destruct u; simpl.
    - by apply consistent_game_command.
    - by apply consistent_button_handler.
    - by apply consistent_registered.
    - by apply consistent_text_handler. }
  intros Hc. split; [by apply Hrun|]. split.
  - apply Hrun. split; [|split].
    + intros c u k H. simpl in H. by rewrite lookup_empty in H.
    + intros id c H. simpl in H. by rewrite lookup_empty in H.
    + intros c u lg H. unfold last_game_of in H. simpl in H.
      rewrite lookup_empty in H. simpl in H. by rewrite lookup_empty in H.
  - intros c u k Hk. destruct (Hrun l st Hc) as (Hreg & _).
    destruct (Hreg c u k Hk) as (g & Hg & Hkey & Hpl & _ & Hp2).
    exists g. split; [done|]. split; [done|]. split; [done|].
    intros Hq. by destruct (Hp2 _ Hq).
Qed.

Lemma registries_stay_consistent_witness :
  consistent darts_ready
  ∧ consistent (run_updates darts_ready
                  [UButton Darts chat alice 30 cb_bot (Transport 40 None [])])
  ∧ user_games (run_updates darts_ready
                  [UButton Darts chat alice 30 cb_bot (Transport 40 None [])])
      !! (chat, alice) = Some (chat, alice, None).
Proof.
  assert (consistent darts_ready) as H.
  { split; [|split].
    - intros c u k E. simpl in E. by rewrite lookup_empty in E.
    - intros id c E. simpl in E. by rewrite lookup_empty in E.
    - intros c u lg E. unfold last_game_of in E. simpl in E.
      rewrite lookup_empty in E. simpl in E. by rewrite lookup_empty in E. }
  split; [exact H|]. split.
  - exact (proj1 (registries_stay_consistent darts_ready
                    [UButton Darts chat alice 30 cb_bot (Transport 40 None [])] H)).
  - vm_compute. reflexivity.
Defined.

(** ** A task that runs alone is the handler *)

Lemma throw_alone_finished p r w : throw_alone p (Finished r) w r w.
Proof.
  exists 0%nat. intros m _. induction m as [|m IH]; [done|]. simpl. exact IH.
Qed.

Lemma throw_alone_step p pc w w1 pc1 r w' :
  throw_step p pc w = (w1, pc1) →
  throw_alone p pc1 w1 r w' →
  throw_alone p pc w r w'.
Proof.
  intros Hs [n Hn]. exists (S n). intros m Hm.
  destruct m as [|m]; [lia|]. simpl. unfold throw_task_step. simpl. rewrite Hs.
  apply Hn. lia.
Qed.

Lemma write_game_twice k g g' st :
  write_game k g' (write_game k g st) = write_game k g' st.
Proof. unfold write_game, set_games. simpl. by rewrite insert_insert_eq. Qed.

Lemma games_write_game k g st : games (write_game k g st) !! k = Some g.
Proof. simpl. by rewrite lookup_insert_eq. Qed.

Lemma deref_registered k g st d : games st !! k = Some g → deref k (World st d) = Some g.
Proof. intros H. unfold deref. simpl. by rewrite H. Qed.

Lemma assign_registered k g g0 st d :
  games st !! k = Some g0 → assign k g (World st d) = World (write_game k g st) d.
Proof. intros H. unfold assign. simpl. by rewrite H. Qed.

Lemma evaluate_round_overwrites v g g0 chat_id k new_mid st :
  evaluate_round v g chat_id k new_mid (write_game k g0 st)
  = evaluate_round v g chat_id k new_mid st.
Proof.
  unfold evaluate_round.
  destruct (_ || _); [by rewrite write_game_twice|].
  destruct (computed_scores _ _ _ _) as [[s1 s2]|]; [|by rewrite write_game_twice].
  by rewrite !write_game_twice.
Qed.

(** [evaluate_round], run from its first step with nothing in between, is
    the function [evaluate_round]. *)
Lemma evaluate_alone p k g g0 st d :
  games st !! k = Some g0 →
  let start := evaluate_begin k g (World st d) in
  let whole := evaluate_round Darts g (p_chat p) k (t_new_mid (p_transport p)) st in
  ∃ w', throw_alone p start.2 start.1 whole.1 w' ∧ shared w' = whole.2.
Proof.
  intros Hreg start whole. unfold start, whole, evaluate_begin, evaluate_round.
  destruct (_ || _).
  { rewrite (assign_registered _ _ _ _ _ Hreg). cbn [fst snd].
    eexists. split.
    - eapply throw_alone_step; [|apply throw_alone_finished].
      cbn [throw_step]. rewrite (deref_registered _ _ _ _ (games_write_game _ _ _)).
      rewrite (assign_registered _ _ _ _ _ (games_write_game _ _ _)).
      by rewrite write_game_twice.
    - done. }
  destruct (computed_scores _ _ _ _) as [[s1 s2]|].
  2:{ rewrite (assign_registered _ _ _ _ _ Hreg). cbn [fst snd].
      eexists. split; [apply throw_alone_finished|done]. }
  set (g1 := match award Darts s1 s2 with Some s => add_point s g | None => g end).
  rewrite (assign_registered _ _ _ _ _ Hreg). cbn [fst snd].
  destruct (target_reached g1) eqn:Ht.
  - (* the match is settled *)
    unfold settle.
    set (winner := if at1 (scores g1) >? at2 (scores g1) then Player1 else Player2).
    set (sw := write_game k g1 st).
    change (match player_of g1 winner with
            | Some w0 =>
                update_user_balance w0
                  (get_user_balance sw w0 + bet g1 * multiplier + bet g1)%Q sw
            | None => sw
            end) with (credited g1 winner sw).
    set (sc := credited g1 winner sw).
    change (match player2 g1 with
            | Some p2 =>
                record_last_game (p_chat p) p2
                  (LastGame (Some (player1 g1)) (mode g1) (points_to_win g1) (bet g1))
                  (record_last_game (p_chat p) (player1 g1)
                     (LastGame (Some p2) (mode g1) (points_to_win g1) (bet g1)) sc)
            | None =>
                record_last_game (p_chat p) (player1 g1)
                  (LastGame None (mode g1) (points_to_win g1) (bet g1)) sc
            end) with (record_summaries g1 (p_chat p) sc).
    set (st2 := record_summaries g1 (p_chat p) sc).
    assert (deref k (World sc d) = Some g1) as Hd.
    { apply deref_registered. unfold sc. rewrite credited_games. apply games_write_game. }
    assert (throw_step p (NamesAsked k) (World sw d) = (World sc d, ResultSent k winner))
      as Hstep1.
    { cbn [throw_step]. unfold evaluate_decide.
      rewrite (deref_registered k g1 sw d (games_write_game _ _ _)), Ht. done. }
    assert (∀ r w', throw_step p (ResultSent k winner) (World sc d) = (w', Finished r) →
                    throw_alone p (NamesAsked k) (World sw d) r w') as Hrun.
    { intros r w' Hs. eapply throw_alone_step; [exact Hstep1|].
      eapply throw_alone_step; [exact Hs|]. apply throw_alone_finished. }
    cbn [throw_step] in Hrun. unfold evaluate_close in Hrun. rewrite Hd in Hrun.
    cbn [shared detached] in Hrun. fold st2 in Hrun.
    destruct (match player2 g1 with
              | Some p2 => del_user_game (p_chat p, p2) st2
              | None => Some st2
              end) as [st3|].
    2:{ eexists. split; [by apply Hrun|done]. }
    destruct (del_user_game (p_chat p, player1 g1) st3) as [st4|].
    2:{ eexists. split; [by apply Hrun|done]. }
    unfold detach, del_game in *. cbn [shared detached] in Hrun.
    destruct (games st4 !! k).
    + eexists. split; [by apply Hrun|done].
    + eexists. split; [by apply Hrun|done].
  - (* the next round *)
    eexists. split.
    + eapply throw_alone_step.
      { cbn [throw_step]. unfold evaluate_decide.
        rewrite (deref_registered _ _ _ _ (games_write_game _ _ _)), Ht.
        rewrite (assign_registered _ _ _ _ _ (games_write_game _ _ _)). done. }
      eapply throw_alone_step; [|apply throw_alone_finished].
      cbn [throw_step].
      rewrite (deref_registered _ _ _ _ (games_write_game _ _ _)).
      rewrite (assign_registered _ _ _ _ _ (games_write_game _ _ _)). done.
    + cbn [shared snd]. by rewrite !write_game_twice.
Qed.

(** The bot's loop, run with nothing in between, is [bot_throws]. *)
Lemma bot_loop_alone p k other g2 st d :
  games st !! k = Some g2 →
  ∀ n supply acc,
    match bot_throws (S n) supply with
    | None =>
        throw_alone p (BotDie k other (S n) supply acc) (World st d)
                    BotThrowFailed (World st d)
    | Some l =>
        ∀ r w',
          throw_alone p
            (evaluate_begin k (extend_rolls other (acc ++ l) g2) (World st d)).2
            (evaluate_begin k (extend_rolls other (acc ++ l) g2) (World st d)).1 r w' →
          throw_alone p (BotDie k other (S n) supply acc) (World st d) r w'
    end.
Proof.
  intros Hreg n. induction n as [|n IH]; intros supply acc.
  - destruct supply as [|[x|] rest]; cbn [bot_throws].
    + eapply throw_alone_step; [done|apply throw_alone_finished].
    + intros r w' H. eapply throw_alone_step; [|exact H].
      cbn [throw_step bot_die]. rewrite (deref_registered _ _ _ _ Hreg).
      by destruct (evaluate_begin _ _ _).
    + eapply throw_alone_step; [done|apply throw_alone_finished].
  - destruct supply as [|[x|] rest].
    + eapply throw_alone_step; [done|apply throw_alone_finished].
    + specialize (IH rest (acc ++ [x])).
      change (bot_throws (S (S n)) (Some x :: rest))
        with (match bot_throws (S n) rest with
              | Some l => Some (x :: l)
              | None => None
              end).
      destruct (bot_throws (S n) rest) as [l|].
      * intros r w' H. eapply throw_alone_step; [done|]. apply IH.
        by rewrite <- app_assoc.
      * eapply throw_alone_step; [done|exact IH].
    + eapply throw_alone_step; [done|apply throw_alone_finished].
Qed.

(** The press of a throw button, handled by [dart_button_handler] with
    nothing in between, is [button_handler]. *)
Lemma handler_alone p st d :
  let whole :=
    button_handler Darts (p_chat p) (p_user p) (p_qmid p) (cb_throw (p_round p))
                   (p_transport p) st in
  ∃ w', throw_alone p AtHandler (World st d) whole.1 w' ∧ shared w' = whole.2.
Proof.
  intros whole. unfold whole, button_handler.
  assert (∀ r, throw_step p AtHandler (World st d) = (World st d, Finished r) →
               ∃ w', throw_alone p AtHandler (World st d) r w' ∧ shared w' = st) as Hstop.
  { intros r Hs. exists (World st d). split; [|done].
    eapply throw_alone_step; [exact Hs|apply throw_alone_finished]. }
  assert (∀ pc w1 r w',
            throw_step p AtHandler (World st d) = (w1, pc) →
            throw_alone p pc w1 r w' →
            throw_alone p AtHandler (World st d) r w') as Hgo.
  { intros pc w1 r w' Hs H. eapply throw_alone_step; [exact Hs|exact H]. }
  cbn [throw_step] in Hstop, Hgo. unfold throw_checks in Hstop, Hgo.
  cbn [shared] in Hstop, Hgo.
  destruct (get_setup Darts (udata_of st (p_user p))) as [su|].
  { destruct (negb (su_initiator su =? p_user p)); [by apply Hstop|].
    destruct (negb (opt_eqb (su_message_id su) (Some (p_qmid p)))); by apply Hstop. }
  unfold dart_throw.
  destruct (user_games st !! (p_chat p, p_user p)) as [k|]; [|by apply Hstop].
  destruct (games st !! k) as [g|] eqn:Hreg; [|by apply Hstop].
  destruct (negb (opt_eqb (Some (p_qmid p)) (message_id g))); [by apply Hstop|].
  destruct (target_reached g); [by apply Hstop|].
  destruct (player_key g (p_user p)) as [pk|]; [|by apply Hstop].
  destruct (negb (p_round p =? round_number g)); [by apply Hstop|].
  destruct (negb (slot_eqb pk (current_player g))); [by apply Hstop|].
  destruct (t_die (p_transport p)) as [dart_value|]; [|by apply Hstop].
  clear Hstop.
  assert (∀ r w', throw_alone p (DieSent k pk dart_value) (World st d) r w' →
                  throw_alone p AtHandler (World st d) r w') as Hgo'.
  { intros r w'. by apply Hgo. }
  clear Hgo. rename Hgo' into Hgo.
  assert (∀ r w', throw_alone p (after_die p k pk dart_value (World st d)).2
                              (after_die p k pk dart_value (World st d)).1 r w' →
                  throw_alone p AtHandler (World st d) r w') as Hdie.
  { intros r w' H. apply Hgo. eapply throw_alone_step; [|exact H]. cbn [throw_step].
    by destruct (after_die _ _ _ _ _). }
  clear Hgo. unfold after_die in Hdie. rewrite (deref_registered _ _ _ _ Hreg) in Hdie.
  set (g1 := append_roll pk dart_value g) in *.
  destruct (both_complete g1).
  { destruct (evaluate_alone p k g1 g st d Hreg) as (w' & Hrun & Hsh).
    exists w'. split; [by apply Hdie|done]. }
  destruct (get_slot (roll_count g1) pk <? rolls_needed g1).
  { rewrite (assign_registered _ _ _ _ _ Hreg) in Hdie. cbn [fst snd] in Hdie.
    eexists. split.
    - apply Hdie. eapply throw_alone_step; [|apply throw_alone_finished].
      cbn [throw_step]. rewrite (deref_registered _ _ _ _ (games_write_game _ _ _)).
      rewrite (assign_registered _ _ _ _ _ (games_write_game _ _ _)). done.
    - cbn [shared snd]. by rewrite write_game_twice. }
  set (other_player := other_slot pk) in *.
  set (g2 := with_current_player other_player g1) in *.
  destruct (player_of g2 other_player).
  { rewrite (assign_registered _ _ _ _ _ Hreg) in Hdie. cbn [fst snd] in Hdie.
    eexists. split.
    - apply Hdie. eapply throw_alone_step; [|apply throw_alone_finished].
      cbn [throw_step]. rewrite (deref_registered _ _ _ _ (games_write_game _ _ _)).
      rewrite (assign_registered _ _ _ _ _ (games_write_game _ _ _)). done.
    - cbn [shared snd]. by rewrite write_game_twice. }
  destruct (Z.to_nat (rolls_needed g2 - get_slot (roll_count g2) other_player))
    as [|n].
  { cbn [bot_throws].
    destruct (evaluate_alone p k (extend_rolls other_player [] g2) g st d Hreg)
      as (w' & Hrun & Hsh).
    exists w'. split; [by apply Hdie|done]. }
  rewrite (assign_registered _ _ _ _ _ Hreg) in Hdie. cbn [fst snd] in Hdie.
  pose proof (bot_loop_alone p k other_player g2 (write_game k g2 st) d
                (games_write_game _ _ _) n (t_bot_dice (p_transport p)) []) as Hloop.
  destruct (bot_throws (S n) (t_bot_dice (p_transport p))) as [l|].
  - destruct (evaluate_alone p k (extend_rolls other_player l g2) g2
                (write_game k g2 st) d (games_write_game _ _ _))
      as (w' & Hrun & Hsh).
    exists w'. rewrite evaluate_round_overwrites in Hrun, Hsh.
    split; [|done]. apply Hdie, Hloop. exact Hrun.
  - eexists. split; [apply Hdie; exact Hloop|done].
Qed.

(** The press of a throw button as the application dispatches it: when its
    task runs with nothing in between, it finishes, with the reply and the
    state of [registered_button_handler]. *)
Lemma registered_throw_alone p st d :
  let whole :=
    registered_button_handler Darts (p_chat p) (p_user p) (p_qmid p)
      (cb_throw (p_round p)) (p_transport p) st in
  ∃ w', throw_alone p AtWrapper (World st d) whole.1 w' ∧ shared w' = whole.2.
Proof.
  intros whole. unfold whole, registered_button_handler, with_game_ownership_check.
  assert (∀ w1 called r w',
            wrapper_step (p_chat p) (p_user p) (p_qmid p) (World st d) = (w1, called) →
            throw_alone p (if called then AtHandler else Finished NoGameOrSetup) w1 r w' →
            throw_alone p AtWrapper (World st d) r w') as Hgo.
  { intros w1 called r w' Hs H. eapply throw_alone_step; [|exact H].
    cbn [throw_step]. by rewrite Hs. }
  unfold wrapper_step in Hgo. cbn [shared detached] in Hgo.
  assert (∀ st1, ∃ w',
            throw_alone p AtHandler (World st1 d)
              (button_handler Darts (p_chat p) (p_user p) (p_qmid p)
                 (cb_throw (p_round p)) (p_transport p) st1).1 w'
            ∧ shared w'
              = (button_handler Darts (p_chat p) (p_user p) (p_qmid p)
                   (cb_throw (p_round p)) (p_transport p) st1).2) as Hh.
  { intros st1. apply handler_alone. }
  destruct (user_games st !! (p_chat p, p_user p)) as [k|].
  - destruct (games st !! k) as [g|].
    + destruct (Hh (write_game k (with_message_id (Some (p_qmid p)) g) st))
        as (w' & Hrun & Hsh).
      exists w'. split; [|done]. by eapply Hgo.
    + destruct (dice_setup (udata_of st (p_user p))) as [su|].
      * destruct (opt_eqb (su_message_id su) (Some (p_qmid p))) eqn:E.
        -- destruct (Hh st) as (w' & Hrun & Hsh).
           exists w'. split; [|done]. eapply Hgo; [reflexivity|]. exact Hrun.
        -- exists (World st d). split; [|done]. eapply Hgo; [reflexivity|].
           apply throw_alone_finished.
      * exists (World st d). split; [|done]. eapply Hgo; [reflexivity|].
        apply throw_alone_finished.
  - destruct (dice_setup (udata_of st (p_user p))) as [su|].
    + destruct (opt_eqb (su_message_id su) (Some (p_qmid p))) eqn:E.
      * destruct (Hh st) as (w' & Hrun & Hsh).
        exists w'. split; [|done]. eapply Hgo; [reflexivity|]. exact Hrun.
      * exists (World st d). split; [|done]. eapply Hgo; [reflexivity|].
        apply throw_alone_finished.
    + exists (World st d). split; [|done]. eapply Hgo; [reflexivity|].
      apply throw_alone_finished.
Qed.

Lemma flip_alone_finished p r w : flip_alone p (FlipFinished r) w r w.
Proof.
  exists 0%nat. intros m _. induction m as [|m IH]; [done|]. simpl. exact IH.
Qed.

Lemma flip_alone_step p pc w w1 pc1 r w' :
  flip_step p pc w = (w1, pc1) →
  flip_alone p pc1 w1 r w' →
  flip_alone p pc w r w'.
Proof.
  intros Hs [n Hn]. exists (S n). intros m Hm.
  destruct m as [|m]; [lia|]. simpl. unfold flip_task_step. simpl. rewrite Hs.
  apply Hn. lia.
Qed.

(** The flip, handled by [coin_button_handler] with nothing in between, is
    the function [coin_button_handler]. *)
Lemma flip_handler_alone p new_mid st d :
  let whole :=
    coin_button_handler (c_chat p) (c_user p) (c_qmid p) coin_flip (c_draw p) new_mid st in
  ∃ w', flip_alone p FlipAtHandler (World st d) whole.1 w' ∧ shared w' = whole.2.
Proof.
  intros whole. unfold whole, coin_button_handler.
  assert (∀ r, flip_step p FlipAtHandler (World st d) = (World st d, FlipFinished r) →
               ∃ w', flip_alone p FlipAtHandler (World st d) r w' ∧ shared w' = st) as Hstop.
  { intros r Hs. exists (World st d). split; [|done].
    eapply flip_alone_step; [exact Hs|apply flip_alone_finished]. }
  assert (∀ pc w1 r w',
            flip_step p FlipAtHandler (World st d) = (w1, pc) →
            flip_alone p pc w1 r w' →
            flip_alone p FlipAtHandler (World st d) r w') as Hgo.
  { intros pc w1 r w' Hs H. eapply flip_alone_step; [exact Hs|exact H]. }
  cbn [flip_step shared] in Hstop, Hgo.
  destruct (coin_games st) as [registered|] eqn:Hall; [|by apply Hstop].
  destruct (registered !! (c_chat p, c_user p)) as [game|] eqn:Hreg; [|by apply Hstop].
  destruct (negb (c_qmid p =? cg_match_message_id game)); [by apply Hstop|].
  clear Hstop.
  set (result := coin_result (cg_choice game) (c_draw p)).
  set (st1 := if side_eqb (cg_choice game) result then _ else _).
  assert (coin_games st1 = Some registered) as Hall1.
  { unfold st1. destruct (side_eqb _ _); by rewrite update_user_balance_coin_games. }
  eexists. split.
  - eapply Hgo; [reflexivity|].
    eapply flip_alone_step; [cbn [flip_step shared detached]; reflexivity|].
    eapply flip_alone_step; [|apply flip_alone_finished].
    cbn [flip_step shared detached]. fold result. fold st1.
    change (coin_games (put_udata ?u ?x ?s)) with (coin_games s).
    rewrite Hall1, Hreg. reflexivity.
  - cbn [shared snd]. by rewrite Hall1.
Qed.

(** ** Presses that overlap *)

(** C4, at the failing input.  Player 1 is in a one-point bot match in mode
    "normal" for a wager of 5 (balance 5 after the debit) and presses the
    throw button of message 50 twice: the first die is 6 against the bot's 2,
    the second 4 against the bot's 3.

    When the task of the second press starts after the first has finished,
    the match is settled once: player 1 is credited 5*1.92 + 5 and the second
    press finds no session.

    When the second press arrives while the first task sleeps after its
    checks, it passes the same checks.  The first task appends its die, lets
    the bot throw, evaluates the round, credits player 1 and removes the
    session.  The second task goes on with the game dictionary it holds:
    it appends its die, lets the bot throw and calls [evaluate_round] for
    the session that is over; the evaluation reads the first dice again,
    raises the score from 1 to 2 and credits player 1 a second time, who
    ends 2 * (5*1.92 + 5) above the balance after the debit.  The task ends
    with KeyError at [del context.bot_data['user_games'][...]]. *)
Theorem overlapping_throws_credit_twice :
  let tasks := [ThrowTask first_press AtWrapper; ThrowTask second_press AtWrapper] in
  let start := World bot_match ∅ in
  let key : game_key := (chat, alice, None) in
  let in_turn :=
    run_schedule throw_task_step [0; 0; 0; 0; 0; 0; 1]%nat tasks start in
  let first_done :=
    run_schedule throw_task_step [0; 0; 1; 1; 0; 1; 0; 0; 0]%nat tasks start in
  let second_evaluated :=
    run_schedule throw_task_step [0; 0; 1; 1; 0; 1; 0; 0; 0; 1]%nat tasks start in
  let overlapped :=
    run_schedule throw_task_step [0; 0; 1; 1; 0; 1; 0; 0; 0; 1; 1; 1]%nat tasks start in
  (get_user_balance bot_match alice == 5)%Q
  ∧ (bet <$> games bot_match !! key) = Some 5%Q
  ∧ (points_to_win <$> games bot_match !! key) = Some 1
  ∧ map tt_pc in_turn.1 = [Finished (GameOver Player1); Finished NoGameOrSetup]
  ∧ (get_user_balance (shared in_turn.2) alice == 5 + (5 * 1.92 + 5))%Q
  ∧ map tt_pc first_done.1
    = [Finished (GameOver Player1); BotDie key Player2 1 [Some 3] []]
  ∧ (get_user_balance (shared first_done.2) alice == 5 + (5 * 1.92 + 5))%Q
  ∧ games (shared first_done.2) !! key = None
  ∧ user_games (shared first_done.2) !! (chat, alice) = None
  ∧ (scores <$> detached first_done.2 !! key) = Some (PerSlot 1 0)
  ∧ map tt_pc second_evaluated.1 = [Finished (GameOver Player1); NamesAsked key]
  ∧ (scores <$> detached second_evaluated.2 !! key) = Some (PerSlot 2 0)
  ∧ (rolls <$> detached second_evaluated.2 !! key) = Some (PerSlot [6; 4] [2; 3])
  ∧ map tt_pc overlapped.1 = [Finished (GameOver Player1); Finished Raised]
  ∧ (get_user_balance (shared overlapped.2) alice == 5 + 2 * (5 * 1.92 + 5))%Q.
Proof.
  vm_compute. repeat split; reflexivity.
Qed.

Lemma run_schedule_first {T} (step : T → world → world * T) rest t0 t1 w w' t0' :
  step t0 w = (w', t0') →
  run_schedule step (0%nat :: rest) [t0; t1] w = run_schedule step rest [t0'; t1] w'.
Proof. intros H. simpl. by rewrite H. Qed.

Lemma run_schedule_second {T} (step : T → world → world * T) rest t0 t1 w w' t1' :
  step t1 w = (w', t1') →
  run_schedule step (1%nat :: rest) [t0; t1] w = run_schedule step rest [t0; t1'] w'.
Proof. intros H. simpl. by rewrite H. Qed.

Lemma flip_task_step_eq p pc w w' pc' :
  flip_step p pc w = (w', pc') →
  flip_task_step (FlipTask p pc) w = (w', FlipTask p pc').
Proof. intros H. unfold flip_task_step. simpl. by rewrite H. Qed.

Lemma flip_wrapper_passes p st d k g :
  user_games st !! (c_chat p, c_user p) = Some k →
  games st !! k = Some g →
  flip_step p FlipAtWrapper (World st d)
  = (World (write_game k (with_message_id (Some (c_qmid p)) g) st) d, FlipAtHandler).
Proof.
  intros Hk Hg. cbn [flip_step]. unfold wrapper_step. cbn [shared detached].
  by rewrite Hk, Hg.
Qed.

Lemma flip_check_passes p st d registered game :
  coin_games st = Some registered →
  registered !! (c_chat p, c_user p) = Some game →
  c_qmid p = cg_match_message_id game →
  flip_step p FlipAtHandler (World st d) = (World st d, FlipChecked game).
Proof.
  intros Hall Hreg Hq. cbn [flip_step shared]. by rewrite Hall, Hreg, Hq, Z.eqb_refl.
Qed.

(** The settlement step of a flip: the player's balance moves by +0.92 bets
    when the draw is below 0.4 and by minus the bet otherwise. *)
Lemma flip_pays p game st d :
  is_Some (balances st !! c_user p) →
  ∃ st1,
    flip_step p (FlipChecked game) (World st d)
    = (World st1 d, FlipPaid game (coin_result (cg_choice game) (c_draw p)))
    ∧ (get_user_balance st1 (c_user p)
       == get_user_balance st (c_user p)
          + (if Qgt_bool PLAYER_WIN_PROB (c_draw p)
             then 0.92 * cg_bet game else - cg_bet game))%Q
    ∧ (∀ u, u ≠ c_user p → get_user_balance st1 u = get_user_balance st u)
    ∧ is_Some (balances st1 !! c_user p)
    ∧ coin_games st1 = coin_games st
    ∧ user_games st1 = user_games st
    ∧ games st1 = games st.
Proof.
  intros Hr. eexists. split; [cbn [flip_step shared detached]; reflexivity|].
  unfold coin_result.
  destruct (Qgt_bool PLAYER_WIN_PROB (c_draw p)).
  - assert (side_eqb (cg_choice game) (cg_choice game) = true) as ->
        by (by destruct (cg_choice game)).
    split. { rewrite get_update_eq by done. unfold multiplier. ring. }
    split. { intros u Hu. by apply get_update_ne. }
    split; [by apply update_keeps_rows|].
    split; [apply update_user_balance_coin_games|].
    split; [apply update_user_balance_user_games|apply update_user_balance_games].
  - assert (side_eqb (cg_choice game) (opposite (cg_choice game)) = false) as ->
        by (by destruct (cg_choice game)).
    split. { rewrite get_update_eq by done. ring. }
    split. { intros u Hu. by apply get_update_ne. }
    split; [by apply update_keeps_rows|].
    split; [apply update_user_balance_coin_games|].
    split; [apply update_user_balance_user_games|apply update_user_balance_games].
Qed.

(** The last step of a flip: the bet is kept in the setup and the game is
    deleted; the [del] raises KeyError when the game is gone. *)
Lemma flip_closes p game result st d registered :
  coin_games st = Some registered →
  ∃ st1,
    flip_step p (FlipPaid game result) (World st d)
    = (World st1 d,
       FlipFinished (match registered !! (c_chat p, c_user p) with
                     | Some _ => CoinLanded result
                     | None => Raised
                     end))
    ∧ balances st1 = balances st
    ∧ coin_games st1
      = Some (match registered !! (c_chat p, c_user p) with
              | Some _ => delete (c_chat p, c_user p) registered
              | None => registered
              end)
    ∧ user_games st1 = user_games st
    ∧ games st1 = games st.
Proof.
  intros Hall. cbn [flip_step shared detached].
  change (coin_games (put_udata ?u ?x ?s)) with (coin_games s). rewrite Hall.
  destruct (registered !! (c_chat p, c_user p)); eexists; (split; [reflexivity|]);
    by repeat split.
Qed.

(** X14. The flip of a coin game is settled once per press that passes the
    check, not once per game.  The player has a darts or football session,
    so the wrapper lets the coin buttons through, and presses the flip
    button of a registered coin game twice, with draws [r1] and [r2].

    When the task of the second press starts after the first has finished,
    the first shows the side [coin_result] computes and moves the balance
    by +0.92 bets (draw below 0.4) or by minus the bet, and the second is
    answered "This button is from an old game!".

    The handler sleeps between its check and the removal of the game.  When
    the second press passes the check in that time, each task settles with
    its own draw: the balance moves by the sum of both outcomes for the one
    game, no other balance is touched, and the second task ends with
    KeyError at [del context.bot_data['coin_games'][...]]. *)
Theorem coin_flip_per_press (chat_id user_id qmid : Z) (r1 r2 : Q) (st : state)
    (k : game_key) (g : game) (game : coin_game) :
  user_games st !! (chat_id, user_id) = Some k →
  games st !! k = Some g →
  coin_game_of st (chat_id, user_id) = Some game →
  qmid = cg_match_message_id game →
  is_Some (balances st !! user_id) →
  let gain (r : Q) : Q :=
    if Qgt_bool PLAYER_WIN_PROB r then (0.92 * cg_bet game)%Q else (- cg_bet game)%Q in
  let tasks :=
    [FlipTask (CoinPress chat_id user_id qmid r1) FlipAtWrapper;
     FlipTask (CoinPress chat_id user_id qmid r2) FlipAtWrapper] in
  let in_turn :=
    run_schedule flip_task_step [0; 0; 0; 0; 1; 1]%nat tasks (World st ∅) in
  let overlapped :=
    run_schedule flip_task_step [0; 0; 1; 1; 0; 0; 1; 1]%nat tasks (World st ∅) in
  map ft_pc in_turn.1
  = [FlipFinished (CoinLanded (coin_result (cg_choice game) r1));
     FlipFinished OldGameButton]
  ∧ (get_user_balance (shared in_turn.2) user_id
     == get_user_balance st user_id + gain r1)%Q
  ∧ map ft_pc overlapped.1
    = [FlipFinished (CoinLanded (coin_result (cg_choice game) r1));
       FlipFinished Raised]
  ∧ (get_user_balance (shared overlapped.2) user_id
     == get_user_balance st user_id + gain r1 + gain r2)%Q
  ∧ (∀ u, u ≠ user_id →
       get_user_balance (shared overlapped.2) u = get_user_balance st u)
  ∧ coin_game_of (shared overlapped.2) (chat_id, user_id) = None.
Proof.
  intros Hk Hg Hcg Hq Hr gain tasks in_turn overlapped.
  destruct (coin_game_of_Some _ _ _ Hcg) as (registered & Hall & Hreg).
  set (p1 := CoinPress chat_id user_id qmid r1).
  set (p2 := CoinPress chat_id user_id qmid r2).
  set (g' := with_message_id (Some qmid) g).
  set (sa := write_game k g' st).
  assert (games sa !! k = Some g') as Hga by apply games_write_game.
  (* the first task up to its sleep *)
  assert (∀ rest,
            run_schedule flip_task_step (0 :: 0 :: rest)%nat tasks (World st ∅)
            = run_schedule flip_task_step rest
                [FlipTask p1 (FlipChecked game); FlipTask p2 FlipAtWrapper]
                (World sa ∅)) as Hfirst.
  { intros rest. unfold tasks. fold p1 p2.
    erewrite run_schedule_first
      by (apply flip_task_step_eq, (flip_wrapper_passes p1 st ∅ k g Hk Hg)).
    erewrite run_schedule_first
      by (apply flip_task_step_eq, (flip_check_passes p1 sa ∅ registered game Hall Hreg Hq)).
    done. }
  (* one after the other *)
  assert (∃ sd,
            in_turn
            = ([FlipTask p1 (FlipFinished (CoinLanded (coin_result (cg_choice game) r1)));
                FlipTask p2 (FlipFinished OldGameButton)], World sd ∅)
            ∧ (get_user_balance sd user_id == get_user_balance st user_id + gain r1)%Q)
    as (sd & Hturn & Hbd).
  { unfold in_turn. rewrite Hfirst.
    destruct (flip_pays p1 game sa ∅ Hr) as (sb & Hs1 & Hb1 & _ & _ & Hcb & Hub & Hgb).
    erewrite run_schedule_first by (apply flip_task_step_eq, Hs1).
    assert (coin_games sb = Some registered) as Hallb by (by rewrite Hcb).
    destruct (flip_closes p1 game (coin_result (cg_choice game) r1) sb ∅ registered Hallb)
      as (sc & Hs2 & Hbc & Hcc & Huc & Hgc).
    cbn [c_chat c_user p1] in Hs2, Hcc. rewrite Hreg in Hs2, Hcc.
    erewrite run_schedule_first by (apply flip_task_step_eq, Hs2).
    assert (user_games sc !! (chat_id, user_id) = Some k) as Hkc
        by (by rewrite Huc, Hub).
    assert (games sc !! k = Some g') as Hgc' by (by rewrite Hgc, Hgb).
    erewrite run_schedule_second
      by (apply flip_task_step_eq, (flip_wrapper_passes p2 sc ∅ k g' Hkc Hgc')).
    erewrite run_schedule_second.
    2:{ apply flip_task_step_eq. cbn [flip_step shared].
        change (coin_games (write_game ?a ?b ?s)) with (coin_games s).
        rewrite Hcc. cbn [c_chat c_user p2]. rewrite lookup_delete_eq. reflexivity. }
    eexists. split; [reflexivity|].
    change (get_user_balance (write_game ?a ?b ?s) ?u) with (get_user_balance s u).
    rewrite (get_user_balance_ext sc sb) by done.
    exact Hb1. }
  (* the second press passes the check while the first task sleeps *)
  assert (∃ sf,
            overlapped
            = ([FlipTask p1 (FlipFinished (CoinLanded (coin_result (cg_choice game) r1)));
                FlipTask p2 (FlipFinished Raised)], World sf ∅)
            ∧ (get_user_balance sf user_id
               == get_user_balance st user_id + gain r1 + gain r2)%Q
            ∧ (∀ u, u ≠ user_id → get_user_balance sf u = get_user_balance st u)
            ∧ coin_game_of sf (chat_id, user_id) = None)
    as (sf & Hover & Hbf & Hof & Hcf).
  { unfold overlapped. rewrite Hfirst.
    assert (user_games sa !! (chat_id, user_id) = Some k) as Hka by done.
    erewrite run_schedule_second
      by (apply flip_task_step_eq, (flip_wrapper_passes p2 sa ∅ k g' Hka Hga)).
    set (sa' := write_game k (with_message_id (Some (c_qmid p2)) g') sa).
    assert (coin_games sa' = Some registered) as Hall' by done.
    erewrite run_schedule_second
      by (apply flip_task_step_eq,
            (flip_check_passes p2 sa' ∅ registered game Hall' Hreg Hq)).
    assert (is_Some (balances sa' !! user_id)) as Hr' by done.
    destruct (flip_pays p1 game sa' ∅ Hr') as (sb & Hs1 & Hb1 & Ho1 & Hrb & Hcb & _ & _).
    erewrite run_schedule_first by (apply flip_task_step_eq, Hs1).
    assert (coin_games sb = Some registered) as Hallb by (by rewrite Hcb).
    destruct (flip_closes p1 game (coin_result (cg_choice game) r1) sb ∅ registered Hallb)
      as (sc & Hs2 & Hbc & Hcc & _ & _).
    cbn [c_chat c_user p1] in Hs2, Hcc. rewrite Hreg in Hs2, Hcc.
    erewrite run_schedule_first by (apply flip_task_step_eq, Hs2).
    assert (is_Some (balances sc !! user_id)) as Hrc by (by rewrite Hbc).
    destruct (flip_pays p2 game sc ∅ Hrc) as (se & Hs3 & Hb3 & Ho3 & _ & Hce & _ & _).
    erewrite run_schedule_second by (apply flip_task_step_eq, Hs3).
    assert (coin_games se = Some (delete (chat_id, user_id) registered)) as Halle
        by (by rewrite Hce).
    destruct (flip_closes p2 game (coin_result (cg_choice game) r2) se ∅ _ Halle)
      as (sf & Hs4 & Hbf & Hcf & _ & _).
    cbn [c_chat c_user p2] in Hs4, Hcf. rewrite lookup_delete_eq in Hs4, Hcf.
    erewrite run_schedule_second by (apply flip_task_step_eq, Hs4).
    exists sf. split; [reflexivity|].
    cbn [c_user c_draw p1 p2] in *.
    split.
    { rewrite (get_user_balance_ext sf se) by done. rewrite Hb3.
      rewrite (get_user_balance_ext sc sb) by done. rewrite Hb1.
      reflexivity. }
    split.
    { intros u Hu. rewrite (get_user_balance_ext sf se) by done.
      rewrite Ho3 by done. rewrite (get_user_balance_ext sc sb) by done.
      by rewrite Ho1. }
    unfold coin_game_of. rewrite Hcf. simpl. by rewrite lookup_delete_eq. }
  rewrite Hturn, Hover. cbn [fst snd shared map ft_pc].
  split; [done|]. split; [exact Hbd|]. split; [done|]. split; [exact Hbf|].
  split; [exact Hof|exact Hcf].
Qed.

Lemma coin_flip_per_press_witness :
  let tasks :=
    [FlipTask (CoinPress chat alice 60 0.7%Q) FlipAtWrapper;
     FlipTask (CoinPress chat alice 60 0.9%Q) FlipAtWrapper] in
  let overlapped :=
    run_schedule flip_task_step [0; 0; 1; 1; 0; 0; 1; 1]%nat tasks (World coin_started ∅) in
  coin_game_of coin_started (chat, alice) = Some (CoinGame 5%Q heads 60)
  ∧ (get_user_balance coin_started alice == 5)%Q
  ∧ map ft_pc overlapped.1
    = [FlipFinished (CoinLanded tails); FlipFinished Raised]
  ∧ (get_user_balance (shared overlapped.2) alice == 5 + - 5 + - 5)%Q.
Proof.
  intros tasks overlapped.
  destruct (coin_flip_per_press chat alice 60 0.7%Q 0.9%Q coin_started
              (chat, alice, Some bob)
              (with_message_id (Some 60) (new_game alice (Some bob) "normal" 1 5%Q))
              (CoinGame 5%Q heads 60))
    as (_ & _ & H3 & H4 & _).
  - reflexivity.
  - reflexivity.
  - reflexivity.
  - reflexivity.
  - vm_compute. by eexists.
  - split; [reflexivity|]. split; [reflexivity|]. split; [exact H3|exact H4].
Defined.

(** ** A proposed match and the proposer's setup *)

(** X19. A match that comes from a typed proposal is blocked until the
    proposer cancels the setup.  The proposer's setup dictionary survives
    the proposal and the opponent's accept (the accept clears the setup of
    the accepting user only), while both wagers are debited by the accept.
    As long as the setup is there, every throw of the proposer, who is
    player 1 and has the first turn, is turned away as a setup button, and
    the opponent's throws change nothing because it is not their turn.
    "Cancel" on the proposer's setup message removes the setup and nothing
    else; after it the proposer's throw on the match prompt is accepted and
    the die is stored. *)
Theorem proposed_match_waits_for_cancel (v : variant)
    (chat_id user_id opponent new_mid smid : Z) (st : state) (su : setup)
    (m : string) (p d : Z) :
  get_setup v (udata_of st user_id) = Some su →
  su_initiator su = user_id →
  su_message_id su = Some smid →
  expecting_username (udata_of st user_id) = true →
  get_mode v (udata_of st user_id) = Some m →
  get_points v (udata_of st user_id) = Some p →
  0 < p →
  opponent ≠ user_id →
  (su_bet su <= get_user_balance st opponent)%Q →
  user_games st !! (chat_id, opponent) = None →
  user_games st !! (chat_id, user_id) = None →
  get_setup v (udata_of st opponent) = None →
  is_Some (balances st !! user_id) →
  is_Some (balances st !! opponent) →
  let proposal := text_handler v chat_id user_id true (Some opponent) st in
  let game_id := Z.of_nat (size (pending_challenges st)) + 1 in
  let accepted :=
    button_handler v chat_id opponent new_mid (cb_accept game_id)
      (Transport new_mid None []) proposal.2 in
  let cancelled :=
    button_handler v chat_id user_id smid cb_cancel (Transport new_mid None [])
      accepted.2 in
  let key : game_key := (chat_id, user_id, Some opponent) in
  proposal.1 = ChallengeSent game_id
  ∧ accepted.1 = MatchStarted
  ∧ get_user_balance accepted.2 user_id = (get_user_balance st user_id - su_bet su)%Q
  ∧ get_user_balance accepted.2 opponent = (get_user_balance st opponent - su_bet su)%Q
  ∧ (current_player <$> games accepted.2 !! key) = Some Player1
  ∧ (∀ qmid n t,
       (button_handler v chat_id user_id qmid (cb_throw n) t accepted.2).2 = accepted.2
       ∧ ((button_handler v chat_id user_id qmid (cb_throw n) t accepted.2).1
          = NotYourSetup
          ∨ (button_handler v chat_id user_id qmid (cb_throw n) t accepted.2).1
            = Silent))
  ∧ (∀ qmid n t,
       (button_handler v chat_id opponent qmid (cb_throw n) t accepted.2).2 = accepted.2)
  ∧ cancelled.1 = SetupCancelled
  ∧ balances cancelled.2 = balances accepted.2
  ∧ games cancelled.2 = games accepted.2
  ∧ user_games cancelled.2 = user_games accepted.2
  ∧ (∀ mid bd,
       let thrown :=
         button_handler v chat_id user_id new_mid (cb_throw 1)
           (Transport mid (Some d) bd) cancelled.2 in
       (thrown.1 = ThrowAgain ∨ thrown.1 = NextTurn)
       ∧ (rolls <$> games thrown.2 !! key) = Some (PerSlot [d] [])).
Proof.
  intros Hs Hi Hsm He Hm Hp Hpos Hne Hb Huo Huu Hso Hru Hro
         proposal game_id accepted cancelled key.
  destruct (proposal_stores_challenge_facts v chat_id user_id opponent st su m p)
    as (Hp1 & Hp2 & Hp3 & _ & Hp5 & _ & Hp7); try done.
  fold proposal game_id in Hp1, Hp2, Hp3, Hp5, Hp7.
  assert (udata_of proposal.2 opponent = udata_of st opponent) as Hudo.
  { unfold proposal, text_handler.
    rewrite Hs, He, Hi, Z.eqb_refl, Huo, Hm, Hp. cbn [andb negb].
    assert ((opponent =? user_id) = false) as -> by lia.
    assert (Qgt_bool (su_bet su) (get_user_balance st opponent) = false) as ->.
    { destruct (Qgt_bool _ _) eqn:E; [|done]. apply Qgt_bool_iff in E. lra. }
    unfold udata_of. simpl. by rewrite lookup_insert_ne by done. }
  assert (accepted = accept v chat_id opponent game_id new_mid proposal.2) as Hacc.
  { unfold accepted. rewrite button_handler_no_setup by (by rewrite Hudo). done. }
  set (c := Challenge user_id opponent m p (su_bet su)) in *.
  destruct (accept_started v chat_id opponent game_id new_mid proposal.2 c)
    as (st' & Ha & Hg & Hk1 & Hk2 & _); try done;
    try (cbn [c_initiator c]; by rewrite Hp5).
  destruct (accept_debits v chat_id opponent game_id new_mid proposal.2 c)
    as (Hd1 & Hd2 & _); try done;
    try (cbn [c_initiator c]; by rewrite ?Hp5, ?Hp3).
  cbn [c_initiator c_mode c_points_to_win c_bet c] in *.
  rewrite <- Hacc in Hd1, Hd2.
  rewrite (get_user_balance_ext proposal.2 st) in Hd1, Hd2 by done.
  assert (accepted.2 = st') as Hst' by (by rewrite Hacc, Ha).
  assert (get_setup v (udata_of st' user_id) = Some su) as Hsu.
  { rewrite <- Hp7. f_equal. rewrite <- Hst', Hacc. unfold accept.
    rewrite Hp2. cbn [c_challenged c_initiator c_bet c_mode c_points_to_win c].
    rewrite Z.eqb_refl, Hp5, Huu, Huo. cbn [negb snd].
    match goal with
    | |- udata_of (match ?x with Some _ => _ | None => _ end) _ = _ => destruct x
    end; unfold udata_of; simpl;
      rewrite ?lookup_insert_ne by done;
      by rewrite !update_user_balance_user_data. }
  split; [done|]. split; [by rewrite Hacc, Ha|].
  split; [exact Hd1|]. split; [exact Hd2|].
  unfold cancelled. rewrite Hst'. split; [unfold key; by rewrite Hg|]. split.
  { intros qmid n t.
    destruct (button_handler_with_setup v chat_id user_id qmid (cb_throw n) t st' su Hsu)
      as [H | H]; [left; by eexists | |]; rewrite H; auto. }
  split.
  { intros qmid n t.
    assert (get_setup v (udata_of st' opponent) = None) as Hso'.
    { rewrite <- Hst', Hacc. unfold accept.
      rewrite Hp2. cbn [c_challenged c_initiator c_bet c_mode c_points_to_win c].
      rewrite Z.eqb_refl, Hp5, Huu, Huo. cbn [negb snd].
      match goal with
      | |- get_setup v (udata_of (match ?x with Some _ => _ | None => _ end) _) = _ =>
          destruct x eqn:Hx
      end; [|done].
      unfold udata_of. simpl. rewrite lookup_insert_eq. simpl. by destruct v. }
    rewrite button_handler_no_setup by done.
    eapply (throw_by_waiting_player chat_id opponent qmid n (t_die t) (t_bot_dice t)
              (t_new_mid t) st' _ _ v); try done.
    unfold player_key. simpl.
    assert ((user_id =? opponent) = false) as -> by lia.
    by rewrite Z.eqb_refl. }
  (* the proposer cancels the setup *)
  assert (button_handler v chat_id user_id smid cb_cancel (Transport new_mid None []) st'
          = (SetupCancelled,
             put_udata user_id (put_setup v None (udata_of st' user_id)) st')) as Hcan.
  { unfold button_handler. rewrite Hsu, Hi, Hsm, Z.eqb_refl. simpl.
    by rewrite Z.eqb_refl. }
  rewrite Hcan. cbn [fst snd].
  repeat (split; [done|]).
  intros mid bd.
  set (sc := put_udata user_id (put_setup v None (udata_of st' user_id)) st').
  assert (get_setup v (udata_of sc user_id) = None) as Hnone.
  { unfold sc, udata_of. simpl. rewrite lookup_insert_eq. simpl. by destruct v. }
  rewrite button_handler_no_setup by done. cbn [t_die t_bot_dice t_new_mid].
  assert (user_games sc !! (chat_id, user_id) = Some key) as Hkc by exact Hk1.
  assert (games sc !! key
          = Some (with_message_id (Some new_mid)
                    (new_game user_id (Some opponent) m p (su_bet su)))) as Hgc
      by exact Hg.
  assert (target_reached
            (with_message_id (Some new_mid)
               (new_game user_id (Some opponent) m p (su_bet su))) = false) as Htr.
  { unfold target_reached. simpl. lia. }
  destruct v; unfold dart_throw, football_take_shot;
    rewrite Hkc, Hgc, Htr; unfold player_key, both_complete; simpl;
    rewrite !Z.eqb_refl; simpl;
    destruct (m =? "double")%string; simpl;
    rewrite ?lookup_insert_eq; simpl; auto.
Qed.

Lemma proposed_match_waits_for_cancel_witness :
  let accepted :=
    button_handler Darts chat bob 50 (cb_accept 1) (Transport 50 None []) proposal1.2 in
  let cancelled :=
    button_handler Darts chat alice 30 cb_cancel (Transport 50 None []) accepted.2 in
  let thrown :=
    button_handler Darts chat alice 50 (cb_throw 1) (Transport 51 (Some 6) [])
      cancelled.2 in
  accepted.1 = MatchStarted
  ∧ get_user_balance accepted.2 alice = (get_user_balance negotiated alice - 1)%Q
  ∧ get_user_balance accepted.2 bob = (get_user_balance negotiated bob - 1)%Q
  ∧ (button_handler Darts chat alice 50 (cb_throw 1) (Transport 51 (Some 6) [])
       accepted.2).2 = accepted.2
  ∧ cancelled.1 = SetupCancelled
  ∧ (rolls <$> games thrown.2 !! (chat, alice, Some bob)) = Some (PerSlot [6] []).
Proof.
  intros accepted cancelled thrown.
  destruct (proposed_match_waits_for_cancel Darts chat alice bob 50 30 negotiated
              (Setup alice 1%Q (Some 30)) "normal" 1 6)
    as (_ & H2 & H3 & H4 & _ & H6 & _ & H8 & _ & _ & _ & H12); try reflexivity.
  - discriminate.
  - vm_compute. discriminate.
  - vm_compute. by eexists.
  - vm_compute. by eexists.
  - split; [exact H2|]. split; [exact H3|]. split; [exact H4|].
    split; [exact (proj1 (H6 50 1 (Transport 51 (Some 6) [])))|].
    split; [exact H8|]. exact (proj2 (H12 51 [])).
Defined.
